(** * Vosita slots: a shallow embedding of the slot engine

    The development follows the TypeScript sources:
    - [utils/slotGenerator.ts]  (validation before generation, the slot grid,
      the generator's availability annotation, re-projection, statistics),
    - [utils/slotFiltering.ts]  (the filter pipeline),
    - [utils/validation.ts]     (the Yup schema of the form),
    - [utils/storage.ts]        (persistence of the configuration and slots),
    - the submit handler of the generation form.

    Conventions of the embedding.
    - An absolute instant is a [Z]: milliseconds since the epoch.  A JS [Date]
      is an [option Z]; [None] is the Invalid Date (time value NaN).
    - A JS number that may be NaN is an [option Z]; durations are the integer
      minutes of the data model.
    - Exceptions are explicit: a computation yields an [Outcome].
    - moment-timezone is the timezone authority; what the code needs from it
      is collected in the record [TzAuthority]. *)

From Stdlib Require Import ZArith Lia Bool Ascii String List.
From Stdlib Require Import Sorting.Sorted Sorting.Permutation.
From Stdlib Require Import DecimalString DecimalZ.
From stdpp Require Import base option list strings pretty gmap.

Local Open Scope string_scope.
Local Open Scope Z_scope.

(** ** Exceptions and outcomes *)

(** The JS values that the code throws and catches.  [NonError] is a thrown
    value that is not an [Error] instance. *)
Inductive JsError : Type :=
| Error (message : string)
| SyntaxError (message : string)
| TypeError (message : string)
| RangeError (message : string)
| NonError (payload : string).

(** [error instanceof Error ? error.message : 'Unknown error'] *)
Definition messageOrUnknown (e : JsError) : string :=
  match e with
  | Error m | SyntaxError m | TypeError m | RangeError m => m
  | NonError _ => "Unknown error"
  end.

(** [error instanceof SyntaxError] *)
Definition isSyntaxError (e : JsError) : bool :=
  match e with
  | SyntaxError _ => true
  | _ => false
  end.

(** The result of running a piece of code: a value, an exception, or a loop
    that never ends. *)
Inductive Outcome (A : Type) : Type :=
| Returns (a : A)
| Throws (e : JsError)
| Diverges.

Arguments Returns {A} a.
Arguments Throws {A} e.
Arguments Diverges {A}.

Definition obind {A B : Type} (c : Outcome A) (k : A -> Outcome B) : Outcome B :=
  match c with
  | Returns a => k a
  | Throws e => Throws e
  | Diverges => Diverges
  end.

Notation "'let*' x ':=' c 'in' k" := (obind c (fun x => k))
  (at level 10, x pattern, c at level 100, k at level 200).

(** [try { body } catch (error) { handler(error) }] *)
Definition tryCatch {A : Type} (body : Outcome A) (handler : JsError -> Outcome A)
  : Outcome A :=
  match body with
  | Throws e => handler e
  | other => other
  end.

(** [if (cond) throw new Error(msg)] *)
Definition throwIf (cond : bool) (msg : string) : Outcome unit :=
  if cond then Throws (Error msg) else Returns tt.

(** ** Strings, digits and numbers *)

Definition isDigit (c : ascii) : bool :=
  let n := Z.of_N (N_of_ascii c) in (48 <=? n) && (n <=? 57).

Definition digitValue (c : ascii) : Z := Z.of_N (N_of_ascii c) - 48.

Fixpoint digitsValue (acc : Z) (cs : list ascii) : Z :=
  match cs with
  | [] => acc
  | c :: cs' => digitsValue (acc * 10 + digitValue c) cs'
  end.

(** [Number(text)] on a run of decimal digits, the form that the patterns
    of the validators let through: the value of the run, 0 for the empty
    text.  [Number] also reads texts of other forms (a sign, blanks around
    the digits, a fraction, an exponent, a radix prefix); they are outside
    this model, which takes them as NaN ([None]), so results that go through
    [jsNumber] are stated for texts of the HH:mm form. *)
Definition jsNumber (cs : list ascii) : option Z :=
  if forallb isDigit cs then Some (digitsValue 0 cs) else None.

(** [text.split(':')] *)
Fixpoint splitColon (cur : list ascii) (cs : list ascii) : list (list ascii) :=
  match cs with
  | [] => [rev cur]
  | c :: cs' =>
      if Ascii.eqb c ":" then rev cur :: splitColon [] cs'
      else splitColon (c :: cur) cs'
  end.

(** [const [hour, minute] = text.split(':').map(Number)]: a missing element
    is [undefined], which behaves as NaN in the arithmetic that follows. *)
Definition hourMinute (text : string) : option Z * option Z :=
  let parts := map jsNumber (splitColon [] (list_ascii_of_string text)) in
  (mjoin (parts !! 0%nat) , mjoin (parts !! 1%nat)).

(** Arithmetic and comparison of numbers that may be NaN. *)
Definition nanAdd (a b : option Z) : option Z :=
  match a, b with Some x, Some y => Some (x + y) | _, _ => None end.
Definition nanSub (a b : option Z) : option Z :=
  match a, b with Some x, Some y => Some (x - y) | _, _ => None end.
Definition nanMul (a b : option Z) : option Z :=
  match a, b with Some x, Some y => Some (x * y) | _, _ => None end.
Definition nanLe (a b : option Z) : bool :=
  match a, b with Some x, Some y => x <=? y | _, _ => false end.
Definition nanLt (a b : option Z) : bool :=
  match a, b with Some x, Some y => x <? y | _, _ => false end.

(** [hour * 60 + minute] *)
Definition minutesOfDay (hm : option Z * option Z) : option Z :=
  nanAdd (nanMul (fst hm) (Some 60)) (snd hm).

(** [/^\d{4}-\d{2}-\d{2}$/.test(text)] *)
Definition dateRegex_test (text : string) : bool :=
  match list_ascii_of_string text with
  | [y1; y2; y3; y4; s1; m1; m2; s2; d1; d2] =>
      isDigit y1 && isDigit y2 && isDigit y3 && isDigit y4 &&
      Ascii.eqb s1 "-" && isDigit m1 && isDigit m2 &&
      Ascii.eqb s2 "-" && isDigit d1 && isDigit d2
  | _ => false
  end.

(** [/^\d{2}:\d{2}$/.test(text)] *)
Definition timeRegex_test (text : string) : bool :=
  match list_ascii_of_string text with
  | [h1; h2; s; m1; m2] =>
      isDigit h1 && isDigit h2 && Ascii.eqb s ":" && isDigit m1 && isDigit m2
  | _ => false
  end.

(** JS truthiness of a string: [!text] holds exactly for the empty string. *)
Definition truthy (text : string) : bool :=
  match text with
  | EmptyString => false
  | _ => true
  end.

(** ** Calendar dates *)

Definition isLeapYear (y : Z) : bool :=
  ((y mod 4 =? 0) && negb (y mod 100 =? 0)) || (y mod 400 =? 0).

Definition daysInMonth (y m : Z) : Z :=
  if m =? 2 then (if isLeapYear y then 29 else 28)
  else if (m =? 4) || (m =? 6) || (m =? 9) || (m =? 11) then 30
  else 31.

(** Day number of a proleptic Gregorian date, counted from 1970-01-01. *)
Definition daysFromCivil (y m d : Z) : Z :=
  let y' := if m <=? 2 then y - 1 else y in
  let era := y' / 400 in
  let yoe := y' - era * 400 in
  let mp := (m + 9) mod 12 in
  let doy := (153 * mp + 2) / 5 + d - 1 in
  let doe := yoe * 365 + yoe / 4 - yoe / 100 + doy in
  era * 146097 + doe - 719468.

(** The calendar day that moment reads from a text of the shape YYYY-MM-DD:
    [None] is an invalid moment (month or day out of range), and so is any
    text that does not have the shape. *)
Definition parseCalendarDate (text : string) : option Z :=
  if dateRegex_test text then
    match list_ascii_of_string text with
    | [y1; y2; y3; y4; _; m1; m2; _; d1; d2] =>
        let y := digitsValue 0 [y1; y2; y3; y4] in
        let m := digitsValue 0 [m1; m2] in
        let d := digitsValue 0 [d1; d2] in
        if (1 <=? m) && (m <=? 12) && (1 <=? d) && (d <=? daysInMonth y m)
        then Some (daysFromCivil y m d) else None
    | _ => None
    end
  else None.

(** ** The timezone authority (moment-timezone) *)

Record TzAuthority : Type := {
  (** the exception that applying a zone, [m.tz(name)], raises, if it raises:
      moment-timezone raises on a name that is not a text, and an authority
      may reject a malformed name *)
  tzFault : string -> option JsError;
  (** [moment.tz.zone(name)] is not null *)
  zoneKnown : string -> bool;
  (** [moment.tz.names()] *)
  zoneNames : list string;
  (** [moment.tz.guess()] *)
  guessZone : string;
  (** the instant of a wall-clock time: zone, calendar day, hour, minute;
      how a time that a zone skips or repeats is read is for the authority
      to say *)
  atWall : string -> Z -> Z -> Z -> Z;
  (** first and last millisecond of a calendar day in a zone (for a name
      that is not known, the day of UTC) *)
  startOfDay : string -> Z -> Z;
  endOfDay : string -> Z -> Z;
  (** [m.tz(zone).hour()] and [.minute()] of an instant *)
  localHour : string -> Z -> Z;
  localMinute : string -> Z -> Z;
  (** what moment makes of a date text that is not a valid YYYY-MM-DD: a
      calendar day or an invalid moment; and of a time text that is not a
      valid HH:mm: an instant or an invalid moment *)
  looseDate : string -> option Z;
  looseTime : string -> option Z;
  (** the device zone: the instant of today's wall-clock hour and minute,
      and today's calendar day *)
  deviceWall : Z -> Z -> Z;
  deviceToday : Z
}.

(** A moment: its instant ([None] for an invalid moment) and the zone it
    renders in. *)
Record Moment : Type := {
  m_value : option Z;
  m_zone : option string
}.

(** [moment(date)] *)
Definition moment (d : option Z) : Moment :=
  {| m_value := d; m_zone := None |}.

(** [m.tz(name)]: the zone of rendering changes, the instant does not; an
    unknown name leaves the moment as it is. *)
Definition tz (auth : TzAuthority) (name : string) (m : Moment) : Outcome Moment :=
  match tzFault auth name with
  | Some e => Throws e
  | None =>
      Returns {| m_value := m_value m;
                 m_zone := if zoneKnown auth name then Some name else m_zone m |}
  end.

(** [m.clone().subtract(n, 'minutes')] *)
Definition subtractMinutes (n : Z) (m : Moment) : Moment :=
  {| m_value := (fun t => t - n * 60000) <$> m_value m; m_zone := m_zone m |}.

(** [m.toDate()] *)
Definition toDate (m : Moment) : option Z := m_value m.

(** Comparisons of moments are comparisons of instants; with an invalid
    moment on either side they are false. *)
Definition isSameOrAfter (a b : Moment) : bool := nanLe (m_value b) (m_value a).
Definition isAfter (a b : Moment) : bool := nanLt (m_value b) (m_value a).
Definition isSameOrBefore (a b : Moment) : bool := nanLe (m_value a) (m_value b).
Definition isBefore (a b : Moment) : bool := nanLt (m_value a) (m_value b).

(** [m.isBetween(start, end, null, '[]')] *)
Definition isBetweenInclusive (m start stop : Moment) : bool :=
  isSameOrAfter m start && isSameOrBefore m stop.

(** ** Data model ([types/slot.ts]) *)

(** [SlotConfig]: the three durations are whole numbers of minutes, as the
    schema of the form requires of them; fractions and NaN are outside this
    model. *)
Record SlotConfig : Type := {
  startDate : string;
  endDate : string;
  startTime : string;
  endTime : string;
  timeZone : string;
  slotDuration : Z;
  breakDuration : Z;
  bufferDuration : Z
}.

Record Slot : Type := {
  id : string;
  slotStart : option Z;   (* startTime: Date *)
  slotEnd : option Z;     (* endTime: Date *)
  isAvailable : bool
}.

(** [{ ...slot, isAvailable: b }] *)
Definition withAvailability (b : bool) (s : Slot) : Slot :=
  {| id := id s; slotStart := slotStart s; slotEnd := slotEnd s; isAvailable := b |}.

(** [{ ...slot, startTime: a, endTime: b }] *)
Definition withTimes (a b : option Z) (s : Slot) : Slot :=
  {| id := id s; slotStart := a; slotEnd := b; isAvailable := isAvailable s |}.

(** ** [utils/slotGenerator.ts] *)

Module SlotGenerator.
Section WithAuthority.
Context (auth : TzAuthority).

(** [validateSlotConfig]: fail-fast, the first violated rule throws. *)
Definition validateSlotConfig (config : SlotConfig) : Outcome unit :=
  let* _ := throwIf (negb (truthy (startDate config)) || negb (truthy (endDate config)))
              "Start date and end date are required" in
  let* _ := throwIf (negb (truthy (startTime config)) || negb (truthy (endTime config)))
              "Start time and end time are required" in
  let* _ := throwIf (negb (truthy (timeZone config))) "Timezone is required" in
  let* _ := throwIf (negb (dateRegex_test (startDate config))
                     || negb (dateRegex_test (endDate config)))
              "Dates must be in YYYY-MM-DD format" in
  let* _ := throwIf (negb (timeRegex_test (startTime config))
                     || negb (timeRegex_test (endTime config)))
              "Times must be in HH:mm format" in
  let* _ := throwIf (slotDuration config <=? 0) "Slot duration must be greater than 0" in
  let* _ := throwIf (breakDuration config <? 0) "Break duration cannot be negative" in
  let* _ := throwIf (bufferDuration config <? 0) "Buffer duration cannot be negative" in
  let* _ := throwIf (negb (zoneKnown auth (timeZone config)))
              ("Invalid timezone: " +:+ timeZone config) in
  let startMinutes := minutesOfDay (hourMinute (startTime config)) in
  let endMinutes := minutesOfDay (hourMinute (endTime config)) in
  let* _ := throwIf (nanLe endMinutes startMinutes) "End time must be after start time" in
  let workingMinutes := nanSub endMinutes startMinutes in
  let* _ := throwIf (nanLt workingMinutes (Some (slotDuration config)))
              "Time range must allow for at least one slot" in
  Returns tt.

(** [currentId.toString().padStart(4, '0')] *)
Definition padStart4 (text : string) : string :=
  String.concat "" (replicate (4 - String.length text)%nat "0") +:+ text.

Definition slotId (currentId : Z) : string := "slot_" +:+ padStart4 (pretty currentId).

(** The [while] loop of [generateDailySlots].  The moments are held as
    instants; the minutes of the configuration are milliseconds here.  The
    loop ends when the slot no longer fits; [fuel] bounds the iterations, and
    a run that exhausts it is a loop that does not end. *)
Fixpoint slotLoop (fuel : nat) (slotMs stepMs workingEnd currentSlotStart currentId : Z)
  : Outcome (list Slot) :=
  if currentSlotStart + slotMs <=? workingEnd then
    match fuel with
    | O => Diverges
    | S fuel' =>
        let slotEndAt := currentSlotStart + slotMs in
        let slot := {| id := slotId currentId;
                       slotStart := Some currentSlotStart;
                       slotEnd := Some slotEndAt;
                       isAvailable := true |} in
        let* rest := slotLoop fuel' slotMs stepMs workingEnd
                       (currentSlotStart + stepMs) (currentId + 1) in
        Returns (slot :: rest)
    end
  else Returns [].

(** Iterations that suffice whenever the cursor advances. *)
Definition slotLoopFuel (stepMs workingStart workingEnd : Z) : nat :=
  S (Z.to_nat ((workingEnd - workingStart) / stepMs)).

(** [date.clone().hour(h).minute(m).second(0).millisecond(0)]; the setters
    ignore a NaN, which leaves the field of the day's midnight. *)
Definition wallMoment (zone : string) (date : Z) (hm : option Z * option Z) : Z :=
  atWall auth zone date (default 0 (fst hm)) (default 0 (snd hm)).

(** The working window of a day, from [workingStart] to [workingEnd], in
    milliseconds. *)
Definition windowMs (date : Z) (config : SlotConfig) : Z :=
  wallMoment (timeZone config) date (hourMinute (endTime config))
  - wallMoment (timeZone config) date (hourMinute (startTime config)).

(** [generateDailySlots(date, config, startingId)]; [date] is the calendar
    day of the moment, which is at the start of a day of the configured
    zone. *)
Definition generateDailySlots (date : Z) (config : SlotConfig) (startingId : Z)
  : Outcome (list Slot) :=
  let workingStart := wallMoment (timeZone config) date (hourMinute (startTime config)) in
  let workingEnd := wallMoment (timeZone config) date (hourMinute (endTime config)) in
  if workingEnd <=? workingStart then Returns []
  else
    let slotMs := slotDuration config * 60000 in
    let stepMs := (slotDuration config + breakDuration config) * 60000 in
    slotLoop (slotLoopFuel stepMs workingStart workingEnd)
      slotMs stepMs workingEnd workingStart startingId.

(** The [while] loop of [generateSlots] over the days of the range: [days]
    is the number of days from [currentDate] to the end date. *)
Fixpoint dayLoop (days : nat) (currentDate : Z) (config : SlotConfig)
    (slotIdCounter : Z) (slots : list Slot) : Outcome (list Slot) :=
  match days with
  | O => Returns slots
  | S days' =>
      let* dailySlots := generateDailySlots currentDate config slotIdCounter in
      dayLoop days' (currentDate + 1) config
        (slotIdCounter + Z.of_nat (length dailySlots)) (slots ++ dailySlots)
  end.

(** [generateSlots(config)].  [moment.tz(text, zone).startOf('day')] is held
    as its calendar day, [None] when the moment is invalid; comparisons with
    an invalid moment are false. *)
Definition generateSlots (config : SlotConfig) : Outcome (list Slot) :=
  tryCatch
    (let* _ := validateSlotConfig config in
     let startDay := parseCalendarDate (startDate config) in
     let endDay := parseCalendarDate (endDate config) in
     let* _ := throwIf (nanLt endDay startDay)
                 "End date must be same as or after start date" in
     match startDay, endDay with
     | Some d0, Some d1 => dayLoop (Z.to_nat (d1 - d0 + 1)) d0 config 1 []
     | _, _ => Returns []
     end)
    (fun error =>
       Throws (Error ("Slot generation failed: " +:+ messageOrUnknown error))).

(** [slots.map(f)] where [f] may throw. *)
Fixpoint mapOutcome {A B : Type} (f : A -> Outcome B) (l : list A) : Outcome (list B) :=
  match l with
  | [] => Returns []
  | x :: l' =>
      let* y := f x in
      let* ys := mapOutcome f l' in
      Returns (y :: ys)
  end.

(** [timezone ? m.tz(timezone) : m], for an optional argument *)
Definition tzIfGiven (timezone : option string) (m : Moment) : Outcome Moment :=
  match timezone with
  | Some name => if truthy name then tz auth name m else Returns m
  | None => Returns m
  end.

(** The body of the [try] of [calculateSlotAvailability]. *)
Definition availabilityBody (clock : Z) (slots : list Slot) (buffer : Z)
    (currentTime : option (option Z)) (timezone : option string)
  : Outcome (list Slot) :=
  let now := match currentTime with
             | Some date => moment date
             | None => moment (Some clock)
             end in
  let* currentMoment := tzIfGiven timezone now in
  mapOutcome
    (fun slot =>
       let* start := tzIfGiven timezone (moment (slotStart slot)) in
       let availableTime := subtractMinutes buffer start in
       let available := isSameOrAfter currentMoment availableTime in
       Returns (withAvailability available slot))
    slots.

(** [calculateSlotAvailability(slots, bufferDuration, currentTime?, timezone?)];
    [clock] is the instant that [moment()] reads. *)
Definition calculateSlotAvailability (clock : Z) (slots : list Slot) (buffer : Z)
    (currentTime : option (option Z)) (timezone : option string) : list Slot :=
  match availabilityBody clock slots buffer currentTime timezone with
  | Returns updatedSlots => updatedSlots
  | _ => map (withAvailability false) slots
  end.

(** [getAvailableSlots] *)
Definition getAvailableSlots (slots : list Slot) : list Slot :=
  List.filter isAvailable slots.

(** [convertSlotsToTimezone(slots, targetTimezone)] *)
Definition convertSlotsToTimezone (slots : list Slot) (targetTimezone : string)
  : list Slot :=
  match mapOutcome
          (fun slot =>
             let* a := tz auth targetTimezone (moment (slotStart slot)) in
             let* b := tz auth targetTimezone (moment (slotEnd slot)) in
             Returns (withTimes (toDate a) (toDate b) slot))
          slots with
  | Returns convertedSlots => convertedSlots
  | _ => slots
  end.

(** The [slotsPerDay] field of [getSlotGenerationStats]:
    [Math.floor(workingMinutes / (slotDuration + breakDuration))]; [None]
    when the quotient is not a finite number. *)
Definition statsSlotsPerDay (config : SlotConfig) : option Z :=
  let startMinutes := minutesOfDay (hourMinute (startTime config)) in
  let endMinutes := minutesOfDay (hourMinute (endTime config)) in
  let workingMinutes := nanSub endMinutes startMinutes in
  let slotWithBreak := slotDuration config + breakDuration config in
  if slotWithBreak =? 0 then None
  else (fun w => w / slotWithBreak) <$> workingMinutes.

End WithAuthority.
End SlotGenerator.

(** ** [utils/slotFiltering.ts] *)

Module SlotFiltering.

(** [SlotFilterOptions]: every field is optional; [None] is [undefined]. *)
Record SlotFilterOptions : Type := {
  opt_currentTime : option (option Z);
  opt_timezone : option string;
  opt_bufferDuration : option Z;
  opt_startDate : option string;
  opt_endDate : option string;
  opt_startTime : option string;
  opt_endTime : option string;
  opt_availableOnly : option bool;
  opt_limit : option Z
}.

Section WithAuthority.
Context (auth : TzAuthority).

(** [convertSlotsToTimezone(slots, targetTimezone)] *)
Definition convertSlotsToTimezone (slots : list Slot) (targetTimezone : string)
  : list Slot :=
  match SlotGenerator.mapOutcome
          (fun slot =>
             let* a := tz auth targetTimezone (moment (slotStart slot)) in
             let* b := tz auth targetTimezone (moment (slotEnd slot)) in
             Returns (withTimes (toDate a) (toDate b) slot))
          slots with
  | Returns convertedSlots => convertedSlots
  | _ => slots
  end.

(** The body of the [try] of [calculateTimezoneAwareAvailability]. *)
Definition timezoneAwareBody (slots : list Slot) (currentTime : option Z)
    (timezone : string) (buffer : Z) : Outcome (list Slot) :=
  let* now := tz auth timezone (moment currentTime) in
  SlotGenerator.mapOutcome
    (fun slot =>
       let* start := tz auth timezone (moment (slotStart slot)) in
       let availableTime := subtractMinutes buffer start in
       let available := isSameOrAfter now availableTime && isAfter start now in
       Returns (withAvailability available slot))
    slots.

(** [calculateTimezoneAwareAvailability(slots, currentTime, timezone, bufferDuration)] *)
Definition calculateTimezoneAwareAvailability (slots : list Slot)
    (currentTime : option Z) (timezone : string) (buffer : Z) : list Slot :=
  match timezoneAwareBody slots currentTime timezone buffer with
  | Returns updated => updated
  | _ => map (withAvailability false) slots
  end.

(** The calendar day that moment reads from a date text. *)
Definition dayOfText (text : string) : option Z :=
  match parseCalendarDate text with
  | Some day => Some day
  | None => looseDate auth text
  end.

(** [moment.tz(text, zone)]: the zone is applied with [.tz(zone)]. *)
Definition momentTzDay (text zone : string) : Outcome (option Z) :=
  let* _ := tz auth zone (moment None) in
  Returns (dayOfText text).

(** [slots.filter(p)] where [p] may throw. *)
Fixpoint filterOutcome {A : Type} (p : A -> Outcome bool) (l : list A)
  : Outcome (list A) :=
  match l with
  | [] => Returns []
  | x :: l' =>
      let* keep := p x in
      let* rest := filterOutcome p l' in
      Returns (if keep then x :: rest else rest)
  end.

(** [filterSlotsByDateRange(slots, startDate, endDate, timezone)] *)
Definition filterSlotsByDateRange (slots : list Slot) (startDate endDate timezone : string)
  : list Slot :=
  match
    (let* startDay := momentTzDay startDate timezone in
     let* endDay := momentTzDay endDate timezone in
     let start := moment (startOfDay auth timezone <$> startDay) in
     let stop := moment (endOfDay auth timezone <$> endDay) in
     filterOutcome
       (fun slot =>
          let* slotMoment := tz auth timezone (moment (slotStart slot)) in
          Returns (isBetweenInclusive slotMoment start stop))
       slots)
  with
  | Returns kept => kept
  | _ => []
  end.

(** [m.hour()] and [m.minute()]: the wall-clock fields in the zone of the
    moment, the device zone when none was set; NaN for an invalid moment. *)
Definition momentZone (m : Moment) : string := default (guessZone auth) (m_zone m).
Definition momentHour (m : Moment) : option Z := localHour auth (momentZone m) <$> m_value m.
Definition momentMinute (m : Moment) : option Z := localMinute auth (momentZone m) <$> m_value m.

(** [filterSlotsByTimeRange(slots, startTime, endTime, timezone)] *)
Definition filterSlotsByTimeRange (slots : list Slot) (startTime endTime timezone : string)
  : list Slot :=
  match
    (let startHM := hourMinute startTime in
     let endHM := hourMinute endTime in
     filterOutcome
       (fun slot =>
          let* slotMoment := tz auth timezone (moment (slotStart slot)) in
          let slotMinutes := minutesOfDay (momentHour slotMoment, momentMinute slotMoment) in
          let startMinutes := minutesOfDay startHM in
          let endMinutes := minutesOfDay endHM in
          Returns (nanLe startMinutes slotMinutes && nanLt slotMinutes endMinutes))
       slots)
  with
  | Returns kept => kept
  | _ => []
  end.

(** The comparator [(a, b) => a.startTime.getTime() - b.startTime.getTime()]
    is positive: [a] goes after [b].  A NaN difference counts as zero. *)
Definition startsAfter (a b : Slot) : bool := nanLt (slotStart b) (slotStart a).

(** [Array.prototype.sort] with that comparator: a stable sort, here by
    insertion. *)
Fixpoint insertByStart (x : Slot) (l : list Slot) : list Slot :=
  match l with
  | [] => [x]
  | y :: l' => if startsAfter x y then y :: insertByStart x l' else x :: y :: l'
  end.

Fixpoint sortByStart (l : list Slot) : list Slot :=
  match l with
  | [] => []
  | x :: l' => insertByStart x (sortByStart l')
  end.

(** [a && b] on two optional texts: both are given and not empty. *)
Definition bothGiven (a b : option string) : option (string * string) :=
  match a, b with
  | Some x, Some y => if truthy x && truthy y then Some (x, y) else None
  | _, _ => None
  end.

(** Steps 3 to 6 of [getFilteredSlots], each on the list of the step before. *)
Definition dateRangeStage (options : SlotFilterOptions) (timezone : string)
    (slots : list Slot) : list Slot :=
  match bothGiven (opt_startDate options) (opt_endDate options) with
  | Some (startDate, endDate) => filterSlotsByDateRange slots startDate endDate timezone
  | None => slots
  end.

Definition timeRangeStage (options : SlotFilterOptions) (timezone : string)
    (slots : list Slot) : list Slot :=
  match bothGiven (opt_startTime options) (opt_endTime options) with
  | Some (startTime, endTime) => filterSlotsByTimeRange slots startTime endTime timezone
  | None => slots
  end.

Definition availableOnlyStage (options : SlotFilterOptions) (slots : list Slot)
  : list Slot :=
  if default false (opt_availableOnly options) then List.filter isAvailable slots
  else slots.

(** [if (limit && limit > 0) slots.slice(0, limit)] *)
Definition limitStage (options : SlotFilterOptions) (slots : list Slot) : list Slot :=
  match opt_limit options with
  | Some limit => if negb (limit =? 0) && (0 <? limit) then take (Z.to_nat limit) slots
                  else slots
  | None => slots
  end.

(** [getFilteredSlots(slots, options)]; [clock] is the instant that
    [new Date()] reads.  Every call that can throw is caught inside the
    helper that makes it, so the outer [catch] has nothing to catch. *)
Definition getFilteredSlots (clock : Z) (slots : list Slot) (options : SlotFilterOptions)
  : list Slot :=
  let currentTime := default (Some clock) (opt_currentTime options) in
  let timezone := default (guessZone auth) (opt_timezone options) in
  let bufferDuration := default 45 (opt_bufferDuration options) in
  let filteredSlots := slots in
  let filteredSlots := convertSlotsToTimezone filteredSlots timezone in
  let filteredSlots :=
    calculateTimezoneAwareAvailability filteredSlots currentTime timezone bufferDuration in
  let filteredSlots := dateRangeStage options timezone filteredSlots in
  let filteredSlots := timeRangeStage options timezone filteredSlots in
  let filteredSlots := availableOnlyStage options filteredSlots in
  let filteredSlots := limitStage options filteredSlots in
  sortByStart filteredSlots.

(** [getNextAvailableSlots(slots, count, timezone, bufferDuration, currentTime)] *)
Definition getNextAvailableSlots (slots : list Slot) (count : Z) (timezone : string)
    (bufferDuration : Z) (currentTime : option Z) : list Slot :=
  getFilteredSlots 0 slots
    {| opt_currentTime := Some currentTime;
       opt_timezone := Some timezone;
       opt_bufferDuration := Some bufferDuration;
       opt_startDate := None; opt_endDate := None;
       opt_startTime := None; opt_endTime := None;
       opt_availableOnly := Some true;
       opt_limit := Some count |}.

(** The options that the three wrappers build: the time, the zone and the
    buffer are always set, an argument left out taking its default. *)
Definition wrapperOptions (clock : Z) (timezone : option string)
    (bufferDuration : option Z) (currentTime : option (option Z))
    (date : option string) (availableOnly : option bool) : SlotFilterOptions :=
  {| opt_currentTime := Some (default (Some clock) currentTime);
     opt_timezone := Some (default (guessZone auth) timezone);
     opt_bufferDuration := Some (default 45 bufferDuration);
     opt_startDate := date; opt_endDate := date;
     opt_startTime := None; opt_endTime := None;
     opt_availableOnly := availableOnly;
     opt_limit := None |}.


(** [getSlotsForDate(slots, date, timezone, bufferDuration, currentTime)] *)
Definition getSlotsForDate (clock : Z) (slots : list Slot) (date : string)
    (timezone : option string) (bufferDuration : option Z)
    (currentTime : option (option Z)) : list Slot :=
  getFilteredSlots clock slots
    (wrapperOptions clock timezone bufferDuration currentTime (Some date) None).



End WithAuthority.
End SlotFiltering.

(** ** [utils/slotGenerator.ts]: the filter by date range *)

(** [getSlotsByDateRange(slots, startDate, endDate, timezone?)]: with a zone
    the bounds and the slots are read in it, without one in the device
    zone. *)
Definition getSlotsByDateRange (auth : TzAuthority) (slots : list Slot)
    (startDate endDate : string) (timezone : option string) : list Slot :=
  let given := match timezone with
               | Some name => if truthy name then Some name else None
               | None => None
               end in
  let zone := default (guessZone auth) given in
  let inZone (m : Moment) : Outcome Moment :=
    match given with
    | Some name => tz auth name m
    | None => Returns m
    end in
  match
    (let* _ := inZone (moment None) in
     let start := moment (startOfDay auth zone <$> SlotFiltering.dayOfText auth startDate) in
     let stop := moment (endOfDay auth zone <$> SlotFiltering.dayOfText auth endDate) in
     SlotFiltering.filterOutcome
       (fun slot =>
          let* slotDate := inZone (moment (slotStart slot)) in
          Returns (isBetweenInclusive slotDate start stop))
       slots)
  with
  | Returns filteredSlots => filteredSlots
  | _ => []
  end.

(** ** [utils/validation.ts]: the Yup schema of the form *)

Module Validation.

(** One entry of [error.inner]: the path of the field and the message. *)
Record ValidationError : Type := {
  field : string;
  message : string
}.

Section WithAuthority.
Context (auth : TzAuthority).

(** [moment(text, 'HH:mm', true)]: hour and minute of a strictly valid
    text.  Hour 24 is valid with minute 0 only. *)
Definition parseClockTime (text : string) : option (Z * Z) :=
  if timeRegex_test text then
    match list_ascii_of_string text with
    | [h1; h2; _; m1; m2] =>
        let h := digitsValue 0 [h1; h2] in
        let m := digitsValue 0 [m1; m2] in
        if ((h <=? 23) && (m <=? 59)) || ((h =? 24) && (m =? 0))
        then Some (h, m) else None
    | _ => None
    end
  else None.

Definition isValidDate (value : string) : bool :=
  if negb (truthy value) then false else bool_decide (is_Some (parseCalendarDate value)).

Definition isValidTime (value : string) : bool :=
  if negb (truthy value) then false else bool_decide (is_Some (parseClockTime value)).

(** [generateTimezoneOptions().some(option => option.value === value)] *)
Definition isValidTimezone (value : string) : bool :=
  if negb (truthy value) then false else bool_decide (value ∈ zoneNames auth).

(** [moment(text, 'YYYY-MM-DD')]: the calendar day, in the device zone. *)
Definition momentDate (text : string) : option Z :=
  match parseCalendarDate text with
  | Some day => Some day
  | None => looseDate auth text
  end.

(** [moment(text, 'HH:mm')]: today at that wall-clock time, in the device
    zone. *)
Definition momentTime (text : string) : Moment :=
  moment (match parseClockTime text with
          | Some (h, m) => Some (deviceWall auth h m)
          | None => looseTime auth text
          end).

(** [end.diff(start, 'minutes')]: whole minutes, truncated towards zero. *)
Definition diffMinutes (stop start : Moment) : option Z :=
  (fun ms => Z.quot ms 60000) <$> nanSub (m_value stop) (m_value start).

(** A test of the schema: no entry when it passes, one entry when it fails. *)
Definition test (passes : bool) (path msg : string) : list ValidationError :=
  if passes then [] else [{| field := path; message := msg |}].

(** [slotConfigValidationSchema.validate(values, { abortEarly: false })]:
    the entries of [error.inner], empty when the values are valid.  The
    numeric fields are integers here, so [typeError], [required] and
    [integer] on them always pass. *)
Definition slotConfigValidationSchema (values : SlotConfig) : list ValidationError :=
  let sd := startDate values in
  let ed := endDate values in
  let st := startTime values in
  let et := endTime values in
  let zone := timeZone values in
  test (truthy sd) "startDate" "Start date is required"
  ++ test (isValidDate sd) "startDate" "Please enter a valid date"
  ++ test (if negb (truthy sd) then false
           else nanLe (Some (deviceToday auth)) (momentDate sd))
       "startDate" "Start date cannot be in the past"
  ++ test (truthy ed) "endDate" "End date is required"
  ++ test (isValidDate ed) "endDate" "Please enter a valid date"
  ++ test (if negb (truthy ed) || negb (truthy sd) then false
           else nanLe (momentDate sd) (momentDate ed))
       "endDate" "End date must be same as or after start date"
  ++ test (truthy st) "startTime" "Start time is required"
  ++ test (isValidTime st) "startTime" "Please enter a valid time (HH:mm)"
  ++ test (if negb (truthy st) then false
           else isBetweenInclusive (momentTime st)
                  (momentTime "00:00") (momentTime "23:59"))
       "startTime" "Time must be between 00:00 and 23:59"
  ++ test (truthy et) "endTime" "End time is required"
  ++ test (isValidTime et) "endTime" "Please enter a valid time (HH:mm)"
  ++ test (if negb (truthy et) || negb (truthy st) then false
           else isAfter (momentTime et) (momentTime st))
       "endTime" "End time must be after start time"
  ++ test (if negb (truthy et) || negb (truthy st) || (slotDuration values =? 0)
           then false
           else nanLe (Some (slotDuration values))
                  (diffMinutes (momentTime et) (momentTime st)))
       "endTime" "Time range must allow for at least one slot"
  ++ test (truthy zone) "timeZone" "Timezone is required"
  ++ test (isValidTimezone zone) "timeZone" "Please select a valid timezone"
  ++ test (5 <=? slotDuration values) "slotDuration"
       "Slot duration must be at least 5 minutes"
  ++ test (slotDuration values <=? 480) "slotDuration"
       "Slot duration cannot exceed 8 hours (480 minutes)"
  ++ test (0 <? slotDuration values) "slotDuration"
       "Slot duration must be greater than 0"
  ++ test (0 <=? breakDuration values) "breakDuration"
       "Break duration cannot be negative"
  ++ test (breakDuration values <=? 120) "breakDuration"
       "Break duration cannot exceed 2 hours (120 minutes)"
  ++ test (0 <=? breakDuration values) "breakDuration"
       "Break duration must be 0 or greater"
  ++ test (0 <=? bufferDuration values) "bufferDuration"
       "Buffer duration cannot be negative"
  ++ test (bufferDuration values <=? 1440) "bufferDuration"
       "Buffer duration cannot exceed 24 hours (1440 minutes)"
  ++ test (0 <=? bufferDuration values) "bufferDuration"
       "Buffer duration must be 0 or greater".

(** [getFormErrors(values)]: [errors[err.path] = err.message] for each entry,
    a later entry of a path replacing an earlier one. *)
Definition getFormErrors (values : SlotConfig) : gmap string string :=
  foldl (fun errors err => <[field err := message err]> errors) ∅
    (slotConfigValidationSchema values).

(** A field of the form together with a value for it. *)
Inductive FieldUpdate : Type :=
| SetStartDate (value : string)
| SetEndDate (value : string)
| SetStartTime (value : string)
| SetEndTime (value : string)
| SetTimeZone (value : string)
| SetSlotDuration (value : Z)
| SetBreakDuration (value : Z)
| SetBufferDuration (value : Z).

Definition fieldName (update : FieldUpdate) : string :=
  match update with
  | SetStartDate _ => "startDate"
  | SetEndDate _ => "endDate"
  | SetStartTime _ => "startTime"
  | SetEndTime _ => "endTime"
  | SetTimeZone _ => "timeZone"
  | SetSlotDuration _ => "slotDuration"
  | SetBreakDuration _ => "breakDuration"
  | SetBufferDuration _ => "bufferDuration"
  end.

(** [{ ...allValues, [fieldName]: value }] *)
Definition withField (update : FieldUpdate) (v : SlotConfig) : SlotConfig :=
  match update with
  | SetStartDate x =>
      {| startDate := x; endDate := endDate v; startTime := startTime v;
         endTime := endTime v; timeZone := timeZone v; slotDuration := slotDuration v;
         breakDuration := breakDuration v; bufferDuration := bufferDuration v |}
  | SetEndDate x =>
      {| startDate := startDate v; endDate := x; startTime := startTime v;
         endTime := endTime v; timeZone := timeZone v; slotDuration := slotDuration v;
         breakDuration := breakDuration v; bufferDuration := bufferDuration v |}
  | SetStartTime x =>
      {| startDate := startDate v; endDate := endDate v; startTime := x;
         endTime := endTime v; timeZone := timeZone v; slotDuration := slotDuration v;
         breakDuration := breakDuration v; bufferDuration := bufferDuration v |}
  | SetEndTime x =>
      {| startDate := startDate v; endDate := endDate v; startTime := startTime v;
         endTime := x; timeZone := timeZone v; slotDuration := slotDuration v;
         breakDuration := breakDuration v; bufferDuration := bufferDuration v |}
  | SetTimeZone x =>
      {| startDate := startDate v; endDate := endDate v; startTime := startTime v;
         endTime := endTime v; timeZone := x; slotDuration := slotDuration v;
         breakDuration := breakDuration v; bufferDuration := bufferDuration v |}
  | SetSlotDuration x =>
      {| startDate := startDate v; endDate := endDate v; startTime := startTime v;
         endTime := endTime v; timeZone := timeZone v; slotDuration := x;
         breakDuration := breakDuration v; bufferDuration := bufferDuration v |}
  | SetBreakDuration x =>
      {| startDate := startDate v; endDate := endDate v; startTime := startTime v;
         endTime := endTime v; timeZone := timeZone v; slotDuration := slotDuration v;
         breakDuration := x; bufferDuration := bufferDuration v |}
  | SetBufferDuration x =>
      {| startDate := startDate v; endDate := endDate v; startTime := startTime v;
         endTime := endTime v; timeZone := timeZone v; slotDuration := slotDuration v;
         breakDuration := breakDuration v; bufferDuration := x |}
  end.

(** [validateField(fieldName, value, allValues)]: [validateAt] runs the
    tests of that field on the merged values and stops at the first that
    fails; the result is [isValid] and the [error]. *)
Definition validateField (update : FieldUpdate) (allValues : SlotConfig)
  : bool * option string :=
  match List.filter (fun err => String.eqb (field err) (fieldName update))
          (slotConfigValidationSchema (withField update allValues)) with
  | [] => (true, None)
  | err :: _ => (false, Some (message err))
  end.

End WithAuthority.
End Validation.

(** ** [utils/storage.ts] *)

Module Storage.

(** A JSON document. *)
#[warnings="-register-all"]
Inductive Json : Type :=
| JNull
| JBool (b : bool)
| JNumber (n : Z)
| JString (s : string)
| JArray (items : list Json)
| JObject (fields : list (string * Json)).

(** A stored text, taken up to [JSON.parse]: either it does not parse, or it
    is the text of a document.  [JSON.stringify] of a document is its text. *)
Inductive Blob : Type :=
| Malformed (text : string)
| JsonText (doc : Json).

(** The key-value store behind [AsyncStorage], and the rejection of its
    reads and of its writes, if they fail. *)
Record AsyncStorage : Type := {
  cells : gmap string Blob;
  readFault : option JsError;
  writeFault : option JsError
}.

Definition SLOT_CONFIG : string := "@vosita_slots_app_v2:slot_config".
Definition GENERATED_SLOTS : string := "@vosita_slots_app_v2:generated_slots".

Definition AsyncStorage_getItem (store : AsyncStorage) (key : string)
  : Outcome (option Blob) :=
  match readFault store with
  | Some e => Throws e
  | None => Returns (cells store !! key)
  end.

Definition AsyncStorage_setItem (store : AsyncStorage) (key : string) (value : Blob)
  : Outcome AsyncStorage :=
  match writeFault store with
  | Some e => Throws e
  | None => Returns {| cells := <[key := value]> (cells store);
                       readFault := readFault store;
                       writeFault := writeFault store |}
  end.

Definition JSON_parse (blob : Blob) : Outcome Json :=
  match blob with
  | Malformed _ => Throws (SyntaxError "Unexpected token in JSON")
  | JsonText doc => Returns doc
  end.

Definition JSON_stringify (doc : Json) : Blob := JsonText doc.

(** [StorageManager.setItem(key, value)] *)
Definition setItem (store : AsyncStorage) (key : string) (value : Json)
  : Outcome AsyncStorage :=
  tryCatch
    (let serializedValue := JSON_stringify value in
     AsyncStorage_setItem store key serializedValue)
    (fun error => Throws (Error ("Failed to save data: " +:+ messageOrUnknown error))).

(** [StorageManager.getItem(key)]; the result [null] is [JNull]. *)
Definition getItem (store : AsyncStorage) (key : string) : Outcome Json :=
  tryCatch
    (let* serializedValue := AsyncStorage_getItem store key in
     match serializedValue with
     | None => Returns JNull
     | Some blob => JSON_parse blob
     end)
    (fun error =>
       if isSyntaxError error then Returns JNull
       else Throws (Error ("Failed to retrieve data: " +:+ messageOrUnknown error))).

(** Truthiness of a document, and the property [doc.name] ([None] is
    [undefined]). *)
Definition jsonTruthy (doc : Json) : bool :=
  match doc with
  | JNull => false
  | JBool b => b
  | JNumber n => negb (n =? 0)
  | JString s => truthy s
  | JArray _ | JObject _ => true
  end.

Fixpoint assoc (name : string) (fields : list (string * Json)) : option Json :=
  match fields with
  | [] => None
  | (k, v) :: rest => if String.eqb k name then Some v else assoc name rest
  end.

Definition getField (doc : Json) (name : string) : option Json :=
  match doc with
  | JObject fields => assoc name fields
  | _ => None
  end.

Definition fieldTruthy (doc : Json) (name : string) : bool :=
  match getField doc name with
  | Some v => jsonTruthy v
  | None => false
  end.

(** [elements.join(',')] on the texts of the elements, made in their order. *)
Fixpoint joinTexts (texts : list (Outcome string)) : Outcome string :=
  match texts with
  | [] => Returns ""
  | first :: rest =>
      let* text := first in
      match rest with
      | [] => Returns text
      | _ :: _ => let* others := joinTexts rest in
                  Returns (text +:+ "," +:+ others)
      end
  end.

(** The text that [ToPrimitive] makes of a document, as [new Date(value)]
    and [Array.prototype.join] ask for it.  An array is the texts of its
    elements joined by commas, [null] counting as the empty text inside an
    array.  An object is [[object Object]], unless it has a property
    [toString] of its own: a value read from JSON is not a function, so the
    conversion finds no method and raises a TypeError.  A number is written
    in decimal, as JavaScript writes every integer below 10^21. *)
Fixpoint primitiveText (doc : Json) : Outcome string :=
  match doc with
  | JNull => Returns "null"
  | JBool b => Returns (if b then "true" else "false")
  | JNumber n => Returns (pretty n)
  | JString s => Returns s
  | JArray items =>
      joinTexts (List.map (fun element => match element with
                                          | JNull => Returns ""
                                          | _ => primitiveText element
                                          end) items)
  | JObject fields =>
      match assoc "toString" fields with
      | Some _ => Throws (TypeError "Cannot convert object to primitive value")
      | None => Returns "[object Object]"
      end
  end.

Definition configToJson (config : SlotConfig) : Json :=
  JObject [("startDate", JString (startDate config));
           ("endDate", JString (endDate config));
           ("startTime", JString (startTime config));
           ("endTime", JString (endTime config));
           ("timeZone", JString (timeZone config));
           ("slotDuration", JNumber (slotDuration config));
           ("breakDuration", JNumber (breakDuration config));
           ("bufferDuration", JNumber (bufferDuration config))].

(** [saveSlotConfig(config)] *)
Definition saveSlotConfig (config : SlotConfig) (store : AsyncStorage)
  : Outcome AsyncStorage :=
  tryCatch
    (let* _ := throwIf (negb (truthy (startDate config)) || negb (truthy (endDate config))
                        || negb (truthy (timeZone config)))
                 "Invalid slot configuration: missing required fields" in
     let* _ := throwIf (negb (dateRegex_test (startDate config))
                        || negb (dateRegex_test (endDate config)))
                 "Invalid date format: dates must be in YYYY-MM-DD format" in
     let* _ := throwIf (negb (timeRegex_test (startTime config))
                        || negb (timeRegex_test (endTime config)))
                 "Invalid time format: times must be in HH:mm format" in
     let* _ := throwIf ((slotDuration config <=? 0) || (breakDuration config <? 0)
                        || (bufferDuration config <? 0))
                 "Invalid duration values: durations must be non-negative numbers" in
     setItem store SLOT_CONFIG (configToJson config))
    (fun error => Throws error).

(** [loadSlotConfig()] *)
Definition loadSlotConfig (store : AsyncStorage) : Outcome Json :=
  tryCatch
    (let* config := getItem store SLOT_CONFIG in
     if jsonTruthy config then
       if negb (fieldTruthy config "startDate") || negb (fieldTruthy config "endDate")
          || negb (fieldTruthy config "timeZone")
       then Returns JNull
       else Returns config
     else Returns config)
    (fun error => Throws error).

(** The prefix of the keys of the application. *)
Definition APP_PREFIX : string := "@vosita_slots_app_v2:".

(** Removals are writes of the store, and the list of keys is a read. *)
Definition AsyncStorage_removeItem (store : AsyncStorage) (key : string)
  : Outcome AsyncStorage :=
  match writeFault store with
  | Some e => Throws e
  | None => Returns {| cells := delete key (cells store);
                       readFault := readFault store;
                       writeFault := writeFault store |}
  end.

Definition AsyncStorage_multiRemove (store : AsyncStorage) (keys : list string)
  : Outcome AsyncStorage :=
  match writeFault store with
  | Some e => Throws e
  | None => Returns {| cells := foldr delete (cells store) keys;
                       readFault := readFault store;
                       writeFault := writeFault store |}
  end.

Definition AsyncStorage_getAllKeys (store : AsyncStorage) : Outcome (list string) :=
  match readFault store with
  | Some e => Throws e
  | None => Returns ((map_to_list (cells store)).*1)
  end.

(** [StorageManager.removeItem(key)] *)
Definition removeItem (store : AsyncStorage) (key : string) : Outcome AsyncStorage :=
  tryCatch (AsyncStorage_removeItem store key)
    (fun error => Throws (Error ("Failed to remove data: " +:+ messageOrUnknown error))).

(** [allKeys.filter(key => key.startsWith('@vosita_slots_app_v2:'))] *)
Definition appKeysOf (allKeys : list string) : list string :=
  List.filter (String.prefix APP_PREFIX) allKeys.

(** [StorageManager.clear()] *)
Definition clear (store : AsyncStorage) : Outcome AsyncStorage :=
  tryCatch
    (let* allKeys := AsyncStorage_getAllKeys store in
     let appKeys := appKeysOf allKeys in
     if (0 <? length appKeys)%nat then AsyncStorage_multiRemove store appKeys
     else Returns store)
    (fun error => Throws (Error ("Failed to clear data: " +:+ messageOrUnknown error))).

(** [clearAllData()] *)
Definition clearAllData (store : AsyncStorage) : Outcome AsyncStorage :=
  tryCatch (clear store) (fun error => Throws error).

(** [clearAllSlots()]: the two removals of [Promise.all], which fail
    together or succeed together in a store whose writes fail or do not. *)
Definition clearAllSlots (store : AsyncStorage) : Outcome AsyncStorage :=
  tryCatch
    (let* store1 := removeItem store GENERATED_SLOTS in
     removeItem store1 SLOT_CONFIG)
    (fun error => Throws (Error ("Failed to clear slots: " +:+ messageOrUnknown error))).




(** A slot as [loadGeneratedSlots] rebuilds it from a stored record: the
    properties of the record that a [Slot] has, with the two dates made by
    [new Date]. *)
Record LoadedSlot : Type := {
  l_id : option Json;
  l_startTime : option Z;
  l_endTime : option Z;
  l_isAvailable : option Json
}.

(** A [Slot] seen as a loaded slot. *)
Definition ofSlot (s : Slot) : LoadedSlot :=
  {| l_id := Some (JString (id s));
     l_startTime := slotStart s;
     l_endTime := slotEnd s;
     l_isAvailable := Some (JBool (isAvailable s)) |}.

Section WithDates.
(** [date.toISOString()] of a valid date and [Date.parse(text)]. *)
Context (toISOString : Z -> string) (dateParse : string -> option Z).

(** [date.toISOString()]: a RangeError on the Invalid Date. *)
Definition isoOf (date : option Z) : Outcome string :=
  match date with
  | Some t => Returns (toISOString t)
  | None => Throws (RangeError "Invalid time value")
  end.

(** [{ ...slot, startTime: slot.startTime.toISOString(), endTime: ... }] *)
Definition serializeSlot (slot : Slot) : Outcome Json :=
  let* a := isoOf (slotStart slot) in
  let* b := isoOf (slotEnd slot) in
  Returns (JObject [("id", JString (id slot));
                    ("startTime", JString a);
                    ("endTime", JString b);
                    ("isAvailable", JBool (isAvailable slot))]).

(** The record that [serializeSlot] makes of a slot whose dates are valid. *)
Definition storedRecord (slot : Slot) : Json :=
  JObject [("id", JString (id slot));
           ("startTime", JString (toISOString (default 0 (slotStart slot))));
           ("endTime", JString (toISOString (default 0 (slotEnd slot))));
           ("isAvailable", JBool (isAvailable slot))].

(** The [for] loop of [saveGeneratedSlots]: a slot has its id and its two
    dates, which are [Date] objects by their type. *)
Fixpoint checkSlots (slots : list Slot) : Outcome unit :=
  match slots with
  | [] => Returns tt
  | slot :: rest =>
      let* _ := throwIf (negb (truthy (id slot)))
                  "Invalid slot object: missing required fields" in
      checkSlots rest
  end.

(** [saveGeneratedSlots(slots)] *)
Definition saveGeneratedSlots (slots : list Slot) (store : AsyncStorage)
  : Outcome AsyncStorage :=
  tryCatch
    (let* _ := checkSlots slots in
     let* serializedSlots := SlotGenerator.mapOutcome serializeSlot slots in
     setItem store GENERATED_SLOTS (JArray serializedSlots))
    (fun error => Throws error).

(** [new Date(value)] for a property of a stored record: [undefined] gives
    the Invalid Date, [null] and booleans and numbers give their number as
    time value, a text is parsed.  An array or an object is first converted
    to its text, which is then parsed; the conversion can raise. *)
Definition newDate (value : option Json) : Outcome (option Z) :=
  match value with
  | None => Returns None
  | Some JNull => Returns (Some 0)
  | Some (JBool b) => Returns (Some (if b then 1 else 0))
  | Some (JNumber n) =>
      Returns (if (-8640000000000000 <=? n) && (n <=? 8640000000000000)
               then Some n else None)
  | Some (JString s) => Returns (dateParse s)
  | Some (JArray items) =>
      let* text := primitiveText (JArray items) in Returns (dateParse text)
  | Some (JObject fields) =>
      let* text := primitiveText (JObject fields) in Returns (dateParse text)
  end.

(** [{ ...slot, startTime: new Date(slot.startTime), endTime: ... }]:
    reading a property of [null] is a TypeError. *)
Definition reviveSlot (item : Json) : Outcome LoadedSlot :=
  match item with
  | JNull => Throws (TypeError "Cannot read properties of null")
  | _ =>
      let* a := newDate (getField item "startTime") in
      let* b := newDate (getField item "endTime") in
      Returns {| l_id := getField item "id";
                 l_startTime := a;
                 l_endTime := b;
                 l_isAvailable := getField item "isAvailable" |}
  end.

(** The predicate of [slots.filter] in [loadGeneratedSlots]. *)
Definition isValidLoaded (slot : LoadedSlot) : bool :=
  match l_id slot with Some v => jsonTruthy v | None => false end
  && bool_decide (is_Some (l_startTime slot))
  && bool_decide (is_Some (l_endTime slot)).

(** [loadGeneratedSlots()] *)
Definition loadGeneratedSlots (store : AsyncStorage) : Outcome (list LoadedSlot) :=
  tryCatch
    (let* serializedSlots := getItem store GENERATED_SLOTS in
     match serializedSlots with
     | JArray items =>
         let* slots := SlotGenerator.mapOutcome reviveSlot items in
         Returns (List.filter isValidLoaded slots)
     | _ => Returns []
     end)
    (fun _ => Returns []).

End WithDates.
End Storage.

(** ** The submit handler of the generation form ([useSlotsGenerationLogic]) *)

Module GenerationForm.

(** What the handler shows: the failure with its [errorMessage], or the
    number of slots generated. *)
Inductive GenerationReport : Type :=
| GenerationFailed (errorMessage : string)
| GenerationSucceeded (count : nat).

Section WithPlatform.
Context (auth : TzAuthority) (toISOString : Z -> string).

(** [saveConfiguration(values)]: [try { await saveSlotConfig(values) } catch {}] *)
Definition saveConfiguration (values : SlotConfig) (store : Storage.AsyncStorage)
  : Storage.AsyncStorage :=
  match Storage.saveSlotConfig values store with
  | Returns store' => store'
  | _ => store
  end.

(** [handleGenerateSlots(values, ...)]: the store after the call and what is
    shown. *)
Definition handleGenerateSlots (values : SlotConfig) (store : Storage.AsyncStorage)
  : Outcome (Storage.AsyncStorage * GenerationReport) :=
  let store1 := saveConfiguration values store in
  tryCatch
    (let* generatedSlots := SlotGenerator.generateSlots auth values in
     let* _ := throwIf (length generatedSlots =? 0)%nat
                 "No slots were generated. Please check your configuration." in
     let* store2 := Storage.saveGeneratedSlots toISOString generatedSlots store1 in
     Returns (store2, GenerationSucceeded (length generatedSlots)))
    (fun error => Returns (store1, GenerationFailed (messageOrUnknown error))).

End WithPlatform.
End GenerationForm.

(** ** [screens/SlotsViewScreen.tsx]: the availability shown on the screen *)

Module SlotsViewScreen.


End SlotsViewScreen.

(** A fixed zone table for concrete runs: the single zone UTC, in which a
    calendar day is 86 400 000 ms and wall-clock time is the instant. *)
Definition utcAuthority : TzAuthority := {|
  tzFault := fun _ => None;
  zoneKnown := fun name => String.eqb name "UTC";
  zoneNames := ["UTC"];
  guessZone := "UTC";
  atWall := fun _ day h m => day * 86400000 + (h * 60 + m) * 60000;
  startOfDay := fun _ day => day * 86400000;
  endOfDay := fun _ day => day * 86400000 + 86399999;
  localHour := fun _ t => (t mod 86400000) / 3600000;
  localMinute := fun _ t => ((t mod 86400000) / 60000) mod 60;
  looseDate := fun _ => None;
  looseTime := fun _ => None;
  deviceWall := fun h m => 20394 * 86400000 + (h * 60 + m) * 60000;
  deviceToday := 20394
|}.

Definition sampleConfig : SlotConfig := {|
  startDate := "2025-11-03";
  endDate := "2025-11-03";
  startTime := "10:00";
  endTime := "18:00";
  timeZone := "UTC";
  slotDuration := 30;
  breakDuration := 15;
  bufferDuration := 45
|}.

(** A zone table with one spring-forward day, day 20156 (2025-03-09): the
    wall-clock hour from 02:00 to 03:00 does not exist on that day, and a
    time in it is read as one hour later. *)
Definition springForwardAuthority : TzAuthority := {|
  tzFault := fun _ => None;
  zoneKnown := fun name => String.eqb name "Fixture/SpringForward";
  zoneNames := ["Fixture/SpringForward"];
  guessZone := "Fixture/SpringForward";
  atWall := fun _ day h m =>
    let w := h * 60 + m in
    if day <? 20156 then day * 86400000 + w * 60000
    else if day =? 20156 then
      (if w <? 180 then day * 86400000 + w * 60000
       else day * 86400000 + (w - 60) * 60000)
    else day * 86400000 + (w - 60) * 60000;
  startOfDay := fun _ day =>
    if day <=? 20156 then day * 86400000 else day * 86400000 - 3600000;
  endOfDay := fun _ day =>
    if day <? 20156 then day * 86400000 + 86399999
    else day * 86400000 + 82799999;
  localHour := fun _ t =>
    if t <? 20156 * 86400000 + 7200000 then (t mod 86400000) / 3600000
    else ((t + 3600000) mod 86400000) / 3600000;
  localMinute := fun _ t => ((t mod 86400000) / 60000) mod 60;
  looseDate := fun _ => None;
  looseTime := fun _ => None;
  deviceWall := fun h m => 20156 * 86400000 + (h * 60 + m) * 60000;
  deviceToday := 20156
|}.

(** A configuration whose only day is the spring-forward day and whose
    window is the hour that does not exist. *)
Definition skippedHourConfig : SlotConfig := {|
  startDate := "2025-03-09";
  endDate := "2025-03-09";
  startTime := "02:00";
  endTime := "03:00";
  timeZone := "Fixture/SpringForward";
  slotDuration := 60;
  breakDuration := 0;
  bufferDuration := 45
|}.

(** A configuration whose dates have the shape YYYY-MM-DD and name no
    calendar day. *)
Definition noSuchDayConfig : SlotConfig := {|
  startDate := "2025-02-30";
  endDate := "2025-02-30";
  startTime := "10:00";
  endTime := "18:00";
  timeZone := "UTC";
  slotDuration := 30;
  breakDuration := 15;
  bufferDuration := 45
|}.

(** The calendar days that [generateSlots] walks through, and whether it
    finds the end date before the start date. *)
Definition rangeDays (config : SlotConfig) : list Z :=
  match parseCalendarDate (startDate config), parseCalendarDate (endDate config) with
  | Some d0, Some d1 => (fun i => d0 + Z.of_nat i) <$> seq 0 (Z.to_nat (d1 - d0 + 1))
  | _, _ => []
  end.

Definition rangeInverted (config : SlotConfig) : bool :=
  nanLt (parseCalendarDate (endDate config)) (parseCalendarDate (startDate config)).

Definition emptyStore : Storage.AsyncStorage :=
  {| Storage.cells := ∅; Storage.readFault := None; Storage.writeFault := None |}.

(** A zone table like [utcAuthority] in which applying the zone name
    "Broken/Zone" raises. *)
Definition faultyAuthority : TzAuthority := {|
  tzFault := fun name =>
    if String.eqb name "Broken/Zone" then Some (Error "Time zone lookup failed")
    else None;
  zoneKnown := zoneKnown utcAuthority;
  zoneNames := zoneNames utcAuthority;
  guessZone := guessZone utcAuthority;
  atWall := atWall utcAuthority;
  startOfDay := startOfDay utcAuthority;
  endOfDay := endOfDay utcAuthority;
  localHour := localHour utcAuthority;
  localMinute := localMinute utcAuthority;
  looseDate := looseDate utcAuthority;
  looseTime := looseTime utcAuthority;
  deviceWall := deviceWall utcAuthority;
  deviceToday := deviceToday utcAuthority
|}.

(** Two slots of 2025-11-03 (UTC): 10:00 to 10:30 and 10:45 to 11:15. *)
Definition slotAtTen : Slot :=
  {| id := "slot_0001";
     slotStart := Some 1762164000000;
     slotEnd := Some 1762165800000;
     isAvailable := true |}.

Definition slotAtTenFortyFive : Slot :=
  {| id := "slot_0002";
     slotStart := Some 1762166700000;
     slotEnd := Some 1762168500000;
     isAvailable := true |}.

(** 09:50 and 11:00 of the same day. *)
Definition nineFifty : Z := 1762163400000.
Definition elevenOClock : Z := 1762167600000.

(** The canonical rule of availability: the reference instant is at or after
    the start less the buffer, and before the start. *)
Definition bookable (reference buffer : Z) (slot : Slot) : Prop :=
  exists start, slotStart slot = Some start
                /\ start - buffer * 60000 <= reference /\ reference < start.

(** The first available slot as of 09:50 with a buffer of 90 minutes, in UTC. *)
Definition firstAvailableOptions : SlotFiltering.SlotFilterOptions :=
  {| SlotFiltering.opt_currentTime := Some (Some nineFifty);
     SlotFiltering.opt_timezone := Some "UTC";
     SlotFiltering.opt_bufferDuration := Some 90;
     SlotFiltering.opt_startDate := None;
     SlotFiltering.opt_endDate := None;
     SlotFiltering.opt_startTime := None;
     SlotFiltering.opt_endTime := None;
     SlotFiltering.opt_availableOnly := Some true;
     SlotFiltering.opt_limit := Some 1 |}.

(** The slots that survive steps 1 to 5 of [getFilteredSlots]. *)
Definition survivors (auth : TzAuthority) (clock : Z) (slots : list Slot)
    (options : SlotFiltering.SlotFilterOptions) : list Slot :=
  let currentTime := default (Some clock) (SlotFiltering.opt_currentTime options) in
  let timezone := default (guessZone auth) (SlotFiltering.opt_timezone options) in
  let bufferDuration := default 45 (SlotFiltering.opt_bufferDuration options) in
  SlotFiltering.availableOnlyStage options
    (SlotFiltering.timeRangeStage auth options timezone
       (SlotFiltering.dateRangeStage auth options timezone
          (SlotFiltering.calculateTimezoneAwareAvailability auth
             (SlotFiltering.convertSlotsToTimezone auth slots timezone)
             currentTime timezone bufferDuration))).

(** Options without the bounds of the date range, and without those of the
    time-of-day range. *)
Definition withoutDateRange (options : SlotFiltering.SlotFilterOptions)
  : SlotFiltering.SlotFilterOptions :=
  {| SlotFiltering.opt_currentTime := SlotFiltering.opt_currentTime options;
     SlotFiltering.opt_timezone := SlotFiltering.opt_timezone options;
     SlotFiltering.opt_bufferDuration := SlotFiltering.opt_bufferDuration options;
     SlotFiltering.opt_startDate := None;
     SlotFiltering.opt_endDate := None;
     SlotFiltering.opt_startTime := SlotFiltering.opt_startTime options;
     SlotFiltering.opt_endTime := SlotFiltering.opt_endTime options;
     SlotFiltering.opt_availableOnly := SlotFiltering.opt_availableOnly options;
     SlotFiltering.opt_limit := SlotFiltering.opt_limit options |}.

Definition withoutTimeRange (options : SlotFiltering.SlotFilterOptions)
  : SlotFiltering.SlotFilterOptions :=
  {| SlotFiltering.opt_currentTime := SlotFiltering.opt_currentTime options;
     SlotFiltering.opt_timezone := SlotFiltering.opt_timezone options;
     SlotFiltering.opt_bufferDuration := SlotFiltering.opt_bufferDuration options;
     SlotFiltering.opt_startDate := SlotFiltering.opt_startDate options;
     SlotFiltering.opt_endDate := SlotFiltering.opt_endDate options;
     SlotFiltering.opt_startTime := None;
     SlotFiltering.opt_endTime := None;
     SlotFiltering.opt_availableOnly := SlotFiltering.opt_availableOnly options;
     SlotFiltering.opt_limit := SlotFiltering.opt_limit options |}.

(** Exactly one of two optional values is supplied. *)
Definition exactlyOne {A : Type} (a b : option A) : Prop :=
  (is_Some a /\ b = None) \/ (a = None /\ is_Some b).

(** Options that supply one bound only: the start of the date range, and the
    end of the time-of-day range. *)
Definition onlyStartDate : SlotFiltering.SlotFilterOptions :=
  {| SlotFiltering.opt_currentTime := Some (Some nineFifty);
     SlotFiltering.opt_timezone := Some "UTC";
     SlotFiltering.opt_bufferDuration := Some 45;
     SlotFiltering.opt_startDate := Some "2025-11-04";
     SlotFiltering.opt_endDate := None;
     SlotFiltering.opt_startTime := None;
     SlotFiltering.opt_endTime := None;
     SlotFiltering.opt_availableOnly := None;
     SlotFiltering.opt_limit := None |}.

Definition onlyEndTime : SlotFiltering.SlotFilterOptions :=
  {| SlotFiltering.opt_currentTime := Some (Some nineFifty);
     SlotFiltering.opt_timezone := Some "UTC";
     SlotFiltering.opt_bufferDuration := Some 45;
     SlotFiltering.opt_startDate := None;
     SlotFiltering.opt_endDate := None;
     SlotFiltering.opt_startTime := None;
     SlotFiltering.opt_endTime := Some "09:00";
     SlotFiltering.opt_availableOnly := None;
     SlotFiltering.opt_limit := None |}.

(** The sample configuration with slots of three minutes. *)
Definition threeMinuteConfig : SlotConfig := {|
  startDate := "2025-11-03";
  endDate := "2025-11-03";
  startTime := "10:00";
  endTime := "18:00";
  timeZone := "UTC";
  slotDuration := 3;
  breakDuration := 15;
  bufferDuration := 45
|}.

(** A date text with the round-trip property that [toISOString] and
    [Date.parse] have: the time value written in decimal.  It stands in for
    the two platform functions in concrete runs. *)
Definition decimalText (t : Z) : string := NilEmpty.string_of_int (Z.to_int t).
Definition decimalParse (text : string) : option Z :=
  Z.of_int <$> NilEmpty.int_of_string text.

(** A store whose reads fail, and stores that hold a text that is not JSON
    under one of the two keys. *)
Definition unreadableStore : Storage.AsyncStorage :=
  {| Storage.cells := ∅;
     Storage.readFault := Some (Error "Storage is unavailable");
     Storage.writeFault := None |}.

Definition corruptStore : Storage.AsyncStorage :=
  {| Storage.cells := <[Storage.SLOT_CONFIG := Storage.Malformed "{oops"]>
                        (<[Storage.GENERATED_SLOTS := Storage.Malformed "[{"]> ∅);
     Storage.readFault := None;
     Storage.writeFault := None |}.

(** A slot with valid dates and an empty id. *)
Definition slotWithoutId : Slot :=
  {| id := "";
     slotStart := Some 1762164000000;
     slotEnd := Some 1762165800000;
     isAvailable := true |}.

(** A stored array with a record that has no dates, a record whose start is
    not a date text, a good record, and a record whose start is an array that
    holds one date text. *)
Definition mixedRecords : list Storage.Json :=
  [Storage.JObject [("id", Storage.JString "slot_0001")];
   Storage.JObject [("id", Storage.JString "slot_0002");
                    ("startTime", Storage.JString "yesterday");
                    ("endTime", Storage.JString "1762168500000");
                    ("isAvailable", Storage.JBool true)];
   Storage.JObject [("id", Storage.JString "slot_0003");
                    ("startTime", Storage.JString "1762169400000");
                    ("endTime", Storage.JString "1762171200000");
                    ("isAvailable", Storage.JBool false)];
   Storage.JObject [("id", Storage.JString "slot_0004");
                    ("startTime", Storage.JArray [Storage.JString "1762172100000"]);
                    ("endTime", Storage.JString "1762173900000");
                    ("isAvailable", Storage.JBool true)]].

Definition mixedStore : Storage.AsyncStorage :=
  {| Storage.cells := {[ Storage.GENERATED_SLOTS
                         := Storage.JsonText (Storage.JArray mixedRecords) ]};
     Storage.readFault := None;
     Storage.writeFault := None |}.




(** The flag that the annotator of the filter pipeline gives a slot: false
    when the zone cannot be applied, the canonical rule otherwise. *)
Definition pipelineFlag (auth : TzAuthority) (currentTime : option Z)
    (timezone : string) (buffer : Z) (slot : Slot) : bool :=
  match tzFault auth timezone with
  | Some _ => false
  | None =>
      nanLe ((fun t => t - buffer * 60000) <$> slotStart slot) currentTime
      && nanLt currentTime (slotStart slot)
  end.

(** A slot after the first two steps of [getFilteredSlots] under given
    options. *)
Definition annotated (auth : TzAuthority) (clock : Z)
    (options : SlotFiltering.SlotFilterOptions) (slot : Slot) : Slot :=
  withAvailability
    (pipelineFlag auth
       (default (Some clock) (SlotFiltering.opt_currentTime options))
       (default (guessZone auth) (SlotFiltering.opt_timezone options))
       (default 45 (SlotFiltering.opt_bufferDuration options)) slot)
    slot.

(** Ascending order of start, for slots whose starts are valid. *)
Definition startsInOrder (a b : Slot) : Prop :=
  nanLe (slotStart a) (slotStart b) = true.

(** The minute of the day that a text of the form HH:mm names. *)
Definition clockMinutes (text : string) : Z :=
  match list_ascii_of_string text with
  | [h1; h2; _; m1; m2] => digitsValue 0 [h1; h2] * 60 + digitsValue 0 [m1; m2]
  | _ => 0
  end.

(** * Properties *)

(** ** Outcomes *)

Lemma throwIf_returns (cond : bool) (msg : string) :
  throwIf cond msg = Returns tt <-> cond = false.
Proof. unfold throwIf. destruct cond; split; congruence. Qed.

Lemma obind_throwIf_returns {A : Type} (cond : bool) (msg : string)
    (k : unit -> Outcome A) (a : A) :
  obind (throwIf cond msg) k = Returns a <-> cond = false /\ k tt = Returns a.
Proof.
  unfold throwIf. destruct cond; simpl; split.
  - discriminate.
  - intros [? _]. discriminate.
  - auto.
  - intros [_ ?]. assumption.
Qed.

(** ** Validation before generation *)

(** What a configuration that passes [validateSlotConfig] satisfies. *)
Lemma validateSlotConfig_returns (auth : TzAuthority) (config : SlotConfig) :
  SlotGenerator.validateSlotConfig auth config = Returns tt <->
  truthy (startDate config) = true /\ truthy (endDate config) = true /\
  truthy (startTime config) = true /\ truthy (endTime config) = true /\
  truthy (timeZone config) = true /\
  dateRegex_test (startDate config) = true /\ dateRegex_test (endDate config) = true /\
  timeRegex_test (startTime config) = true /\ timeRegex_test (endTime config) = true /\
  0 < slotDuration config /\ 0 <= breakDuration config /\ 0 <= bufferDuration config /\
  zoneKnown auth (timeZone config) = true /\
  nanLe (minutesOfDay (hourMinute (endTime config)))
        (minutesOfDay (hourMinute (startTime config))) = false /\
  nanLt (nanSub (minutesOfDay (hourMinute (endTime config)))
                (minutesOfDay (hourMinute (startTime config))))
        (Some (slotDuration config)) = false.
Proof.
  unfold SlotGenerator.validateSlotConfig.
  rewrite !obind_throwIf_returns.
  rewrite !orb_false_iff, !negb_false_iff, Z.leb_gt, !Z.ltb_ge.
  intuition auto.
Qed.

(** ** The slot grid of a day *)

Section SlotLoop.
Context (slotMs stepMs workingEnd : Z).
Hypothesis slot_positive : 0 <= slotMs.
Hypothesis step_positive : 0 < stepMs.

(** With fuel for every iteration the loop returns, and the number of slots
    is the number of cursors at which a slot still fits. *)
Lemma slotLoop_count (fuel : nat) :
  forall cursor currentId,
    (workingEnd - cursor - slotMs) / stepMs + 1 <= Z.of_nat fuel ->
    exists slots,
      SlotGenerator.slotLoop fuel slotMs stepMs workingEnd cursor currentId
      = Returns slots
      /\ Z.of_nat (length slots)
         = Z.max 0 ((workingEnd - cursor - slotMs) / stepMs + 1).
Proof using slot_positive step_positive.
  induction fuel as [|fuel IH]; intros cursor currentId Hfuel; simpl.
  - destruct (Z.leb_spec (cursor + slotMs) workingEnd) as [Hfit|Hfit].
    + exfalso.
      assert (0 <= (workingEnd - cursor - slotMs) / stepMs)
        by (apply Z.div_pos; lia).
      simpl in Hfuel. lia.
    + exists []. split; [reflexivity|].
      assert ((workingEnd - cursor - slotMs) / stepMs < 0)
        by (apply Z.div_lt_upper_bound; lia).
      simpl. lia.
  - destruct (Z.leb_spec (cursor + slotMs) workingEnd) as [Hfit|Hfit].
    + assert (Hshift : (workingEnd - (cursor + stepMs) - slotMs) / stepMs
                       = (workingEnd - cursor - slotMs) / stepMs - 1).
      { replace (workingEnd - (cursor + stepMs) - slotMs)
          with (workingEnd - cursor - slotMs + (-1) * stepMs) by lia.
        rewrite Z.div_add by lia. lia. }
      destruct (IH (cursor + stepMs) (currentId + 1)) as (rest & Hrest & Hlen).
      { rewrite Hshift. lia. }
      rewrite Hrest. simpl. eexists. split; [reflexivity|].
      assert (0 <= (workingEnd - cursor - slotMs) / stepMs)
        by (apply Z.div_pos; lia).
      simpl length. rewrite Nat2Z.inj_succ, Hlen, Hshift. lia.
    + exists []. split; [reflexivity|].
      assert ((workingEnd - cursor - slotMs) / stepMs < 0)
        by (apply Z.div_lt_upper_bound; lia).
      simpl. lia.
Qed.

End SlotLoop.

(** A day's loop returns whenever the cursor advances, and the window
    decides the number of its slots. *)
Lemma generateDailySlots_count (auth : TzAuthority) (date : Z) (config : SlotConfig)
    (startingId : Z) :
  0 < slotDuration config -> 0 <= breakDuration config ->
  exists slots,
    SlotGenerator.generateDailySlots auth date config startingId = Returns slots
    /\ Z.of_nat (length slots)
       = Z.max 0 ((SlotGenerator.windowMs auth date config
                   + breakDuration config * 60000)
                  / ((slotDuration config + breakDuration config) * 60000)).
Proof.
  intros Hs Hb.
  unfold SlotGenerator.generateDailySlots, SlotGenerator.windowMs.
  set (S0 := SlotGenerator.wallMoment auth (timeZone config) date
               (hourMinute (startTime config))).
  set (E0 := SlotGenerator.wallMoment auth (timeZone config) date
               (hourMinute (endTime config))).
  set (s := slotDuration config) in *. set (b := breakDuration config) in *.
  assert (Hstep : 0 < (s + b) * 60000) by lia.
  destruct (Z.leb_spec E0 S0) as [Hle|Hgt].
  - exists []. split; [reflexivity|].
    assert ((E0 - S0 + b * 60000) / ((s + b) * 60000) <= 0).
    { apply Z.lt_succ_r, Z.div_lt_upper_bound; lia. }
    simpl. lia.
  - destruct (slotLoop_count (s * 60000) ((s + b) * 60000) E0 ltac:(lia) Hstep
                (SlotGenerator.slotLoopFuel ((s + b) * 60000) S0 E0) S0 startingId)
      as (slots & Hrun & Hlen).
    { unfold SlotGenerator.slotLoopFuel.
      assert (0 <= (E0 - S0) / ((s + b) * 60000)) by (apply Z.div_pos; lia).
      rewrite Nat2Z.inj_succ, Z2Nat.id by lia.
      assert ((E0 - S0 - s * 60000) / ((s + b) * 60000)
              <= (E0 - S0) / ((s + b) * 60000))
        by (apply Z.div_le_mono; lia).
      lia. }
    exists slots. split; [exact Hrun|].
    rewrite Hlen. f_equal.
    replace (E0 - S0 + b * 60000)
      with (E0 - S0 - s * 60000 + 1 * ((s + b) * 60000)) by lia.
    rewrite Z.div_add by lia. reflexivity.
Qed.

(** C2, as amended: for every configuration accepted by validation, a day
    whose working window spans [workingMinutes] gets
    floor((workingMinutes + breakDuration) / (slotDuration + breakDuration))
    slots, clamped to 0 when negative: no break is needed after the last
    slot of the day. *)
Theorem daily_slot_count_counts_last_slot (auth : TzAuthority) (config : SlotConfig)
    (date startingId workingMinutes : Z) :
  SlotGenerator.validateSlotConfig auth config = Returns tt ->
  SlotGenerator.windowMs auth date config = workingMinutes * 60000 ->
  exists slots,
    SlotGenerator.generateDailySlots auth date config startingId = Returns slots
    /\ Z.of_nat (length slots)
       = Z.max 0 ((workingMinutes + breakDuration config)
                  / (slotDuration config + breakDuration config)).
Proof.
  intros Hvalid Hwindow.
  apply validateSlotConfig_returns in Hvalid.
  destruct Hvalid as (_ & _ & _ & _ & _ & _ & _ & _ & _ & Hs & Hb & _).
  destruct (generateDailySlots_count auth date config startingId Hs Hb)
    as (slots & Hrun & Hlen).
  exists slots. split; [exact Hrun|].
  rewrite Hlen, Hwindow.
  replace (workingMinutes * 60000 + breakDuration config * 60000)
    with ((workingMinutes + breakDuration config) * 60000) by lia.
  rewrite Z.div_mul_cancel_r by lia. reflexivity.
Qed.

Lemma daily_slot_count_counts_last_slot_witness :
  exists slots,
    SlotGenerator.generateDailySlots utcAuthority 20395 sampleConfig 1 = Returns slots
    /\ Z.of_nat (length slots)
       = Z.max 0 ((480 + breakDuration sampleConfig)
                  / (slotDuration sampleConfig + breakDuration sampleConfig)).
Proof.
  apply (daily_slot_count_counts_last_slot utcAuthority sampleConfig 20395 1 480).
  - vm_compute. reflexivity.
  - vm_compute. reflexivity.
Defined.

(** C2, as stated, fails: from 10:00 to 18:00 (480 minutes) with slots of 30
    minutes and breaks of 15 the day gets 11 slots, and
    floor(480 / (30 + 15)) is 10, which is also what the statistics report. *)
Lemma daily_slot_count_counterexample :
  SlotGenerator.validateSlotConfig utcAuthority sampleConfig = Returns tt
  /\ SlotGenerator.windowMs utcAuthority 20395 sampleConfig = 480 * 60000
  /\ (exists slots,
        SlotGenerator.generateDailySlots utcAuthority 20395 sampleConfig 1
        = Returns slots
        /\ length slots = 11%nat)
  /\ Z.max 0 (480 / (slotDuration sampleConfig + breakDuration sampleConfig)) = 10
  /\ SlotGenerator.statsSlotsPerDay sampleConfig = Some 10.
Proof.
  split; [vm_compute; reflexivity|].
  split; [vm_compute; reflexivity|].
  split.
  - eexists. split; [vm_compute; reflexivity|reflexivity].
  - split; vm_compute; reflexivity.
Qed.

(** ** Generation over the days of the range *)

Lemma short_window_no_slots (auth : TzAuthority) (date : Z) (config : SlotConfig)
    (startingId : Z) :
  0 < slotDuration config -> 0 <= breakDuration config ->
  SlotGenerator.windowMs auth date config < slotDuration config * 60000 ->
  SlotGenerator.generateDailySlots auth date config startingId = Returns [].
Proof.
  intros Hs Hb Hshort.
  destruct (generateDailySlots_count auth date config startingId Hs Hb)
    as (slots & Hrun & Hlen).
  assert ((SlotGenerator.windowMs auth date config + breakDuration config * 60000)
          / ((slotDuration config + breakDuration config) * 60000) <= 0).
  { apply Z.lt_succ_r, Z.div_lt_upper_bound; lia. }
  destruct slots as [|slot slots]; [exact Hrun|].
  simpl length in Hlen. lia.
Qed.

Lemma dayLoop_returns (auth : TzAuthority) (config : SlotConfig) :
  0 < slotDuration config -> 0 <= breakDuration config ->
  forall days currentDate counter slots,
  exists result,
    SlotGenerator.dayLoop auth days currentDate config counter slots = Returns result.
Proof.
  intros Hs Hb. induction days as [|days IH]; intros currentDate counter slots; simpl.
  - eexists. reflexivity.
  - destruct (generateDailySlots_count auth currentDate config counter Hs Hb)
      as (daily & Hrun & _).
    rewrite Hrun. simpl. apply IH.
Qed.

Lemma dayLoop_no_slots (auth : TzAuthority) (config : SlotConfig) (counter : Z) :
  forall days currentDate slots,
    (forall i, (i < days)%nat ->
       SlotGenerator.generateDailySlots auth (currentDate + Z.of_nat i) config counter
       = Returns []) ->
    SlotGenerator.dayLoop auth days currentDate config counter slots = Returns slots.
Proof.
  induction days as [|days IH]; intros currentDate slots Hempty; simpl.
  - reflexivity.
  - specialize (Hempty 0%nat ltac:(lia)) as Hfirst.
    rewrite Z.add_0_r in Hfirst. rewrite Hfirst. simpl.
    rewrite Z.add_0_r, app_nil_r. apply IH.
    intros i Hi. specialize (Hempty (S i) ltac:(lia)).
    rewrite Nat2Z.inj_succ in Hempty.
    replace (currentDate + 1 + Z.of_nat i) with (currentDate + Z.succ (Z.of_nat i)) by lia.
    exact Hempty.
Qed.

Lemma generateSlots_validated (auth : TzAuthority) (config : SlotConfig) :
  SlotGenerator.validateSlotConfig auth config = Returns tt ->
  SlotGenerator.generateSlots auth config
  = if rangeInverted config
    then Throws (Error "Slot generation failed: End date must be same as or after start date")
    else match parseCalendarDate (startDate config),
               parseCalendarDate (endDate config) with
         | Some d0, Some d1 =>
             tryCatch (SlotGenerator.dayLoop auth (Z.to_nat (d1 - d0 + 1)) d0 config 1 [])
               (fun error =>
                  Throws (Error ("Slot generation failed: " +:+ messageOrUnknown error)))
         | _, _ => Returns []
         end.
Proof.
  intros Hvalid. unfold SlotGenerator.generateSlots, rangeInverted.
  rewrite Hvalid. simpl.
  destruct (nanLt (parseCalendarDate (endDate config))
                  (parseCalendarDate (startDate config))); simpl.
  - reflexivity.
  - destruct (parseCalendarDate (startDate config)),
             (parseCalendarDate (endDate config)); reflexivity.
Qed.

(** C5, as amended: for every configuration that passes generation-time
    validation, a day whose working window is too short for one slot
    contributes zero slots; [generateSlots] throws exactly when it finds the
    end date before the start date and returns its list otherwise; when no
    day contributes a slot it returns the empty list, and it is the submit
    handler of the form that reports the empty result as a failure. *)
Theorem empty_generation_returns_normally (auth : TzAuthority)
    (toISOString : Z -> string) (config : SlotConfig) (store : Storage.AsyncStorage) :
  SlotGenerator.validateSlotConfig auth config = Returns tt ->
  (forall date startingId,
     SlotGenerator.windowMs auth date config < slotDuration config * 60000 ->
     SlotGenerator.generateDailySlots auth date config startingId = Returns [])
  /\ (rangeInverted config = true ->
      SlotGenerator.generateSlots auth config
      = Throws (Error "Slot generation failed: End date must be same as or after start date"))
  /\ (rangeInverted config = false ->
      exists slots, SlotGenerator.generateSlots auth config = Returns slots)
  /\ (rangeInverted config = false ->
      (forall date, date ∈ rangeDays config ->
         SlotGenerator.windowMs auth date config < slotDuration config * 60000) ->
      SlotGenerator.generateSlots auth config = Returns []
      /\ GenerationForm.handleGenerateSlots auth toISOString config store
         = Returns (GenerationForm.saveConfiguration config store,
                    GenerationForm.GenerationFailed
                      "No slots were generated. Please check your configuration.")).
Proof.
  intros Hvalid.
  pose proof (generateSlots_validated auth config Hvalid) as Hgen.
  apply validateSlotConfig_returns in Hvalid.
  destruct Hvalid as (_ & _ & _ & _ & _ & _ & _ & _ & _ & Hs & Hb & _).
  split; [|split; [|split]].
  - intros date startingId Hshort. now apply short_window_no_slots.
  - intros Hinv. rewrite Hgen, Hinv. reflexivity.
  - intros Hinv. rewrite Hgen, Hinv.
    destruct (parseCalendarDate (startDate config)) as [d0|];
      [destruct (parseCalendarDate (endDate config)) as [d1|]|];
      try (eexists; reflexivity).
    destruct (dayLoop_returns auth config Hs Hb (Z.to_nat (d1 - d0 + 1)) d0 1 [])
      as (result & Hresult).
    rewrite Hresult. eexists. reflexivity.
  - intros Hinv Hshort.
    assert (Hempty : SlotGenerator.generateSlots auth config = Returns []).
    { rewrite Hgen, Hinv. unfold rangeDays in Hshort.
      destruct (parseCalendarDate (startDate config)) as [d0|];
        [destruct (parseCalendarDate (endDate config)) as [d1|]|];
        try reflexivity.
      rewrite dayLoop_no_slots; [reflexivity|].
      intros i Hi. apply short_window_no_slots; [assumption..|].
      apply Hshort. apply list_elem_of_fmap. exists i. split; [reflexivity|].
      apply elem_of_seq. lia. }
    split; [exact Hempty|].
    unfold GenerationForm.handleGenerateSlots. rewrite Hempty. reflexivity.
Qed.

Lemma empty_generation_returns_normally_witness :
  SlotGenerator.generateSlots springForwardAuthority skippedHourConfig = Returns []
  /\ GenerationForm.handleGenerateSlots springForwardAuthority pretty
       skippedHourConfig emptyStore
     = Returns (GenerationForm.saveConfiguration skippedHourConfig emptyStore,
                GenerationForm.GenerationFailed
                  "No slots were generated. Please check your configuration.").
Proof.
  destruct (empty_generation_returns_normally springForwardAuthority pretty
              skippedHourConfig emptyStore) as (_ & _ & _ & Hempty).
  - vm_compute. reflexivity.
  - apply Hempty.
    + vm_compute. reflexivity.
    + intros date Hdate.
      apply list_elem_of_fmap in Hdate as (i & -> & Hi).
      apply elem_of_seq in Hi.
      assert (i = 0%nat) as -> by (vm_compute in Hi; lia).
      vm_compute. reflexivity.
Defined.

(** C5, as stated, fails: a configuration that passes validation and whose
    result is empty makes [generateSlots] return the empty list, not throw.
    The first configuration has dates of the right shape that name no
    calendar day, so the loop over the days does not run; the second has a
    single day whose window vanishes in the zone. *)
Lemma empty_generation_counterexample :
  (SlotGenerator.validateSlotConfig utcAuthority noSuchDayConfig = Returns tt
   /\ SlotGenerator.generateSlots utcAuthority noSuchDayConfig = Returns [])
  /\ (SlotGenerator.validateSlotConfig springForwardAuthority skippedHourConfig
      = Returns tt
      /\ SlotGenerator.generateDailySlots springForwardAuthority 20156
           skippedHourConfig 1 = Returns []
      /\ SlotGenerator.generateSlots springForwardAuthority skippedHourConfig
         = Returns []).
Proof. vm_compute. repeat split; reflexivity. Qed.

(** ** Re-projection and availability *)

Lemma mapOutcome_returns {A B : Type} (f : A -> Outcome B) (g : A -> B) (l : list A) :
  (forall x, f x = Returns (g x)) ->
  SlotGenerator.mapOutcome f l = Returns (map g l).
Proof.
  intros Hf. induction l as [|x l IH]; simpl; [reflexivity|].
  rewrite Hf. simpl. rewrite IH. reflexivity.
Qed.

Lemma mapOutcome_throws {A B : Type} (f : A -> Outcome B) (e : JsError) (l : list A) :
  (forall x, f x = Throws e) -> l <> [] ->
  SlotGenerator.mapOutcome f l = Throws e.
Proof.
  intros Hf Hl. destruct l as [|x l]; [congruence|]. simpl. rewrite Hf. reflexivity.
Qed.

Lemma withTimes_same (s : Slot) : withTimes (slotStart s) (slotEnd s) s = s.
Proof. destruct s; reflexivity. Qed.

Lemma tz_returns (auth : TzAuthority) (name : string) (m : Moment) :
  tzFault auth name = None ->
  exists m', tz auth name m = Returns m' /\ m_value m' = m_value m.
Proof. intros Hok. unfold tz. rewrite Hok. eexists. split; reflexivity. Qed.

Lemma tz_throws (auth : TzAuthority) (name : string) (m : Moment) (e : JsError) :
  tzFault auth name = Some e -> tz auth name m = Throws e.
Proof. intros Hf. unfold tz. rewrite Hf. reflexivity. Qed.

(** Both re-projections give back the slots they are given. *)
Lemma generator_convert_same (auth : TzAuthority) (slots : list Slot) (zone : string) :
  SlotGenerator.convertSlotsToTimezone auth slots zone = slots.
Proof.
  unfold SlotGenerator.convertSlotsToTimezone.
  destruct (tzFault auth zone) as [e|] eqn:Hfault.
  - destruct slots as [|s slots]; [reflexivity|].
    rewrite (mapOutcome_throws _ e); [reflexivity| |discriminate].
    intros x. rewrite (tz_throws auth zone _ e Hfault). reflexivity.
  - rewrite (mapOutcome_returns _ (fun s => s)).
    + rewrite map_id. reflexivity.
    + intros x. unfold tz. rewrite Hfault. simpl. unfold toDate. simpl.
      rewrite withTimes_same. reflexivity.
Qed.

Lemma filtering_convert_same (auth : TzAuthority) (slots : list Slot) (zone : string) :
  SlotFiltering.convertSlotsToTimezone auth slots zone = slots.
Proof. exact (generator_convert_same auth slots zone). Qed.

(** C8: re-projecting slots into a timezone, with either
    [convertSlotsToTimezone], leaves the id, the availability flag and the
    start and end instants of every slot as they were; availability computed
    on the re-projected slots is the availability computed on the slots, and
    re-projecting after the computation changes no flag. *)
Theorem reprojection_keeps_slots (auth : TzAuthority) (slots : list Slot)
    (targetTimezone : string) :
  let viaGenerator := SlotGenerator.convertSlotsToTimezone auth slots targetTimezone in
  let viaFilter := SlotFiltering.convertSlotsToTimezone auth slots targetTimezone in
  (map id viaGenerator = map id slots
   /\ map isAvailable viaGenerator = map isAvailable slots
   /\ map slotStart viaGenerator = map slotStart slots
   /\ map slotEnd viaGenerator = map slotEnd slots)
  /\ (map id viaFilter = map id slots
      /\ map isAvailable viaFilter = map isAvailable slots
      /\ map slotStart viaFilter = map slotStart slots
      /\ map slotEnd viaFilter = map slotEnd slots)
  /\ (forall currentTime timezone buffer,
        SlotFiltering.calculateTimezoneAwareAvailability auth viaFilter
          currentTime timezone buffer
        = SlotFiltering.calculateTimezoneAwareAvailability auth slots
            currentTime timezone buffer
        /\ SlotFiltering.convertSlotsToTimezone auth
             (SlotFiltering.calculateTimezoneAwareAvailability auth slots
                currentTime timezone buffer) targetTimezone
           = SlotFiltering.calculateTimezoneAwareAvailability auth viaFilter
               currentTime timezone buffer)
  /\ (forall clock buffer currentTime timezone,
        SlotGenerator.calculateSlotAvailability auth clock viaGenerator buffer
          currentTime timezone
        = SlotGenerator.calculateSlotAvailability auth clock slots buffer
            currentTime timezone
        /\ SlotGenerator.convertSlotsToTimezone auth
             (SlotGenerator.calculateSlotAvailability auth clock slots buffer
                currentTime timezone) targetTimezone
           = SlotGenerator.calculateSlotAvailability auth clock viaGenerator buffer
               currentTime timezone).
Proof.
  intros viaGenerator viaFilter. subst viaGenerator viaFilter.
  rewrite generator_convert_same, filtering_convert_same.
  repeat split; try reflexivity.
  - apply filtering_convert_same.
  - apply generator_convert_same.
Qed.

(** The annotator of the filter pipeline follows the canonical rule when the
    zone can be applied. *)
Lemma timezoneAware_rule (auth : TzAuthority) (slots : list Slot)
    (reference : Z) (timezone : string) (buffer : Z) :
  tzFault auth timezone = None ->
  SlotFiltering.calculateTimezoneAwareAvailability auth slots (Some reference)
    timezone buffer
  = map (fun slot =>
           withAvailability
             (match slotStart slot with
              | Some start => (start - buffer * 60000 <=? reference) && (reference <? start)
              | None => false
              end) slot) slots.
Proof.
  intros Hok.
  unfold SlotFiltering.calculateTimezoneAwareAvailability,
    SlotFiltering.timezoneAwareBody.
  unfold tz at 1. rewrite Hok. simpl.
  erewrite mapOutcome_returns; [reflexivity|].
  intros slot. unfold tz. rewrite Hok. simpl.
  unfold isSameOrAfter, isAfter, subtractMinutes. simpl.
  destruct (slotStart slot); reflexivity.
Qed.

Lemma timezoneAware_bookable (auth : TzAuthority) (slots : list Slot)
    (reference : Z) (timezone : string) (buffer : Z) :
  tzFault auth timezone = None ->
  Forall2 (fun slot annotated =>
             withAvailability (isAvailable annotated) slot = annotated
             /\ (isAvailable annotated = true <-> bookable reference buffer slot))
    slots
    (SlotFiltering.calculateTimezoneAwareAvailability auth slots (Some reference)
       timezone buffer).
Proof.
  intros Hok. rewrite timezoneAware_rule by assumption.
  induction slots as [|slot slots IH]; simpl; constructor; [|exact IH].
  split; [reflexivity|]. simpl. unfold bookable.
  destruct (slotStart slot) as [start|].
  - rewrite andb_true_iff, Z.leb_le, Z.ltb_lt. split.
    + intros [? ?]. exists start. auto.
    + intros (start' & Heq & ? & ?). injection Heq as <-. auto.
  - split; [discriminate|]. intros (start' & Heq & _). discriminate.
Qed.

(** The annotator of the generator tests the first clause only. *)
Lemma generator_rule (auth : TzAuthority) (clock : Z) (slots : list Slot)
    (reference : Z) (timezone : string) (buffer : Z) :
  tzFault auth timezone = None ->
  SlotGenerator.calculateSlotAvailability auth clock slots buffer
    (Some (Some reference)) (Some timezone)
  = map (fun slot =>
           withAvailability
             (match slotStart slot with
              | Some start => start - buffer * 60000 <=? reference
              | None => false
              end) slot) slots.
Proof.
  intros Hok.
  unfold SlotGenerator.calculateSlotAvailability, SlotGenerator.availabilityBody.
  assert (Htz : forall m, SlotGenerator.tzIfGiven auth (Some timezone) m
                          = Returns (if truthy timezone
                                     then {| m_value := m_value m;
                                             m_zone := if zoneKnown auth timezone
                                                       then Some timezone else m_zone m |}
                                     else m)).
  { intros m. unfold SlotGenerator.tzIfGiven, tz. rewrite Hok.
    destruct (truthy timezone); reflexivity. }
  cbv zeta. rewrite Htz. cbn [obind].
  erewrite mapOutcome_returns; [reflexivity|].
  intros slot. rewrite Htz. cbn [obind].
  unfold isSameOrAfter, subtractMinutes.
  destruct (truthy timezone); simpl; destruct (slotStart slot); reflexivity.
Qed.

(** C1 at a failing input: at 11:00 the slot from 10:00 to 10:30 has started,
    so it is not bookable; the annotator of the generator marks it available
    all the same, and the annotator of the filter pipeline does not. *)
Theorem generator_marks_started_slot_available :
  ~ bookable elevenOClock 45 slotAtTen
  /\ map isAvailable
       (SlotGenerator.calculateSlotAvailability utcAuthority 0 [slotAtTen] 45
          (Some (Some elevenOClock)) (Some "UTC")) = [true]
  /\ map isAvailable
       (SlotFiltering.calculateTimezoneAwareAvailability utcAuthority [slotAtTen]
          (Some elevenOClock) "UTC" 45) = [false].
Proof.
  split.
  - intros (start & Hstart & _ & Hbefore).
    injection Hstart as <-. unfold elevenOClock in Hbefore. lia.
  - split; vm_compute; reflexivity.
Qed.

(** In the filter pipeline the [try] throws exactly when the zone cannot be
    applied, and in the generator when a zone is given and cannot be. *)
Lemma timezoneAwareBody_throws (auth : TzAuthority) (slots : list Slot)
    (reference : option Z) (timezone : string) (buffer : Z) (e : JsError) :
  SlotFiltering.timezoneAwareBody auth slots reference timezone buffer = Throws e
  <-> tzFault auth timezone = Some e.
Proof.
  unfold SlotFiltering.timezoneAwareBody. unfold tz at 1.
  destruct (tzFault auth timezone) as [e'|] eqn:Hfault; simpl.
  - split; congruence.
  - erewrite mapOutcome_returns.
    + split; discriminate.
    + intros slot. unfold tz. rewrite Hfault. simpl. reflexivity.
Qed.

Lemma availabilityBody_throws (auth : TzAuthority) (clock : Z) (slots : list Slot)
    (buffer : Z) (currentTime : option (option Z)) (timezone : option string)
    (e : JsError) :
  SlotGenerator.availabilityBody auth clock slots buffer currentTime timezone
  = Throws e
  <-> exists name, timezone = Some name /\ truthy name = true
                   /\ tzFault auth name = Some e.
Proof.
  unfold SlotGenerator.availabilityBody. cbv zeta.
  destruct timezone as [name|]; simpl.
  - destruct (truthy name) eqn:Hname.
    + unfold tz at 1.
      destruct (tzFault auth name) as [e'|] eqn:Hfault; simpl.
      * split.
        -- intros [= ->]. exists name. auto.
        -- intros (name' & [= <-] & _ & Hf). congruence.
      * erewrite mapOutcome_returns.
        -- split; [discriminate|]. intros (name' & [= <-] & _ & Hf). congruence.
        -- intros slot. unfold tz. rewrite Hfault. simpl. reflexivity.
    + simpl. erewrite mapOutcome_returns by (intros slot; reflexivity).
      split; [discriminate|]. intros (name' & [= <-] & Ht & _). congruence.
  - erewrite mapOutcome_returns by (intros slot; reflexivity).
    split; [discriminate|]. intros (name' & Hnone & _). discriminate.
Qed.

Lemma withAvailability_false_all (slots : list Slot) :
  Forall (fun slot => isAvailable slot = false) (map (withAvailability false) slots).
Proof.
  induction slots as [|slot rest IH]; simpl; constructor; [reflexivity|exact IH].
Qed.

(** C9: when the computation inside the [try] throws, each of the two
    annotators returns the slots it was given with [isAvailable] set to
    false, so that no slot of the result is available. *)
Theorem availability_error_path (auth : TzAuthority) (slots : list Slot) (buffer : Z) :
  (forall clock currentTime timezone e,
     SlotGenerator.availabilityBody auth clock slots buffer currentTime timezone
     = Throws e ->
     let result := SlotGenerator.calculateSlotAvailability auth clock slots buffer
                     currentTime timezone in
     result = map (withAvailability false) slots
     /\ Forall (fun slot => isAvailable slot = false) result)
  /\ (forall currentTime timezone e,
        SlotFiltering.timezoneAwareBody auth slots currentTime timezone buffer
        = Throws e ->
        let result := SlotFiltering.calculateTimezoneAwareAvailability auth slots
                        currentTime timezone buffer in
        result = map (withAvailability false) slots
        /\ Forall (fun slot => isAvailable slot = false) result).
Proof.
  split.
  - intros clock currentTime timezone e Hthrows result. subst result.
    unfold SlotGenerator.calculateSlotAvailability. rewrite Hthrows.
    split; [reflexivity|apply withAvailability_false_all].
  - intros currentTime timezone e Hthrows result. subst result.
    unfold SlotFiltering.calculateTimezoneAwareAvailability. rewrite Hthrows.
    split; [reflexivity|apply withAvailability_false_all].
Qed.

Lemma availability_error_path_witness :
  SlotGenerator.calculateSlotAvailability faultyAuthority 0
    [slotAtTen; slotAtTenFortyFive] 45 (Some (Some nineFifty)) (Some "Broken/Zone")
  = map (withAvailability false) [slotAtTen; slotAtTenFortyFive]
  /\ SlotFiltering.calculateTimezoneAwareAvailability faultyAuthority
       [slotAtTen; slotAtTenFortyFive] (Some nineFifty) "Broken/Zone" 45
     = map (withAvailability false) [slotAtTen; slotAtTenFortyFive].
Proof.
  destruct (availability_error_path faultyAuthority [slotAtTen; slotAtTenFortyFive] 45)
    as (Hgen & Hfilter).
  split.
  - apply (Hgen 0 (Some (Some nineFifty)) (Some "Broken/Zone")
             (Error "Time zone lookup failed")).
    vm_compute. reflexivity.
  - apply (Hfilter (Some nineFifty) "Broken/Zone" (Error "Time zone lookup failed")).
    vm_compute. reflexivity.
Defined.


(** ** The filter pipeline *)

Lemma filterOutcome_sublist {A : Type} (p : A -> Outcome bool) (l kept : list A) :
  SlotFiltering.filterOutcome p l = Returns kept -> sublist kept l.
Proof.
  revert kept. induction l as [|x l IH]; simpl; intros kept Hrun.
  - injection Hrun as <-. constructor.
  - destruct (p x) as [keep| |]; simpl in Hrun; try discriminate.
    destruct (SlotFiltering.filterOutcome p l) as [rest| |]; simpl in Hrun;
      try discriminate.
    injection Hrun as <-.
    destruct keep; [apply sublist_skip|apply sublist_cons]; now apply IH.
Qed.

Lemma dateRangeStage_sublist (auth : TzAuthority) options timezone (slots : list Slot) :
  sublist (SlotFiltering.dateRangeStage auth options timezone slots) slots.
Proof.
  unfold SlotFiltering.dateRangeStage.
  destruct (SlotFiltering.bothGiven _ _) as [[startDate endDate]|]; [|reflexivity].
  unfold SlotFiltering.filterSlotsByDateRange.
  destruct (SlotFiltering.momentTzDay auth startDate timezone) as [d0| |]; simpl;
    try apply sublist_nil_l.
  destruct (SlotFiltering.momentTzDay auth endDate timezone) as [d1| |]; simpl;
    try apply sublist_nil_l.
  destruct (SlotFiltering.filterOutcome _ slots) as [kept| |] eqn:Hrun;
    try apply sublist_nil_l.
  exact (filterOutcome_sublist _ _ _ Hrun).
Qed.

Lemma timeRangeStage_sublist (auth : TzAuthority) options timezone (slots : list Slot) :
  sublist (SlotFiltering.timeRangeStage auth options timezone slots) slots.
Proof.
  unfold SlotFiltering.timeRangeStage.
  destruct (SlotFiltering.bothGiven _ _) as [[startTime endTime]|]; [|reflexivity].
  unfold SlotFiltering.filterSlotsByTimeRange.
  destruct (SlotFiltering.filterOutcome _ slots) as [kept| |] eqn:Hrun;
    try apply sublist_nil_l.
  exact (filterOutcome_sublist _ _ _ Hrun).
Qed.

(** A slot that the pipeline's annotator marks available has a valid start. *)
Lemma timezoneAware_available_valid (auth : TzAuthority) (slots : list Slot)
    (currentTime : option Z) (timezone : string) (buffer : Z) :
  Forall (fun slot => isAvailable slot = true -> is_Some (slotStart slot))
    (SlotFiltering.calculateTimezoneAwareAvailability auth slots currentTime
       timezone buffer).
Proof.
  unfold SlotFiltering.calculateTimezoneAwareAvailability,
    SlotFiltering.timezoneAwareBody.
  unfold tz at 1.
  destruct (tzFault auth timezone) as [e|] eqn:Hfault; simpl.
  - induction slots as [|slot rest IH]; simpl; constructor; [discriminate|exact IH].
  - erewrite mapOutcome_returns
      with (g := fun slot =>
                   withAvailability
                     (nanLe ((fun t => t - buffer * 60000) <$> slotStart slot) currentTime
                      && nanLt currentTime (slotStart slot)) slot).
    + induction slots as [|slot rest IH]; simpl; constructor; [|exact IH].
      simpl. intros Havail. apply andb_true_iff in Havail as [_ Hlt].
      destruct currentTime, (slotStart slot); simpl in Hlt; try discriminate.
      eexists. reflexivity.
    + intros slot. unfold tz. rewrite Hfault. reflexivity.
Qed.

(** Sorting by insertion permutes, and puts valid starts in order. *)
Lemma insertByStart_Permutation (x : Slot) (l : list Slot) :
  Permutation (SlotFiltering.insertByStart x l) (x :: l).
Proof.
  induction l as [|y l IH]; simpl; [reflexivity|].
  destruct (SlotFiltering.startsAfter x y); [|reflexivity].
  rewrite IH. apply perm_swap.
Qed.

Lemma sortByStart_Permutation (l : list Slot) :
  Permutation (SlotFiltering.sortByStart l) l.
Proof.
  induction l as [|x l IH]; simpl; [reflexivity|].
  rewrite insertByStart_Permutation. now constructor.
Qed.

Lemma insertByStart_Sorted (x : Slot) (l : list Slot) :
  is_Some (slotStart x) -> Forall (fun s => is_Some (slotStart s)) l ->
  Sorted (fun a b => nanLe (slotStart a) (slotStart b) = true) l ->
  Sorted (fun a b => nanLe (slotStart a) (slotStart b) = true)
    (SlotFiltering.insertByStart x l).
Proof.
  intros [tx Hx] Hvalid Hsorted.
  induction l as [|y l IH]; simpl.
  - repeat constructor.
  - apply Forall_cons in Hvalid as [[ty Hy] Hvalid].
    apply Sorted_inv in Hsorted as [Hsorted Hhd].
    unfold SlotFiltering.startsAfter. rewrite Hx, Hy. simpl.
    destruct (Z.ltb_spec ty tx) as [Hlt|Hge].
    + constructor; [now apply IH|].
      destruct l as [|z l]; simpl.
      * constructor. rewrite Hx, Hy. simpl. apply Z.leb_le. lia.
      * apply Forall_cons in Hvalid as [[tz' Hz] _].
        unfold SlotFiltering.startsAfter. rewrite Hx, Hz. simpl.
        destruct (Z.ltb_spec tz' tx); constructor.
        -- now apply HdRel_inv in Hhd.
        -- rewrite Hx, Hy. simpl. apply Z.leb_le. lia.
    + constructor.
      * constructor; assumption.
      * constructor. rewrite Hx, Hy. simpl. apply Z.leb_le. lia.
Qed.

Lemma sortByStart_Sorted (l : list Slot) :
  Forall (fun s => is_Some (slotStart s)) l ->
  Sorted (fun a b => nanLe (slotStart a) (slotStart b) = true)
    (SlotFiltering.sortByStart l).
Proof.
  induction l as [|x l IH]; simpl; intros Hvalid; [constructor|].
  apply Forall_cons in Hvalid as [Hx Hvalid].
  apply insertByStart_Sorted; [assumption| |now apply IH].
  rewrite sortByStart_Permutation. assumption.
Qed.

Lemma getFilteredSlots_stages (auth : TzAuthority) (clock : Z) (slots : list Slot)
    (options : SlotFiltering.SlotFilterOptions) :
  SlotFiltering.getFilteredSlots auth clock slots options
  = SlotFiltering.sortByStart
      (SlotFiltering.limitStage options (survivors auth clock slots options)).
Proof. reflexivity. Qed.

(** What holds of a limited, available-only filtering: at most [limit]
    slots, all of them available, in ascending order of start; they are the
    first [limit] survivors in the order of the input, sorted afterwards. *)
Lemma getFilteredSlots_limited (auth : TzAuthority) (clock : Z) (slots : list Slot)
    (options : SlotFiltering.SlotFilterOptions) (limit : Z) :
  SlotFiltering.opt_availableOnly options = Some true ->
  SlotFiltering.opt_limit options = Some limit -> 0 < limit ->
  let result := SlotFiltering.getFilteredSlots auth clock slots options in
  result = SlotFiltering.sortByStart
             (take (Z.to_nat limit) (survivors auth clock slots options))
  /\ (length result <= Z.to_nat limit)%nat
  /\ Forall (fun slot => isAvailable slot = true) result
  /\ Sorted (fun a b => nanLe (slotStart a) (slotStart b) = true) result.
Proof.
  intros Honly Hlimit Hpos result. subst result.
  rewrite getFilteredSlots_stages.
  unfold SlotFiltering.limitStage. rewrite Hlimit.
  replace (negb (limit =? 0) && (0 <? limit)) with true
    by (symmetry; apply andb_true_iff; split;
        [apply negb_true_iff, Z.eqb_neq|apply Z.ltb_lt]; lia).
  set (alive := survivors auth clock slots options).
  assert (Halive : Forall (fun slot => isAvailable slot = true
                                       /\ is_Some (slotStart slot)) alive).
  { subst alive. unfold survivors, SlotFiltering.availableOnlyStage.
    rewrite Honly. simpl.
    apply Forall_forall. intros slot Hin.
    apply list_elem_of_In, filter_In in Hin as [Hin Havail].
    split; [exact Havail|].
    apply list_elem_of_In in Hin.
    eapply elem_of_sublist in Hin; [|apply timeRangeStage_sublist].
    eapply elem_of_sublist in Hin; [|apply dateRangeStage_sublist].
    pose proof (timezoneAware_available_valid auth
                  (SlotFiltering.convertSlotsToTimezone auth slots
                     (default (guessZone auth) (SlotFiltering.opt_timezone options)))
                  (default (Some clock) (SlotFiltering.opt_currentTime options))
                  (default (guessZone auth) (SlotFiltering.opt_timezone options))
                  (default 45 (SlotFiltering.opt_bufferDuration options))) as Hvalid.
    rewrite Forall_forall in Hvalid. now apply Hvalid. }
  assert (Htaken : Forall (fun slot => isAvailable slot = true
                                       /\ is_Some (slotStart slot))
                     (take (Z.to_nat limit) alive)).
  { apply Forall_take. exact Halive. }
  split; [reflexivity|]. split; [|split].
  - rewrite (Permutation_length (sortByStart_Permutation _)), length_take. lia.
  - rewrite sortByStart_Permutation.
    eapply Forall_impl; [exact Htaken|]. intros slot [? _]. assumption.
  - apply sortByStart_Sorted.
    eapply Forall_impl; [exact Htaken|]. intros slot [_ ?]. assumption.
Qed.

(** C4 at a failing input: the slots are given with the later one first, both
    are available at 09:50 under a buffer of 90 minutes, and the limit is 1.
    [getFilteredSlots] cuts the list before it sorts and returns the slot of
    10:45, and so does [getNextAvailableSlots]; the first of the survivors
    in ascending order of start is the slot of 10:00. *)
Theorem limit_is_applied_before_sorting :
  map id (survivors utcAuthority 0 [slotAtTenFortyFive; slotAtTen]
            firstAvailableOptions) = ["slot_0002"; "slot_0001"]
  /\ map id (SlotFiltering.getFilteredSlots utcAuthority 0
               [slotAtTenFortyFive; slotAtTen] firstAvailableOptions)
     = ["slot_0002"]
  /\ map id (SlotFiltering.getNextAvailableSlots utcAuthority
               [slotAtTenFortyFive; slotAtTen] 1 "UTC" 90 (Some nineFifty))
     = ["slot_0002"]
  /\ map id (take 1 (SlotFiltering.sortByStart
                       (survivors utcAuthority 0 [slotAtTenFortyFive; slotAtTen]
                          firstAvailableOptions)))
     = ["slot_0001"].
Proof. vm_compute. repeat split; reflexivity. Qed.

Lemma bothGiven_exactlyOne (a b : option string) :
  exactlyOne a b -> SlotFiltering.bothGiven a b = None.
Proof.
  intros [[_ ->]|[-> _]]; unfold SlotFiltering.bothGiven.
  - destruct a; reflexivity.
  - reflexivity.
Qed.

Lemma bothGiven_Some (a b : option string) (x y : string) :
  SlotFiltering.bothGiven a b = Some (x, y) ->
  a = Some x /\ b = Some y /\ truthy x = true /\ truthy y = true.
Proof.
  unfold SlotFiltering.bothGiven. destruct a as [x'|], b as [y'|]; try discriminate.
  destruct (truthy x') eqn:Hx, (truthy y') eqn:Hy; simpl; try discriminate.
  intros [= <- <-]. auto.
Qed.

(** C10: the date-range stage of [getFilteredSlots] filters only when both
    [startDate] and [endDate] are supplied, and the time-of-day stage only
    when both [startTime] and [endTime] are; with exactly one bound of a
    pair the stage gives back its list unchanged, and the result of
    [getFilteredSlots] is the one without that bound. *)
Theorem partial_range_skips_stage (auth : TzAuthority) (clock : Z)
    (slots : list Slot) (options : SlotFiltering.SlotFilterOptions)
    (timezone : string) :
  (exactlyOne (SlotFiltering.opt_startDate options) (SlotFiltering.opt_endDate options) ->
   SlotFiltering.dateRangeStage auth options timezone slots = slots
   /\ SlotFiltering.getFilteredSlots auth clock slots options
      = SlotFiltering.getFilteredSlots auth clock slots (withoutDateRange options))
  /\ (exactlyOne (SlotFiltering.opt_startTime options) (SlotFiltering.opt_endTime options) ->
      SlotFiltering.timeRangeStage auth options timezone slots = slots
      /\ SlotFiltering.getFilteredSlots auth clock slots options
         = SlotFiltering.getFilteredSlots auth clock slots (withoutTimeRange options))
  /\ (SlotFiltering.dateRangeStage auth options timezone slots = slots
      \/ exists startDate endDate,
           SlotFiltering.opt_startDate options = Some startDate
           /\ SlotFiltering.opt_endDate options = Some endDate
           /\ SlotFiltering.dateRangeStage auth options timezone slots
              = SlotFiltering.filterSlotsByDateRange auth slots startDate endDate timezone)
  /\ (SlotFiltering.timeRangeStage auth options timezone slots = slots
      \/ exists startTime endTime,
           SlotFiltering.opt_startTime options = Some startTime
           /\ SlotFiltering.opt_endTime options = Some endTime
           /\ SlotFiltering.timeRangeStage auth options timezone slots
              = SlotFiltering.filterSlotsByTimeRange auth slots startTime endTime timezone).
Proof.
  split; [|split; [|split]].
  - intros Hone. apply bothGiven_exactlyOne in Hone.
    unfold SlotFiltering.getFilteredSlots, SlotFiltering.dateRangeStage.
    rewrite Hone. split; reflexivity.
  - intros Hone. apply bothGiven_exactlyOne in Hone.
    unfold SlotFiltering.getFilteredSlots, SlotFiltering.timeRangeStage.
    rewrite Hone. split; reflexivity.
  - unfold SlotFiltering.dateRangeStage.
    destruct (SlotFiltering.bothGiven _ _) as [[startDate endDate]|] eqn:Hboth;
      [right|left; reflexivity].
    apply bothGiven_Some in Hboth as (Hs & He & _).
    exists startDate, endDate. auto.
  - unfold SlotFiltering.timeRangeStage.
    destruct (SlotFiltering.bothGiven _ _) as [[startTime endTime]|] eqn:Hboth;
      [right|left; reflexivity].
    apply bothGiven_Some in Hboth as (Hs & He & _).
    exists startTime, endTime. auto.
Qed.

Lemma partial_range_skips_stage_witness :
  (SlotFiltering.dateRangeStage utcAuthority onlyStartDate "UTC"
     [slotAtTen; slotAtTenFortyFive] = [slotAtTen; slotAtTenFortyFive]
   /\ SlotFiltering.getFilteredSlots utcAuthority 0 [slotAtTen; slotAtTenFortyFive]
        onlyStartDate
      = SlotFiltering.getFilteredSlots utcAuthority 0 [slotAtTen; slotAtTenFortyFive]
          (withoutDateRange onlyStartDate))
  /\ (SlotFiltering.timeRangeStage utcAuthority onlyEndTime "UTC"
        [slotAtTen; slotAtTenFortyFive] = [slotAtTen; slotAtTenFortyFive]
      /\ SlotFiltering.getFilteredSlots utcAuthority 0 [slotAtTen; slotAtTenFortyFive]
           onlyEndTime
         = SlotFiltering.getFilteredSlots utcAuthority 0 [slotAtTen; slotAtTenFortyFive]
             (withoutTimeRange onlyEndTime)).
Proof.
  split.
  - apply (proj1 (partial_range_skips_stage utcAuthority 0
                    [slotAtTen; slotAtTenFortyFive] onlyStartDate "UTC")).
    left. split; [eexists; reflexivity|reflexivity].
  - apply (proj1 (proj2 (partial_range_skips_stage utcAuthority 0
                           [slotAtTen; slotAtTenFortyFive] onlyEndTime "UTC"))).
    right. split; [reflexivity|eexists; reflexivity].
Defined.

(** ** The two validators *)

Lemma isDigit_not_colon (c : ascii) : isDigit c = true -> Ascii.eqb c ":" = false.
Proof.
  intros Hdigit. destruct (Ascii.eqb_spec c ":") as [->|]; [|reflexivity].
  vm_compute in Hdigit. discriminate.
Qed.

(** A text of the shape HH:mm splits into its two numbers. *)
Lemma timeRegex_hourMinute (text : string) :
  timeRegex_test text = true ->
  exists h1 h2 m1 m2,
    list_ascii_of_string text = [h1; h2; ":"%char; m1; m2]
    /\ hourMinute text = (Some (digitsValue 0 [h1; h2]), Some (digitsValue 0 [m1; m2])).
Proof.
  unfold timeRegex_test, hourMinute.
  destruct (list_ascii_of_string text) as [|h1 [|h2 [|s [|m1 [|m2 [|x l]]]]]];
    try discriminate.
  rewrite !andb_true_iff. intros [[[[H1 H2] Hs] H3] H4].
  apply Ascii.eqb_eq in Hs. subst s.
  exists h1, h2, m1, m2. split; [reflexivity|].
  simpl. rewrite (isDigit_not_colon h1 H1), (isDigit_not_colon h2 H2).
  simpl. rewrite (isDigit_not_colon m1 H3), (isDigit_not_colon m2 H4).
  simpl. unfold jsNumber. simpl. rewrite H1, H2, H3, H4. reflexivity.
Qed.

Lemma parseClockTime_Some (text : string) (h m : Z) :
  Validation.parseClockTime text = Some (h, m) ->
  timeRegex_test text = true
  /\ minutesOfDay (hourMinute text) = Some (h * 60 + m).
Proof.
  unfold Validation.parseClockTime.
  destruct (timeRegex_test text) eqn:Hshape; [|discriminate].
  destruct (timeRegex_hourMinute text Hshape) as (h1 & h2 & m1 & m2 & Hlist & Hhm).
  rewrite Hlist, Hhm.
  destruct (_ || _); [|discriminate].
  intros [= <- <-]. split; reflexivity.
Qed.

Lemma parseCalendarDate_shape (text : string) :
  is_Some (parseCalendarDate text) -> dateRegex_test text = true.
Proof.
  unfold parseCalendarDate. destruct (dateRegex_test text); [reflexivity|].
  intros [day Hday]. discriminate.
Qed.

Lemma test_passes (passes : bool) (path msg : string) :
  Validation.test passes path msg = [] <-> passes = true.
Proof. unfold Validation.test. destruct passes; split; congruence. Qed.

Lemma foldl_insert_empty (errors : list Validation.ValidationError) :
  forall acc : gmap string string,
    foldl (fun m err => <[Validation.field err := Validation.message err]> m) acc errors
    = ∅ ->
    errors = [].
Proof.
  induction errors as [|err errors IH]; intros acc Hempty; [reflexivity|].
  simpl in Hempty. specialize (IH _ Hempty). subst errors. simpl in Hempty.
  now apply insert_non_empty in Hempty.
Qed.

(** [getFormErrors] reports no error exactly when the schema has no entry. *)
Lemma getFormErrors_empty (auth : TzAuthority) (values : SlotConfig) :
  Validation.getFormErrors auth values = ∅
  <-> Validation.slotConfigValidationSchema auth values = [].
Proof.
  unfold Validation.getFormErrors. split.
  - apply foldl_insert_empty.
  - intros ->. reflexivity.
Qed.

(** C3, as amended: the list-returning validator is the stricter of the two.
    Where every listed zone name resolves and the device has no change of
    UTC offset during the day of validation, a configuration for which
    [getFormErrors] reports no error passes [validateSlotConfig]; the
    converse does not hold. *)
Theorem form_valid_passes_generation_check (auth : TzAuthority) (config : SlotConfig) :
  (forall zone, zone ∈ zoneNames auth -> zoneKnown auth zone = true) ->
  (forall h m h' m',
     deviceWall auth h' m' - deviceWall auth h m
     = ((h' * 60 + m') - (h * 60 + m)) * 60000) ->
  Validation.getFormErrors auth config = ∅ ->
  SlotGenerator.validateSlotConfig auth config = Returns tt.
Proof.
  intros Hzones Hwall Hnone.
  apply getFormErrors_empty in Hnone.
  unfold Validation.slotConfigValidationSchema in Hnone.
  rewrite !app_nil, !test_passes in Hnone.
  destruct Hnone as (Hsd & Hsdv & _ & Hed & Hedv & _ & Hst & Hstv & _ & Het & Hetv
                     & Hafter & Hfits & Hzone & Hzonev & Hmin & _ & _ & Hbreak & _ & _
                     & Hbuffer & _ & _).
  unfold Validation.isValidDate in Hsdv, Hedv. rewrite Hsd in Hsdv. rewrite Hed in Hedv.
  simpl in Hsdv, Hedv. apply bool_decide_eq_true in Hsdv, Hedv.
  unfold Validation.isValidTime in Hstv, Hetv. rewrite Hst in Hstv. rewrite Het in Hetv.
  simpl in Hstv, Hetv.
  apply bool_decide_eq_true in Hstv as [[sh sm] Hstart].
  apply bool_decide_eq_true in Hetv as [[eh em] Hend].
  unfold Validation.isValidTimezone in Hzonev. rewrite Hzone in Hzonev.
  simpl in Hzonev. apply bool_decide_eq_true in Hzonev.
  rewrite Hst, Het in Hafter, Hfits. simpl in Hafter, Hfits.
  destruct (slotDuration config =? 0) eqn:Hzero; [discriminate|].
  unfold Validation.momentTime in Hafter, Hfits. rewrite Hstart, Hend in Hafter, Hfits.
  unfold isAfter, Validation.diffMinutes in *. simpl in Hafter, Hfits.
  apply Z.ltb_lt in Hafter. apply Z.leb_le in Hfits, Hmin, Hbreak, Hbuffer.
  pose proof (Hwall sh sm eh em) as Hdiff.
  rewrite Hdiff in Hfits. rewrite Z.quot_mul in Hfits by lia.
  destruct (parseClockTime_Some _ _ _ Hstart) as [Hstshape Hstmin].
  destruct (parseClockTime_Some _ _ _ Hend) as [Hetshape Hetmin].
  apply validateSlotConfig_returns.
  rewrite Hstmin, Hetmin. simpl.
  repeat split; try assumption; try lia;
    try (now apply parseCalendarDate_shape);
    try (now apply Hzones);
    try (apply Z.leb_gt; lia);
    try (apply Z.ltb_ge; lia).
Qed.

Lemma form_valid_passes_generation_check_witness :
  SlotGenerator.validateSlotConfig utcAuthority sampleConfig = Returns tt.
Proof.
  apply (form_valid_passes_generation_check utcAuthority sampleConfig).
  - intros zone Hzone. apply list_elem_of_singleton in Hzone as ->. reflexivity.
  - intros h m h' m'. simpl. lia.
  - vm_compute. reflexivity.
Defined.

(** C3, as stated, fails: slots of three minutes pass [validateSlotConfig],
    and the form validator reports an error on [slotDuration], whose minimum
    there is five minutes. *)
Lemma validators_disagree_counterexample :
  SlotGenerator.validateSlotConfig utcAuthority threeMinuteConfig = Returns tt
  /\ Validation.getFormErrors utcAuthority threeMinuteConfig !! "slotDuration"
     = Some "Slot duration must be at least 5 minutes"
  /\ ~ (Validation.getFormErrors utcAuthority threeMinuteConfig = ∅
        <-> SlotGenerator.validateSlotConfig utcAuthority threeMinuteConfig
            = Returns tt).
Proof.
  assert (Hvalid : SlotGenerator.validateSlotConfig utcAuthority threeMinuteConfig
                   = Returns tt) by (vm_compute; reflexivity).
  assert (Herr : Validation.getFormErrors utcAuthority threeMinuteConfig
                 !! "slotDuration"
                 = Some "Slot duration must be at least 5 minutes")
    by (vm_compute; reflexivity).
  split; [exact Hvalid|]. split; [exact Herr|].
  intros [_ Hback]. specialize (Hback Hvalid).
  rewrite Hback in Herr. rewrite lookup_empty in Herr. discriminate.
Qed.

(** ** Persistence *)

Lemma getItem_malformed (store : Storage.AsyncStorage) (key text : string) :
  Storage.readFault store = None ->
  Storage.cells store !! key = Some (Storage.Malformed text) ->
  Storage.getItem store key = Returns Storage.JNull.
Proof.
  intros Hread Hcell. unfold Storage.getItem, Storage.AsyncStorage_getItem.
  rewrite Hread. simpl. rewrite Hcell. reflexivity.
Qed.

Lemma getItem_fault (store : Storage.AsyncStorage) (key : string) (e : JsError) :
  Storage.readFault store = Some e -> isSyntaxError e = false ->
  Storage.getItem store key
  = Throws (Error ("Failed to retrieve data: " +:+ messageOrUnknown e)).
Proof.
  intros Hread Hkind. unfold Storage.getItem, Storage.AsyncStorage_getItem.
  rewrite Hread. simpl. rewrite Hkind. reflexivity.
Qed.

Lemma mapOutcome_terminates {A B : Type} (f : A -> Outcome B) (l : list A) :
  (forall x, f x <> Diverges) -> SlotGenerator.mapOutcome f l <> Diverges.
Proof.
  intros Hf. induction l as [|x l IH]; simpl; [discriminate|].
  specialize (Hf x). destruct (f x); simpl; try congruence.
  destruct (SlotGenerator.mapOutcome f l); simpl; congruence.
Qed.







(** A stored text that is not JSON gives an absent configuration and an
    empty slot list, without raising. *)
Lemma malformed_blob_is_absent (dateParse : string -> option Z)
    (store : Storage.AsyncStorage) :
  Storage.readFault store = None ->
  (forall text,
     Storage.cells store !! Storage.SLOT_CONFIG = Some (Storage.Malformed text) ->
     Storage.loadSlotConfig store = Returns Storage.JNull)
  /\ (forall text,
        Storage.cells store !! Storage.GENERATED_SLOTS = Some (Storage.Malformed text) ->
        Storage.loadGeneratedSlots dateParse store = Returns []).
Proof.
  intros Hread. split; intros text Hcell.
  - unfold Storage.loadSlotConfig.
    rewrite (getItem_malformed store _ text Hread Hcell). reflexivity.
  - unfold Storage.loadGeneratedSlots.
    rewrite (getItem_malformed store _ text Hread Hcell). reflexivity.
Qed.

(** C6 fails in [loadGeneratedSlots]: when the read of the store fails, with
    whatever error, it returns the empty list.  [StorageManager.getItem]
    raises every such failure that is not a SyntaxError, and [loadSlotConfig]
    passes it on to its caller; [loadGeneratedSlots] absorbs it. *)
Theorem loadGeneratedSlots_absorbs_read_failure (dateParse : string -> option Z)
    (store : Storage.AsyncStorage) (e : JsError) :
  Storage.readFault store = Some e ->
  Storage.loadGeneratedSlots dateParse store = Returns []
  /\ (isSyntaxError e = false ->
      Storage.getItem store Storage.GENERATED_SLOTS
      = Throws (Error ("Failed to retrieve data: " +:+ messageOrUnknown e))
      /\ Storage.loadSlotConfig store
         = Throws (Error ("Failed to retrieve data: " +:+ messageOrUnknown e))).
Proof.
  intros Hread. split.
  - unfold Storage.loadGeneratedSlots, Storage.getItem, Storage.AsyncStorage_getItem.
    rewrite Hread. simpl. destruct (isSyntaxError e); reflexivity.
  - intros Hkind. split.
    + now apply getItem_fault.
    + unfold Storage.loadSlotConfig.
      rewrite (getItem_fault store _ e Hread Hkind). reflexivity.
Qed.

Lemma loadGeneratedSlots_absorbs_read_failure_witness :
  Storage.loadGeneratedSlots decimalParse unreadableStore = Returns []
  /\ Storage.getItem unreadableStore Storage.GENERATED_SLOTS
     = Throws (Error "Failed to retrieve data: Storage is unavailable")
  /\ Storage.loadSlotConfig unreadableStore
     = Throws (Error "Failed to retrieve data: Storage is unavailable").
Proof.
  destruct (loadGeneratedSlots_absorbs_read_failure decimalParse unreadableStore
              (Error "Storage is unavailable") eq_refl) as [Hslots Hraise].
  split; [exact Hslots|]. apply Hraise. reflexivity.
Defined.

Lemma mapOutcome_returns_Forall {A B : Type} (f : A -> Outcome B) (g : A -> B)
    (l : list A) :
  Forall (fun x => f x = Returns (g x)) l ->
  SlotGenerator.mapOutcome f l = Returns (map g l).
Proof.
  induction 1 as [|x l Hx _ IH]; simpl; [reflexivity|].
  rewrite Hx. simpl. rewrite IH. reflexivity.
Qed.

Lemma mapOutcome_map {A B C : Type} (f : B -> Outcome C) (h : A -> B) (l : list A) :
  SlotGenerator.mapOutcome f (map h l) = SlotGenerator.mapOutcome (fun x => f (h x)) l.
Proof.
  induction l as [|x l IH]; simpl; [reflexivity|]. rewrite IH. reflexivity.
Qed.

Lemma checkSlots_returns (slots : list Slot) :
  Forall (fun s => truthy (id s) = true) slots ->
  Storage.checkSlots slots = Returns tt.
Proof.
  induction 1 as [|s slots Hs _ IH]; simpl; [reflexivity|].
  rewrite Hs. simpl. exact IH.
Qed.

Lemma decimal_round_trip (t : Z) : decimalParse (decimalText t) = Some t.
Proof.
  unfold decimalParse, decimalText. rewrite NilEmpty.isi. simpl.
  rewrite DecimalZ.of_to. reflexivity.
Qed.

Section RoundTrip.
Context (toISOString : Z -> string) (dateParse : string -> option Z).
Hypothesis iso_round_trip : forall t, dateParse (toISOString t) = Some t.

Lemma serializeSlot_valid (s : Slot) :
  is_Some (slotStart s) -> is_Some (slotEnd s) ->
  Storage.serializeSlot toISOString s = Returns (Storage.storedRecord toISOString s).
Proof using Type.
  intros [a Ha] [b Hb]. unfold Storage.serializeSlot, Storage.storedRecord.
  rewrite Ha, Hb. reflexivity.
Qed.

Lemma reviveSlot_stored (s : Slot) :
  is_Some (slotStart s) -> is_Some (slotEnd s) ->
  Storage.reviveSlot dateParse (Storage.storedRecord toISOString s)
  = Returns (Storage.ofSlot s).
Proof using iso_round_trip.
  intros [a Ha] [b Hb]. unfold Storage.reviveSlot, Storage.storedRecord, Storage.ofSlot.
  rewrite Ha, Hb. simpl. rewrite !iso_round_trip. reflexivity.
Qed.

Lemma save_then_load (store : Storage.AsyncStorage) (slots : list Slot) :
  Storage.writeFault store = None -> Storage.readFault store = None ->
  Forall (fun s => truthy (id s) = true
                   /\ is_Some (slotStart s) /\ is_Some (slotEnd s)) slots ->
  exists store',
    Storage.saveGeneratedSlots toISOString slots store = Returns store'
    /\ Storage.loadGeneratedSlots dateParse store' = Returns (map Storage.ofSlot slots).
Proof using iso_round_trip.
  intros Hwrite Hread Hslots.
  unfold Storage.saveGeneratedSlots.
  rewrite checkSlots_returns
    by (eapply Forall_impl; [exact Hslots|]; intros s (? & _); assumption).
  simpl.
  rewrite (mapOutcome_returns_Forall _ (Storage.storedRecord toISOString))
    by (eapply Forall_impl; [exact Hslots|];
        intros s (_ & ? & ?); now apply serializeSlot_valid).
  simpl. unfold Storage.setItem, Storage.AsyncStorage_setItem. rewrite Hwrite. simpl.
  eexists. split; [reflexivity|].
  unfold Storage.loadGeneratedSlots, Storage.getItem, Storage.AsyncStorage_getItem.
  simpl. rewrite Hread. simpl. rewrite lookup_insert_eq. simpl.
  rewrite mapOutcome_map.
  rewrite (mapOutcome_returns_Forall _ Storage.ofSlot).
  - simpl. f_equal.
    clear Hwrite Hread. induction Hslots as [|s slots (Hid & [a Ha] & [b Hb]) _ IH];
      simpl; [reflexivity|].
    unfold Storage.isValidLoaded at 1. simpl. rewrite Hid, Ha, Hb. simpl.
    rewrite IH. reflexivity.
  - eapply Forall_impl; [exact Hslots|].
    intros s (_ & ? & ?). now apply reviveSlot_stored.
Qed.

End RoundTrip.

Lemma newDate_array_of_text (dateParse : string -> option Z) (text : string) :
  Storage.newDate dateParse (Some (Storage.JArray [Storage.JString text]))
  = Returns (dateParse text).
Proof. reflexivity. Qed.









(** * Further properties of the code *)

(** ** The layout of the generated slots *)

Lemma slotLoop_layout (slotMs stepMs workingEnd : Z) (fuel : nat) :
  forall cursor currentId slots,
    SlotGenerator.slotLoop fuel slotMs stepMs workingEnd cursor currentId
    = Returns slots ->
    forall (i : nat) (x : Slot),
      slots !! i = Some x ->
      slotStart x = Some (cursor + Z.of_nat i * stepMs)
      /\ slotEnd x = Some (cursor + Z.of_nat i * stepMs + slotMs)
      /\ id x = SlotGenerator.slotId (currentId + Z.of_nat i)
      /\ isAvailable x = true
      /\ cursor + Z.of_nat i * stepMs + slotMs <= workingEnd.
Proof.
  induction fuel as [|fuel IH]; intros cursor currentId slots Hrun i x Hi;
    simpl in Hrun;
    destruct (Z.leb_spec (cursor + slotMs) workingEnd) as [Hfit|Hfit];
    try discriminate;
    try (injection Hrun as <-; rewrite lookup_nil in Hi; discriminate).
  destruct (SlotGenerator.slotLoop fuel slotMs stepMs workingEnd
              (cursor + stepMs) (currentId + 1)) as [rest| |] eqn:Hrest;
    simpl in Hrun; try discriminate.
  injection Hrun as <-.
  destruct i as [|i]; simpl in Hi.
  - injection Hi as <-. simpl. rewrite !Z.add_0_r. auto.
  - destruct (IH _ _ _ Hrest i x Hi) as (Hs & He & Hid & Hav & Hle).
    rewrite Nat2Z.inj_succ.
    replace (cursor + Z.succ (Z.of_nat i) * stepMs)
      with (cursor + stepMs + Z.of_nat i * stepMs) by lia.
    replace (currentId + Z.succ (Z.of_nat i))
      with (currentId + 1 + Z.of_nat i) by lia.
    auto.
Qed.

Lemma generateDailySlots_layout (auth : TzAuthority) (date : Z) (config : SlotConfig)
    (startingId : Z) (slots : list Slot) (i : nat) (x : Slot) :
  SlotGenerator.generateDailySlots auth date config startingId = Returns slots ->
  slots !! i = Some x ->
  let workingStart :=
    SlotGenerator.wallMoment auth (timeZone config) date (hourMinute (startTime config)) in
  let workingEnd :=
    SlotGenerator.wallMoment auth (timeZone config) date (hourMinute (endTime config)) in
  let begins :=
    workingStart
    + Z.of_nat i * ((slotDuration config + breakDuration config) * 60000) in
  slotStart x = Some begins
  /\ slotEnd x = Some (begins + slotDuration config * 60000)
  /\ begins + slotDuration config * 60000 <= workingEnd
  /\ id x = SlotGenerator.slotId (startingId + Z.of_nat i)
  /\ isAvailable x = true.
Proof.
  intros Hrun Hi. unfold SlotGenerator.generateDailySlots in Hrun. cbv zeta in Hrun.
  cbv zeta.
  destruct (_ <=? _) in Hrun.
  - injection Hrun as <-. rewrite lookup_nil in Hi. discriminate.
  - destruct (slotLoop_layout _ _ _ _ _ _ _ Hrun i x Hi) as (Hs & He & Hid & Hav & Hle).
    auto.
Qed.

(** X1: the slot at index [i] of a day starts [i] steps of slot plus break
    after the start of the working window, lasts the slot duration, ends
    within the window, carries the id of the counter plus [i], and is
    created available. *)
Theorem daily_slot_layout (auth : TzAuthority) (date : Z) (config : SlotConfig)
    (startingId : Z) (slots : list Slot) (i : nat) (x : Slot) :
  SlotGenerator.generateDailySlots auth date config startingId = Returns slots ->
  slots !! i = Some x ->
  let workingStart :=
    SlotGenerator.wallMoment auth (timeZone config) date (hourMinute (startTime config)) in
  let workingEnd :=
    SlotGenerator.wallMoment auth (timeZone config) date (hourMinute (endTime config)) in
  let begins :=
    workingStart
    + Z.of_nat i * ((slotDuration config + breakDuration config) * 60000) in
  slotStart x = Some begins
  /\ slotEnd x = Some (begins + slotDuration config * 60000)
  /\ begins + slotDuration config * 60000 <= workingEnd
  /\ id x = SlotGenerator.slotId (startingId + Z.of_nat i)
  /\ isAvailable x = true.
Proof. exact (generateDailySlots_layout auth date config startingId slots i x). Qed.

Lemma daily_slot_layout_witness :
  slotStart slotAtTenFortyFive
  = Some (SlotGenerator.wallMoment utcAuthority "UTC" 20395 (Some 10, Some 0)
          + 1 * ((30 + 15) * 60000))
  /\ id slotAtTenFortyFive = SlotGenerator.slotId 2.
Proof.
  destruct (SlotGenerator.generateDailySlots utcAuthority 20395 sampleConfig 1)
    as [slots| |] eqn:Hrun; try (vm_compute in Hrun; discriminate).
  destruct (daily_slot_layout utcAuthority 20395 sampleConfig 1 slots 1%nat
              slotAtTenFortyFive Hrun)
    as (Hs & _ & _ & Hid & _).
  - vm_compute in Hrun. injection Hrun as <-. reflexivity.
  - split; [exact Hs|exact Hid].
Defined.

(** X2: in the list of a day a slot starts where the slot before it ends
    plus the break; with a break that is not negative two slots of a day
    never overlap, and they are in ascending order of start. *)
Theorem daily_slots_do_not_overlap (auth : TzAuthority) (date : Z)
    (config : SlotConfig) (startingId : Z) (slots : list Slot) (i : nat)
    (x y : Slot) :
  SlotGenerator.generateDailySlots auth date config startingId = Returns slots ->
  0 < slotDuration config -> 0 <= breakDuration config ->
  slots !! i = Some x -> slots !! S i = Some y ->
  exists startX endX startY,
    slotStart x = Some startX /\ slotEnd x = Some endX /\ slotStart y = Some startY
    /\ startX < endX
    /\ startY = endX + breakDuration config * 60000
    /\ endX <= startY.
Proof.
  intros Hrun Hs Hb Hx Hy.
  destruct (generateDailySlots_layout auth date config startingId slots i x Hrun Hx)
    as (Hsx & Hex & _).
  destruct (generateDailySlots_layout auth date config startingId slots (S i) y
              Hrun Hy) as (Hsy & _).
  cbv zeta in *. rewrite Nat2Z.inj_succ in Hsy.
  eexists _, _, _. split; [exact Hsx|]. split; [exact Hex|]. split; [exact Hsy|].
  lia.
Qed.

Lemma daily_slots_do_not_overlap_witness :
  exists startX endX startY,
    slotStart slotAtTen = Some startX /\ slotEnd slotAtTen = Some endX
    /\ slotStart slotAtTenFortyFive = Some startY
    /\ startX < endX
    /\ startY = endX + breakDuration sampleConfig * 60000
    /\ endX <= startY.
Proof.
  destruct (SlotGenerator.generateDailySlots utcAuthority 20395 sampleConfig 1)
    as [slots| |] eqn:Hrun; try (vm_compute in Hrun; discriminate).
  apply (daily_slots_do_not_overlap utcAuthority 20395 sampleConfig 1 slots 0
           slotAtTen slotAtTenFortyFive Hrun).
  - vm_compute. reflexivity.
  - vm_compute. discriminate.
  - vm_compute in Hrun. injection Hrun as <-. reflexivity.
  - vm_compute in Hrun. injection Hrun as <-. reflexivity.
Defined.

(** ** Identifiers *)

Lemma dayLoop_ids (auth : TzAuthority) (config : SlotConfig) (base : Z) :
  forall days currentDate counter acc result,
    SlotGenerator.dayLoop auth days currentDate config counter acc = Returns result ->
    counter = base + Z.of_nat (length acc) ->
    (forall (i : nat) (x : Slot),
       acc !! i = Some x ->
       id x = SlotGenerator.slotId (base + Z.of_nat i)
       /\ is_Some (slotStart x) /\ is_Some (slotEnd x) /\ isAvailable x = true) ->
    forall (i : nat) (x : Slot),
      result !! i = Some x ->
      id x = SlotGenerator.slotId (base + Z.of_nat i)
      /\ is_Some (slotStart x) /\ is_Some (slotEnd x) /\ isAvailable x = true.
Proof.
  induction days as [|days IH]; intros currentDate counter acc result Hrun Hcount Hacc;
    simpl in Hrun.
  - injection Hrun as <-. exact Hacc.
  - destruct (SlotGenerator.generateDailySlots auth currentDate config counter)
      as [daily| |] eqn:Hdaily; simpl in Hrun; try discriminate.
    apply (IH _ _ _ _ Hrun).
    + rewrite length_app, Nat2Z.inj_add. lia.
    + intros i x Hi. apply lookup_app_Some in Hi as [Hi|[Hge Hi]].
      * now apply Hacc.
      * destruct (generateDailySlots_layout auth currentDate config counter daily
                    _ x Hdaily Hi) as (Hs & He & _ & Hid & Hav).
        cbv zeta in Hs, He.
        rewrite Hid, Hs, He, Hcount.
        split; [f_equal; lia|]. split; [eexists; reflexivity|].
        split; [eexists; reflexivity|exact Hav].
Qed.

Lemma generateSlots_ids (auth : TzAuthority) (config : SlotConfig)
    (slots : list Slot) (i : nat) (x : Slot) :
  SlotGenerator.generateSlots auth config = Returns slots ->
  slots !! i = Some x ->
  id x = SlotGenerator.slotId (1 + Z.of_nat i)
  /\ is_Some (slotStart x) /\ is_Some (slotEnd x) /\ isAvailable x = true.
Proof.
  intros Hrun Hi. unfold SlotGenerator.generateSlots in Hrun.
  destruct (SlotGenerator.validateSlotConfig auth config) as [[]| |];
    simpl in Hrun; try discriminate.
  destruct (nanLt _ _); simpl in Hrun; try discriminate.
  destruct (parseCalendarDate (startDate config)) as [d0|];
    [destruct (parseCalendarDate (endDate config)) as [d1|]|];
    try (injection Hrun as <-; rewrite lookup_nil in Hi; discriminate).
  destruct (SlotGenerator.dayLoop auth (Z.to_nat (d1 - d0 + 1)) d0 config 1 [])
    as [result| |] eqn:Hloop; simpl in Hrun; try discriminate.
  injection Hrun as <-.
  apply (dayLoop_ids auth config 1 _ _ _ _ _ Hloop); [reflexivity| |exact Hi].
  intros j y Hj. rewrite lookup_nil in Hj. discriminate.
Qed.

(** X3: the ids of the result of [generateSlots] continue one counter over
    the whole range: the slot at index [i] has the id of number [i + 1];
    every generated slot has two valid dates and is created available. *)
Theorem generated_ids_are_sequential (auth : TzAuthority) (config : SlotConfig)
    (slots : list Slot) (i : nat) (x : Slot) :
  SlotGenerator.generateSlots auth config = Returns slots ->
  slots !! i = Some x ->
  id x = SlotGenerator.slotId (1 + Z.of_nat i)
  /\ is_Some (slotStart x) /\ is_Some (slotEnd x) /\ isAvailable x = true.
Proof. exact (generateSlots_ids auth config slots i x). Qed.

Lemma generated_ids_are_sequential_witness :
  id slotAtTenFortyFive = SlotGenerator.slotId (1 + 1).
Proof.
  destruct (SlotGenerator.generateSlots utcAuthority sampleConfig)
    as [slots| |] eqn:Hrun; try (vm_compute in Hrun; discriminate).
  apply (generated_ids_are_sequential utcAuthority sampleConfig slots 1
           slotAtTenFortyFive Hrun).
  vm_compute in Hrun. injection Hrun as <-. reflexivity.
Defined.

(** The decimal of a positive number does not begin with a zero. *)
Lemma pretty_N_go_leading (x : N) :
  forall s, (0 < x)%N ->
  exists c rest, pretty_N_go x s = String c rest /\ c <> "0"%char.
Proof.
  induction (N.lt_wf_0 x) as [x _ IH]; intros s Hpos.
  rewrite pretty_N_go_step by assumption.
  destruct (decide (x < 10)%N) as [Hsmall|Hbig].
  - rewrite N.div_small by assumption. rewrite pretty_N_go_0.
    rewrite N.mod_small by assumption.
    eexists _, _. split; [reflexivity|].
    assert (x = 1 \/ x = 2 \/ x = 3 \/ x = 4 \/ x = 5 \/ x = 6
            \/ x = 7 \/ x = 8 \/ x = 9)%N as Hcases by lia.
    destruct Hcases as [->|[->|[->|[->|[->|[->|[->|[->| ->]]]]]]]]; discriminate.
  - apply IH.
    + apply N.div_lt; lia.
    + apply N.div_str_pos. lia.
Qed.

Lemma pretty_positive_leading (n : Z) :
  0 < n -> exists c rest, pretty n = String c rest /\ c <> "0"%char.
Proof.
  intros Hpos. destruct n as [|p|p]; try lia.
  unfold pretty, pretty_Z, pretty, pretty_positive, pretty, pretty_N.
  destruct (decide (N.pos p = 0%N)); [discriminate|].
  apply pretty_N_go_leading. lia.
Qed.

Lemma zeros_cancel (k j : nat) (a b : string) (ca cb : ascii) (ra rb : string) :
  a = String ca ra -> ca <> "0"%char -> b = String cb rb -> cb <> "0"%char ->
  String.concat "" (replicate k "0") +:+ a = String.concat "" (replicate j "0") +:+ b ->
  a = b.
Proof.
  intros Ha Hca Hb Hcb. revert j.
  assert (Hstep : forall n, String.concat "" (replicate (S n) "0")
                            = String "0" (String.concat "" (replicate n "0"))).
  { intros [|n]; reflexivity. }
  induction k as [|k IH]; intros [|j]; rewrite ?Hstep; simpl; intros Heq.
  - exact Heq.
  - subst a. injection Heq as Hc _. congruence.
  - subst b. injection Heq as Hc _. congruence.
  - injection Heq as Heq. now apply (IH j).
Qed.

Lemma slotId_inj (n m : Z) :
  0 < n -> 0 < m -> SlotGenerator.slotId n = SlotGenerator.slotId m -> n = m.
Proof.
  intros Hn Hm Heq. unfold SlotGenerator.slotId, SlotGenerator.padStart4 in Heq.
  apply (inj (String.app "slot_")) in Heq.
  destruct (pretty_positive_leading n Hn) as (cn & rn & Hpn & Hcn).
  destruct (pretty_positive_leading m Hm) as (cm & rm & Hpm & Hcm).
  apply (zeros_cancel _ _ _ _ cn cm rn rm Hpn Hcn Hpm Hcm) in Heq.
  now apply (inj pretty) in Heq.
Qed.

(** X4: no two slots of the result of [generateSlots] have the same id. *)
Theorem generated_ids_are_unique (auth : TzAuthority) (config : SlotConfig)
    (slots : list Slot) :
  SlotGenerator.generateSlots auth config = Returns slots ->
  NoDup (map id slots).
Proof.
  intros Hrun. apply NoDup_alt. intros i j name Hi Hj.
  change (map id slots) with (id <$> slots) in Hi, Hj.
  rewrite list_lookup_fmap in Hi, Hj.
  destruct (slots !! i) as [x|] eqn:Hx; [|discriminate].
  destruct (slots !! j) as [y|] eqn:Hy; [|discriminate].
  simpl in Hi, Hj.
  destruct (generateSlots_ids auth config slots i x Hrun Hx) as (Hidx & _).
  destruct (generateSlots_ids auth config slots j y Hrun Hy) as (Hidy & _).
  assert (Heq : SlotGenerator.slotId (1 + Z.of_nat i)
                = SlotGenerator.slotId (1 + Z.of_nat j)) by congruence.
  apply slotId_inj in Heq; lia.
Qed.

Lemma generated_ids_are_unique_witness :
  exists slots,
    SlotGenerator.generateSlots utcAuthority sampleConfig = Returns slots
    /\ NoDup (map id slots).
Proof.
  destruct (SlotGenerator.generateSlots utcAuthority sampleConfig)
    as [slots| |] eqn:Hrun; try (vm_compute in Hrun; discriminate).
  exists slots. split; [reflexivity|].
  exact (generated_ids_are_unique utcAuthority sampleConfig slots Hrun).
Defined.

(** ** What [generateSlots] does with a configuration *)

Lemma validateSlotConfig_terminates (auth : TzAuthority) (config : SlotConfig) :
  SlotGenerator.validateSlotConfig auth config = Returns tt
  \/ exists msg, SlotGenerator.validateSlotConfig auth config = Throws (Error msg).
Proof.
  unfold SlotGenerator.validateSlotConfig.
  repeat match goal with
         | |- context [throwIf ?c ?m] =>
             destruct c; simpl; [right; eexists; reflexivity|]
         end.
  left. reflexivity.
Qed.

Lemma generateSlots_outcome (auth : TzAuthority) (config : SlotConfig) :
  (forall e,
     SlotGenerator.validateSlotConfig auth config = Throws e ->
     SlotGenerator.generateSlots auth config
     = Throws (Error ("Slot generation failed: " +:+ messageOrUnknown e)))
  /\ (forall slots,
        SlotGenerator.generateSlots auth config = Returns slots ->
        SlotGenerator.validateSlotConfig auth config = Returns tt
        /\ rangeInverted config = false)
  /\ (forall e,
        SlotGenerator.generateSlots auth config = Throws e ->
        exists cause,
          e = Error ("Slot generation failed: " +:+ messageOrUnknown cause)).
Proof.
  split; [|split].
  - intros e He. unfold SlotGenerator.generateSlots. rewrite He. reflexivity.
  - intros slots Hrun.
    destruct (validateSlotConfig_terminates auth config) as [Hok|[msg Hthrow]].
    + split; [exact Hok|].
      rewrite (generateSlots_validated auth config Hok) in Hrun.
      destruct (rangeInverted config); [discriminate|reflexivity].
    + unfold SlotGenerator.generateSlots in Hrun. rewrite Hthrow in Hrun.
      discriminate.
  - intros e. unfold SlotGenerator.generateSlots.
    match goal with
    | |- tryCatch ?body _ = _ -> _ => destruct body as [slots|cause|]
    end; simpl; intros Hrun; try discriminate.
    injection Hrun as <-. exists cause. reflexivity.
Qed.

(** X5: when validation throws, [generateSlots] throws an [Error] whose
    message is "Slot generation failed: " followed by the message of the
    first rule that is violated.  Whatever [generateSlots] throws is an
    [Error] whose message begins that way.  It returns a list only for a
    configuration that passes validation and whose end date is not before its
    start date. *)
Theorem generateSlots_returns_or_reports (auth : TzAuthority) (config : SlotConfig) :
  (forall e,
     SlotGenerator.validateSlotConfig auth config = Throws e ->
     SlotGenerator.generateSlots auth config
     = Throws (Error ("Slot generation failed: " +:+ messageOrUnknown e)))
  /\ (forall slots,
        SlotGenerator.generateSlots auth config = Returns slots ->
        SlotGenerator.validateSlotConfig auth config = Returns tt
        /\ rangeInverted config = false)
  /\ (forall e,
        SlotGenerator.generateSlots auth config = Throws e ->
        exists cause,
          e = Error ("Slot generation failed: " +:+ messageOrUnknown cause)).
Proof. exact (generateSlots_outcome auth config). Qed.

Lemma generateSlots_returns_or_reports_witness :
  SlotGenerator.generateSlots utcAuthority
    {| startDate := "2025-11-03"; endDate := "2025-11-03";
       startTime := "18:00"; endTime := "10:00"; timeZone := "UTC";
       slotDuration := 30; breakDuration := 15; bufferDuration := 45 |}
  = Throws (Error "Slot generation failed: End time must be after start time")
  /\ (SlotGenerator.validateSlotConfig utcAuthority sampleConfig = Returns tt
      /\ rangeInverted sampleConfig = false)
  /\ (exists cause,
        Error "Slot generation failed: End date must be same as or after start date"
        = Error ("Slot generation failed: " +:+ messageOrUnknown cause)).
Proof.
  split; [|split].
  - apply (proj1 (generateSlots_returns_or_reports utcAuthority _)
             (Error "End time must be after start time")).
    vm_compute. reflexivity.
  - destruct (SlotGenerator.generateSlots utcAuthority sampleConfig)
      as [slots| |] eqn:Hrun; try (vm_compute in Hrun; discriminate).
    exact (proj1 (proj2 (generateSlots_returns_or_reports utcAuthority sampleConfig))
             slots Hrun).
  - apply (proj2 (proj2 (generateSlots_returns_or_reports utcAuthority
                           {| startDate := "2025-11-04"; endDate := "2025-11-03";
                              startTime := "10:00"; endTime := "18:00";
                              timeZone := "UTC"; slotDuration := 30;
                              breakDuration := 15; bufferDuration := 45 |}))).
    vm_compute. reflexivity.
Defined.

Lemma dayLoop_uniform (auth : TzAuthority) (config : SlotConfig) (perDay : Z) :
  0 < slotDuration config -> 0 <= breakDuration config ->
  forall days currentDate counter acc,
    (forall i, (i < days)%nat ->
       Z.max 0 ((SlotGenerator.windowMs auth (currentDate + Z.of_nat i) config
                 + breakDuration config * 60000)
                / ((slotDuration config + breakDuration config) * 60000)) = perDay) ->
    exists result,
      SlotGenerator.dayLoop auth days currentDate config counter acc = Returns result
      /\ Z.of_nat (length result) = Z.of_nat (length acc) + Z.of_nat days * perDay.
Proof.
  intros Hs Hb. induction days as [|days IH]; intros currentDate counter acc Hwin;
    simpl SlotGenerator.dayLoop.
  - exists acc. split; [reflexivity|]. simpl. lia.
  - destruct (generateDailySlots_count auth currentDate config counter Hs Hb)
      as (daily & Hrun & Hlen).
    rewrite Hrun. simpl.
    pose proof (Hwin 0%nat ltac:(lia)) as Hfirst. rewrite Z.add_0_r in Hfirst.
    destruct (IH (currentDate + 1) (counter + Z.of_nat (length daily))
                (acc ++ daily)%list)
      as (result & Hres & Hreslen).
    { intros i Hi. specialize (Hwin (S i) ltac:(lia)).
      rewrite Nat2Z.inj_succ in Hwin.
      replace (currentDate + 1 + Z.of_nat i)
        with (currentDate + Z.succ (Z.of_nat i)) by lia.
      exact Hwin. }
    exists result. split; [exact Hres|].
    rewrite Hfirst in Hlen.
    rewrite Hreslen, length_app, Nat2Z.inj_add, Nat2Z.inj_succ. lia.
Qed.

(** X6: for a configuration that passes validation, whose dates name the
    days [d0] to [d1] and whose every day has a working window of
    [workingMinutes], [generateSlots] returns
    (d1 - d0 + 1) * floor((workingMinutes + break) / (slot + break)) slots. *)
Theorem generated_total_count (auth : TzAuthority) (config : SlotConfig)
    (d0 d1 workingMinutes : Z) :
  SlotGenerator.validateSlotConfig auth config = Returns tt ->
  parseCalendarDate (startDate config) = Some d0 ->
  parseCalendarDate (endDate config) = Some d1 ->
  d0 <= d1 ->
  0 <= workingMinutes ->
  (forall date, d0 <= date <= d1 ->
     SlotGenerator.windowMs auth date config = workingMinutes * 60000) ->
  exists slots,
    SlotGenerator.generateSlots auth config = Returns slots
    /\ Z.of_nat (length slots)
       = (d1 - d0 + 1) * ((workingMinutes + breakDuration config)
                          / (slotDuration config + breakDuration config)).
Proof.
  intros Hvalid Hd0 Hd1 Hle Hw Hwin.
  rewrite (generateSlots_validated auth config Hvalid).
  unfold rangeInverted. rewrite Hd0, Hd1. simpl.
  replace (d1 <? d0) with false by (symmetry; apply Z.ltb_ge; lia).
  apply validateSlotConfig_returns in Hvalid.
  destruct Hvalid as (_ & _ & _ & _ & _ & _ & _ & _ & _ & Hs & Hb & _).
  destruct (dayLoop_uniform auth config
              ((workingMinutes + breakDuration config)
               / (slotDuration config + breakDuration config))
              Hs Hb (Z.to_nat (d1 - d0 + 1)) d0 1 [])
    as (result & Hrun & Hlen).
  { intros i Hi. rewrite Hwin by lia.
    replace (workingMinutes * 60000 + breakDuration config * 60000)
      with ((workingMinutes + breakDuration config) * 60000) by lia.
    rewrite Z.div_mul_cancel_r by lia.
    apply Z.max_r. apply Z.div_pos; lia. }
  rewrite Hrun. simpl. exists result. split; [reflexivity|].
  rewrite Hlen. simpl. rewrite Z2Nat.id by lia. reflexivity.
Qed.

Lemma generated_total_count_witness :
  exists slots,
    SlotGenerator.generateSlots utcAuthority
      {| startDate := "2025-11-03"; endDate := "2025-11-07";
         startTime := "10:00"; endTime := "18:00"; timeZone := "UTC";
         slotDuration := 30; breakDuration := 15; bufferDuration := 45 |}
    = Returns slots
    /\ Z.of_nat (length slots) = (20399 - 20395 + 1) * ((480 + 15) / (30 + 15)).
Proof.
  apply (generated_total_count utcAuthority
           {| startDate := "2025-11-03"; endDate := "2025-11-07";
              startTime := "10:00"; endTime := "18:00"; timeZone := "UTC";
              slotDuration := 30; breakDuration := 15; bufferDuration := 45 |}
           20395 20399 480).
  - vm_compute. reflexivity.
  - vm_compute. reflexivity.
  - vm_compute. reflexivity.
  - lia.
  - lia.
  - intros date _. cbv - [Z.mul Z.add Z.sub]. lia.
Defined.

(** X7: on a day whose working window is the difference of the configured
    clock times, a configuration that passes validation gets at least one
    slot; [getSlotGenerationStats] reports as [slotsPerDay] either the
    number of slots that are generated or one less, and exactly that number
    when there is no break. *)
Theorem stats_underestimate_by_at_most_one (auth : TzAuthority) (config : SlotConfig)
    (date startingId workingMinutes : Z) :
  SlotGenerator.validateSlotConfig auth config = Returns tt ->
  nanSub (minutesOfDay (hourMinute (endTime config)))
         (minutesOfDay (hourMinute (startTime config))) = Some workingMinutes ->
  SlotGenerator.windowMs auth date config = workingMinutes * 60000 ->
  exists slots perDay,
    SlotGenerator.generateDailySlots auth date config startingId = Returns slots
    /\ SlotGenerator.statsSlotsPerDay config = Some perDay
    /\ 1 <= Z.of_nat (length slots)
    /\ perDay <= Z.of_nat (length slots) <= perDay + 1
    /\ (breakDuration config = 0 -> Z.of_nat (length slots) = perDay).
Proof.
  intros Hvalid Hminutes Hwindow.
  apply validateSlotConfig_returns in Hvalid.
  destruct Hvalid as (_ & _ & _ & _ & _ & _ & _ & _ & _ & Hs & Hb & _ & _ & _ & Hfits).
  rewrite Hminutes in Hfits. simpl in Hfits. apply Z.ltb_ge in Hfits.
  destruct (generateDailySlots_count auth date config startingId Hs Hb)
    as (slots & Hrun & Hlen).
  rewrite Hwindow in Hlen.
  replace (workingMinutes * 60000 + breakDuration config * 60000)
    with ((workingMinutes + breakDuration config) * 60000) in Hlen by lia.
  rewrite Z.div_mul_cancel_r in Hlen by lia.
  set (s := slotDuration config) in *. set (b := breakDuration config) in *.
  exists slots, (workingMinutes / (s + b)).
  split; [exact Hrun|]. split.
  { unfold SlotGenerator.statsSlotsPerDay. fold s b. rewrite Hminutes.
    replace (s + b =? 0) with false by (symmetry; apply Z.eqb_neq; lia).
    reflexivity. }
  assert (Hone : 1 <= (workingMinutes + b) / (s + b)).
  { apply Z.div_le_lower_bound; lia. }
  assert (Hlow : workingMinutes / (s + b) <= (workingMinutes + b) / (s + b)).
  { apply Z.div_le_mono; lia. }
  assert (Hhigh : (workingMinutes + b) / (s + b) <= workingMinutes / (s + b) + 1).
  { replace (workingMinutes / (s + b) + 1)
      with ((workingMinutes + 1 * (s + b)) / (s + b))
      by (rewrite Z.div_add by lia; reflexivity).
    apply Z.div_le_mono; lia. }
  rewrite Hlen. split; [lia|]. split; [lia|].
  intros Hzero. rewrite Hzero in *. rewrite !Z.add_0_r in *. lia.
Qed.

Lemma stats_underestimate_by_at_most_one_witness :
  exists slots perDay,
    SlotGenerator.generateDailySlots utcAuthority 20395 sampleConfig 1 = Returns slots
    /\ SlotGenerator.statsSlotsPerDay sampleConfig = Some perDay
    /\ 1 <= Z.of_nat (length slots)
    /\ perDay <= Z.of_nat (length slots) <= perDay + 1
    /\ (breakDuration sampleConfig = 0 -> Z.of_nat (length slots) = perDay).
Proof.
  apply (stats_underestimate_by_at_most_one utcAuthority sampleConfig 20395 1 480).
  - vm_compute. reflexivity.
  - vm_compute. reflexivity.
  - vm_compute. reflexivity.
Defined.

(** ** What the filter pipeline returns *)

Lemma timezoneAware_shape (auth : TzAuthority) (slots : list Slot)
    (currentTime : option Z) (timezone : string) (buffer : Z) :
  SlotFiltering.calculateTimezoneAwareAvailability auth slots currentTime timezone
    buffer
  = map (fun slot =>
           withAvailability (pipelineFlag auth currentTime timezone buffer slot) slot)
      slots.
Proof.
  unfold SlotFiltering.calculateTimezoneAwareAvailability,
    SlotFiltering.timezoneAwareBody, pipelineFlag.
  unfold tz at 1.
  destruct (tzFault auth timezone) as [e|] eqn:Hfault; simpl; [reflexivity|].
  erewrite mapOutcome_returns; [reflexivity|].
  intros slot. unfold tz. rewrite Hfault. reflexivity.
Qed.

Lemma annotated_step (auth : TzAuthority) (clock : Z) (slots : list Slot)
    (options : SlotFiltering.SlotFilterOptions) :
  SlotFiltering.calculateTimezoneAwareAvailability auth
    (SlotFiltering.convertSlotsToTimezone auth slots
       (default (guessZone auth) (SlotFiltering.opt_timezone options)))
    (default (Some clock) (SlotFiltering.opt_currentTime options))
    (default (guessZone auth) (SlotFiltering.opt_timezone options))
    (default 45 (SlotFiltering.opt_bufferDuration options))
  = map (annotated auth clock options) slots.
Proof. rewrite filtering_convert_same. apply timezoneAware_shape. Qed.

Lemma filter_sublist {A : Type} (p : A -> bool) (l : list A) :
  sublist (List.filter p l) l.
Proof.
  induction l as [|x l IH]; simpl; [constructor|].
  destruct (p x); [apply sublist_skip|apply sublist_cons]; exact IH.
Qed.

Lemma limitStage_sublist options (slots : list Slot) :
  sublist (SlotFiltering.limitStage options slots) slots.
Proof.
  unfold SlotFiltering.limitStage.
  destruct (SlotFiltering.opt_limit options) as [limit|]; [|reflexivity].
  destruct (_ && _); [apply sublist_take|reflexivity].
Qed.

Lemma availableOnlyStage_sublist options (slots : list Slot) :
  sublist (SlotFiltering.availableOnlyStage options slots) slots.
Proof.
  unfold SlotFiltering.availableOnlyStage.
  destruct (default false _); [apply filter_sublist|reflexivity].
Qed.

(** The list that [getFilteredSlots] sorts is a sublist of the annotated
    input. *)
Lemma beforeSort_sublist (auth : TzAuthority) (clock : Z) (slots : list Slot)
    (options : SlotFiltering.SlotFilterOptions) :
  sublist (SlotFiltering.limitStage options (survivors auth clock slots options))
    (map (annotated auth clock options) slots).
Proof.
  etrans; [apply limitStage_sublist|].
  unfold survivors. rewrite annotated_step.
  etrans; [apply availableOnlyStage_sublist|].
  etrans; [apply timeRangeStage_sublist|].
  apply dateRangeStage_sublist.
Qed.

(** X8: every slot that [getFilteredSlots] returns is a slot of the input
    with its availability flag recomputed and its id and dates untouched;
    nothing is added, so the result is never longer than the input. *)
Theorem getFilteredSlots_returns_input_slots (auth : TzAuthority) (clock : Z)
    (slots : list Slot) (options : SlotFiltering.SlotFilterOptions) :
  let result := SlotFiltering.getFilteredSlots auth clock slots options in
  (forall r, r ∈ result ->
     exists s, s ∈ slots
               /\ r = annotated auth clock options s
               /\ id r = id s /\ slotStart r = slotStart s /\ slotEnd r = slotEnd s)
  /\ (length result <= length slots)%nat.
Proof.
  intros result. subst result. rewrite getFilteredSlots_stages.
  pose proof (beforeSort_sublist auth clock slots options) as Hsub.
  split.
  - intros r Hr.
    rewrite sortByStart_Permutation in Hr.
    eapply elem_of_sublist in Hr; [|exact Hsub].
    apply list_elem_of_In, in_map_iff in Hr as (s & <- & Hs).
    exists s. split; [now apply list_elem_of_In|]. repeat split; reflexivity.
  - rewrite (Permutation_length (sortByStart_Permutation _)).
    apply sublist_length in Hsub. rewrite length_map in Hsub. exact Hsub.
Qed.

(** X9: when every slot of the input has a valid start, the result of
    [getFilteredSlots] is in ascending order of start, whatever the
    options. *)
Theorem getFilteredSlots_is_sorted (auth : TzAuthority) (clock : Z)
    (slots : list Slot) (options : SlotFiltering.SlotFilterOptions) :
  Forall (fun s => is_Some (slotStart s)) slots ->
  Sorted startsInOrder (SlotFiltering.getFilteredSlots auth clock slots options).
Proof.
  intros Hvalid. rewrite getFilteredSlots_stages.
  apply sortByStart_Sorted.
  apply Forall_forall. intros r Hr.
  eapply elem_of_sublist in Hr; [|apply beforeSort_sublist].
  apply list_elem_of_In, in_map_iff in Hr as (s & <- & Hs).
  rewrite Forall_forall in Hvalid. unfold annotated. simpl.
  apply Hvalid. now apply list_elem_of_In.
Qed.

Lemma getFilteredSlots_is_sorted_witness :
  Sorted startsInOrder
    (SlotFiltering.getFilteredSlots utcAuthority 0 [slotAtTenFortyFive; slotAtTen]
       firstAvailableOptions).
Proof.
  apply (getFilteredSlots_is_sorted utcAuthority 0 [slotAtTenFortyFive; slotAtTen]
           firstAvailableOptions).
  repeat constructor; eexists; reflexivity.
Defined.

Lemma unfiltered_stages (auth : TzAuthority) (clock : Z) (slots : list Slot)
    (options : SlotFiltering.SlotFilterOptions) :
  SlotFiltering.bothGiven (SlotFiltering.opt_startDate options)
    (SlotFiltering.opt_endDate options) = None ->
  SlotFiltering.bothGiven (SlotFiltering.opt_startTime options)
    (SlotFiltering.opt_endTime options) = None ->
  survivors auth clock slots options
  = SlotFiltering.availableOnlyStage options (map (annotated auth clock options) slots).
Proof.
  intros Hdate Htime. unfold survivors. rewrite annotated_step.
  unfold SlotFiltering.timeRangeStage, SlotFiltering.dateRangeStage.
  rewrite Hdate, Htime. reflexivity.
Qed.


(** X10: without a complete date range, a complete time range, the
    availability filter or a limit, [getFilteredSlots] returns every slot of
    the input exactly once, annotated and rearranged by start. *)
Theorem getFilteredSlots_without_filters (auth : TzAuthority) (clock : Z)
    (slots : list Slot) (options : SlotFiltering.SlotFilterOptions) :
  SlotFiltering.bothGiven (SlotFiltering.opt_startDate options)
    (SlotFiltering.opt_endDate options) = None ->
  SlotFiltering.bothGiven (SlotFiltering.opt_startTime options)
    (SlotFiltering.opt_endTime options) = None ->
  default false (SlotFiltering.opt_availableOnly options) = false ->
  SlotFiltering.opt_limit options = None ->
  let result := SlotFiltering.getFilteredSlots auth clock slots options in
  Permutation result (map (annotated auth clock options) slots)
  /\ length result = length slots
  /\ Permutation (map id result) (map id slots).
Proof.
  intros Hdate Htime Honly Hlimit result. subst result.
  rewrite getFilteredSlots_stages, (unfiltered_stages _ _ _ _ Hdate Htime).
  unfold SlotFiltering.limitStage, SlotFiltering.availableOnlyStage.
  rewrite Hlimit, Honly.
  pose proof (sortByStart_Permutation (map (annotated auth clock options) slots))
    as Hperm.
  split; [exact Hperm|]. split.
  - rewrite (Permutation_length Hperm). apply length_map.
  - rewrite (Permutation_map id Hperm), map_map. reflexivity.
Qed.

Lemma getFilteredSlots_without_filters_witness :
  length (SlotFiltering.getFilteredSlots utcAuthority 0
            [slotAtTenFortyFive; slotAtTen] onlyStartDate) = 2%nat.
Proof.
  apply (getFilteredSlots_without_filters utcAuthority 0
           [slotAtTenFortyFive; slotAtTen] onlyStartDate); reflexivity.
Defined.





Lemma filterOutcome_returns {A : Type} (p : A -> Outcome bool) (q : A -> bool)
    (l : list A) :
  (forall x, p x = Returns (q x)) ->
  SlotFiltering.filterOutcome p l = Returns (List.filter q l).
Proof.
  intros Hp. induction l as [|x l IH]; simpl; [reflexivity|].
  rewrite Hp, IH. simpl. destruct (q x); reflexivity.
Qed.

Lemma filterOutcome_throws {A : Type} (p : A -> Outcome bool) (e : JsError)
    (l : list A) :
  (forall x, p x = Throws e) ->
  match SlotFiltering.filterOutcome p l with
  | Returns kept => kept
  | _ => []
  end = [].
Proof.
  intros Hp. destruct l as [|x l]; simpl; [reflexivity|]. rewrite Hp. reflexivity.
Qed.

Lemma filter_none {A : Type} (q : A -> bool) (l : list A) :
  (forall x, q x = false) -> List.filter q l = [].
Proof.
  intros Hq. induction l as [|x l IH]; simpl; [reflexivity|]. rewrite Hq. exact IH.
Qed.

Lemma timeRange_closed_form (auth : TzAuthority) (slots : list Slot)
    (startTime endTime timezone : string) (lo hi : Z) :
  minutesOfDay (hourMinute startTime) = Some lo ->
  minutesOfDay (hourMinute endTime) = Some hi ->
  tzFault auth timezone = None ->
  SlotFiltering.filterSlotsByTimeRange auth slots startTime endTime timezone
  = List.filter
      (fun slot =>
         let zone := if zoneKnown auth timezone then timezone else guessZone auth in
         let m := (fun t => localHour auth zone t * 60 + localMinute auth zone t)
                    <$> slotStart slot in
         nanLe (Some lo) m && nanLt m (Some hi))
      slots.
Proof.
  intros Hlo Hhi Hfault. unfold SlotFiltering.filterSlotsByTimeRange. cbv zeta.
  rewrite Hlo, Hhi.
  erewrite filterOutcome_returns; [reflexivity|].
  intros x. unfold tz. rewrite Hfault. simpl. f_equal.
  unfold SlotFiltering.momentHour, SlotFiltering.momentMinute,
    SlotFiltering.momentZone, minutesOfDay. simpl.
  destruct (zoneKnown auth timezone); simpl; destruct (slotStart x); reflexivity.
Qed.

Lemma timeRange_fault (auth : TzAuthority) (slots : list Slot)
    (startTime endTime timezone : string) (e : JsError) :
  tzFault auth timezone = Some e ->
  SlotFiltering.filterSlotsByTimeRange auth slots startTime endTime timezone = [].
Proof.
  intros Hfault. unfold SlotFiltering.filterSlotsByTimeRange. cbv zeta.
  apply (filterOutcome_throws _ e). intros x. unfold tz. rewrite Hfault. reflexivity.
Qed.

Lemma clockMinutes_hourMinute (text : string) :
  timeRegex_test text = true ->
  minutesOfDay (hourMinute text) = Some (clockMinutes text).
Proof.
  intros Hshape.
  destruct (timeRegex_hourMinute text Hshape) as (h1 & h2 & m1 & m2 & Htext & Hparts).
  rewrite Hparts. unfold clockMinutes. rewrite Htext. reflexivity.
Qed.

(** X12: for bounds of the form HH:mm, [filterSlotsByTimeRange] keeps a slot
    exactly when the minute of the day of its start, read in the zone, is at
    or after the start bound and before the end bound.  It returns no slot
    when the end bound is not after the start bound, and when the zone cannot
    be applied. *)
Theorem time_range_filter (auth : TzAuthority) (slots : list Slot)
    (startTime endTime timezone : string) :
  timeRegex_test startTime = true -> timeRegex_test endTime = true ->
  let lo := clockMinutes startTime in
  let hi := clockMinutes endTime in
  let result := SlotFiltering.filterSlotsByTimeRange auth slots startTime endTime
                  timezone in
  (tzFault auth timezone = None ->
   forall r,
     r ∈ result
     <-> r ∈ slots
         /\ exists t,
              slotStart r = Some t
              /\ let zone := if zoneKnown auth timezone then timezone
                             else guessZone auth in
                 lo <= localHour auth zone t * 60 + localMinute auth zone t < hi)
  /\ (hi <= lo -> result = [])
  /\ (forall e, tzFault auth timezone = Some e -> result = []).
Proof.
  intros Hstart Hend lo hi result. subst result.
  pose proof (clockMinutes_hourMinute startTime Hstart) as Hlo.
  pose proof (clockMinutes_hourMinute endTime Hend) as Hhi.
  fold lo in Hlo. fold hi in Hhi.
  split; [|split].
  - intros Hfault r.
    rewrite (timeRange_closed_form auth slots startTime endTime timezone lo hi
               Hlo Hhi Hfault).
    rewrite list_elem_of_In, filter_In, <- list_elem_of_In.
    apply and_iff_compat_l. cbv zeta. split.
    + intros Hkeep. apply andb_true_iff in Hkeep as [Hlow Hhigh].
      destruct (slotStart r) as [t|]; simpl in Hlow, Hhigh; try discriminate.
      exists t. apply Z.leb_le in Hlow. apply Z.ltb_lt in Hhigh. auto.
    + intros (t & -> & Hrange). simpl.
      apply andb_true_iff. split; [apply Z.leb_le|apply Z.ltb_lt]; lia.
  - intros Hempty.
    destruct (tzFault auth timezone) as [e|] eqn:Hfault;
      [now apply (timeRange_fault auth slots startTime endTime timezone e)|].
    rewrite (timeRange_closed_form auth slots startTime endTime timezone lo hi
               Hlo Hhi Hfault).
    apply filter_none. intros x. cbv zeta.
    destruct (slotStart x) as [t|]; simpl; [|reflexivity].
    apply andb_false_iff.
    destruct (Z.leb_spec lo
                (localHour auth (if zoneKnown auth timezone then timezone
                                 else guessZone auth) t * 60
                 + localMinute auth (if zoneKnown auth timezone then timezone
                                     else guessZone auth) t));
      [right; apply Z.ltb_ge; lia|left; reflexivity].
  - intros e Hfault. now apply (timeRange_fault auth slots startTime endTime timezone e).
Qed.

Lemma time_range_filter_witness :
  (forall r,
     r ∈ SlotFiltering.filterSlotsByTimeRange utcAuthority
           [slotAtTen; slotAtTenFortyFive] "10:30" "11:00" "UTC"
     <-> r ∈ [slotAtTen; slotAtTenFortyFive]
         /\ exists t,
              slotStart r = Some t
              /\ 630 <= localHour utcAuthority "UTC" t * 60
                        + localMinute utcAuthority "UTC" t < 660)
  /\ SlotFiltering.filterSlotsByTimeRange utcAuthority [slotAtTen; slotAtTenFortyFive]
       "11:00" "10:30" "UTC" = []
  /\ SlotFiltering.filterSlotsByTimeRange faultyAuthority [slotAtTen; slotAtTenFortyFive]
       "10:30" "11:00" "Broken/Zone" = [].
Proof.
  split; [|split].
  - apply (proj1 (time_range_filter utcAuthority [slotAtTen; slotAtTenFortyFive]
                    "10:30" "11:00" "UTC" eq_refl eq_refl)).
    reflexivity.
  - apply (proj1 (proj2 (time_range_filter utcAuthority [slotAtTen; slotAtTenFortyFive]
                           "11:00" "10:30" "UTC" eq_refl eq_refl))).
    vm_compute. discriminate.
  - apply (proj2 (proj2 (time_range_filter faultyAuthority
                           [slotAtTen; slotAtTenFortyFive] "10:30" "11:00" "Broken/Zone"
                           eq_refl eq_refl))
             (Error "Time zone lookup failed")).
    reflexivity.
Defined.

Lemma dateRange_closed_form (auth : TzAuthority) (slots : list Slot)
    (startDate endDate timezone : string) :
  tzFault auth timezone = None ->
  SlotFiltering.filterSlotsByDateRange auth slots startDate endDate timezone
  = List.filter
      (fun slot =>
         nanLe (startOfDay auth timezone <$> SlotFiltering.dayOfText auth startDate)
               (slotStart slot)
         && nanLe (slotStart slot)
                  (endOfDay auth timezone <$> SlotFiltering.dayOfText auth endDate))
      slots.
Proof.
  intros Hok. unfold SlotFiltering.filterSlotsByDateRange, SlotFiltering.momentTzDay.
  unfold tz at 1 2. rewrite Hok. simpl.
  erewrite filterOutcome_returns; [reflexivity|].
  intros x. unfold tz. rewrite Hok. reflexivity.
Qed.

Lemma dateRange_fault (auth : TzAuthority) (slots : list Slot)
    (startDate endDate timezone : string) (e : JsError) :
  tzFault auth timezone = Some e ->
  SlotFiltering.filterSlotsByDateRange auth slots startDate endDate timezone = [].
Proof.
  intros Hfault. unfold SlotFiltering.filterSlotsByDateRange, SlotFiltering.momentTzDay.
  unfold tz at 1. rewrite Hfault. reflexivity.
Qed.

(** X13: [filterSlotsByDateRange] keeps a slot exactly when its start lies
    between the first instant of the start day and the last instant of the
    end day, both taken in the zone and both included.  It returns no slot
    when a bound is not a readable date and when the zone cannot be
    applied. *)
Theorem date_range_filter (auth : TzAuthority) (slots : list Slot)
    (startDate endDate timezone : string) :
  let result := SlotFiltering.filterSlotsByDateRange auth slots startDate endDate
                  timezone in
  (tzFault auth timezone = None ->
   forall r,
     r ∈ result
     <-> r ∈ slots
         /\ exists t d0 d1,
              slotStart r = Some t
              /\ SlotFiltering.dayOfText auth startDate = Some d0
              /\ SlotFiltering.dayOfText auth endDate = Some d1
              /\ startOfDay auth timezone d0 <= t <= endOfDay auth timezone d1)
  /\ (SlotFiltering.dayOfText auth startDate = None
      \/ SlotFiltering.dayOfText auth endDate = None -> result = [])
  /\ (forall e, tzFault auth timezone = Some e -> result = []).
Proof.
  intros result. subst result.
  destruct (tzFault auth timezone) as [e|] eqn:Hfault.
  - rewrite (dateRange_fault auth slots startDate endDate timezone e Hfault).
    split; [discriminate|]. split; reflexivity.
  - rewrite (dateRange_closed_form auth slots startDate endDate timezone Hfault).
    split; [|split].
    + intros _ r. rewrite list_elem_of_In, filter_In, <- list_elem_of_In.
      apply and_iff_compat_l. split.
      * intros Hkeep. apply andb_true_iff in Hkeep as [Hlo Hhi].
        destruct (slotStart r) as [t|],
                 (SlotFiltering.dayOfText auth startDate) as [d0|],
                 (SlotFiltering.dayOfText auth endDate) as [d1|];
          simpl in Hlo, Hhi; try discriminate.
        exists t, d0, d1. apply Z.leb_le in Hlo, Hhi. auto.
      * intros (t & d0 & d1 & -> & -> & -> & Hrange). simpl.
        apply andb_true_iff. split; apply Z.leb_le; lia.
    + intros Hbad. apply filter_none. intros x.
      destruct Hbad as [-> | ->]; simpl.
      * reflexivity.
      * apply andb_false_iff. right. destruct (slotStart x); reflexivity.
    + discriminate.
Qed.

Lemma date_range_filter_witness :
  (forall r,
     r ∈ SlotFiltering.filterSlotsByDateRange utcAuthority
           [slotAtTen; slotAtTenFortyFive] "2025-11-03" "2025-11-03" "UTC"
     <-> r ∈ [slotAtTen; slotAtTenFortyFive]
         /\ exists t d0 d1,
              slotStart r = Some t
              /\ SlotFiltering.dayOfText utcAuthority "2025-11-03" = Some d0
              /\ SlotFiltering.dayOfText utcAuthority "2025-11-03" = Some d1
              /\ startOfDay utcAuthority "UTC" d0 <= t <= endOfDay utcAuthority "UTC" d1)
  /\ SlotFiltering.filterSlotsByDateRange utcAuthority [slotAtTen; slotAtTenFortyFive]
       "2025-02-30" "2025-11-03" "UTC" = [].
Proof.
  split.
  - apply (proj1 (date_range_filter utcAuthority [slotAtTen; slotAtTenFortyFive]
                    "2025-11-03" "2025-11-03" "UTC")).
    reflexivity.
  - apply (proj1 (proj2 (date_range_filter utcAuthority [slotAtTen; slotAtTenFortyFive]
                           "2025-02-30" "2025-11-03" "UTC"))).
    left. reflexivity.
Defined.

(** X14: with a timezone given, [getSlotsByDateRange] of the generator
    returns what [filterSlotsByDateRange] of the filter pipeline returns. *)
Theorem date_range_filters_agree (auth : TzAuthority) (slots : list Slot)
    (startDate endDate timezone : string) :
  truthy timezone = true ->
  getSlotsByDateRange auth slots startDate endDate (Some timezone)
  = SlotFiltering.filterSlotsByDateRange auth slots startDate endDate timezone.
Proof.
  intros Hgiven. unfold getSlotsByDateRange. rewrite Hgiven. cbv zeta. simpl.
  destruct (tzFault auth timezone) as [e|] eqn:Hfault.
  - rewrite (dateRange_fault auth slots startDate endDate timezone e Hfault).
    unfold tz at 1. rewrite Hfault. reflexivity.
  - rewrite (dateRange_closed_form auth slots startDate endDate timezone Hfault).
    unfold tz at 1. rewrite Hfault. simpl.
    erewrite filterOutcome_returns; [reflexivity|].
    intros x. unfold tz. rewrite Hfault. reflexivity.
Qed.

Lemma date_range_filters_agree_witness :
  getSlotsByDateRange utcAuthority [slotAtTen; slotAtTenFortyFive]
    "2025-11-03" "2025-11-04" (Some "UTC")
  = SlotFiltering.filterSlotsByDateRange utcAuthority [slotAtTen; slotAtTenFortyFive]
      "2025-11-03" "2025-11-04" "UTC".
Proof.
  apply (date_range_filters_agree utcAuthority [slotAtTen; slotAtTenFortyFive]
           "2025-11-03" "2025-11-04" "UTC").
  reflexivity.
Defined.

(** ** Sorting and the limit *)

Lemma sortByStart_sorted_same (l : list Slot) :
  Sorted startsInOrder l -> SlotFiltering.sortByStart l = l.
Proof.
  induction 1 as [|x l Hsorted IH Hhd]; simpl; [reflexivity|].
  rewrite IH. destruct Hhd as [|y l Hxy]; simpl; [reflexivity|].
  unfold SlotFiltering.startsAfter. unfold startsInOrder in Hxy.
  destruct (slotStart x) as [tx|], (slotStart y) as [ty|]; simpl in *;
    try discriminate.
  apply Z.leb_le in Hxy.
  replace (ty <? tx) with false by (symmetry; apply Z.ltb_ge; lia). reflexivity.
Qed.

Lemma startsInOrder_trans : Transitive startsInOrder.
Proof.
  intros a b c. unfold startsInOrder.
  destruct (slotStart a), (slotStart b), (slotStart c); simpl; try discriminate.
  rewrite !Z.leb_le. lia.
Qed.

Lemma StronglySorted_sublist_of (l k : list Slot) :
  sublist k l -> StronglySorted startsInOrder l -> StronglySorted startsInOrder k.
Proof.
  induction 1 as [|x k l Hsub IH|x k l Hsub IH]; intros Hsorted.
  - constructor.
  - apply StronglySorted_inv in Hsorted as [Hrest Hall].
    constructor; [now apply IH|].
    apply Forall_forall. intros y Hy. rewrite Forall_forall in Hall.
    apply Hall. eapply elem_of_sublist; eassumption.
  - apply StronglySorted_inv in Hsorted as [Hrest _]. now apply IH.
Qed.

Lemma annotated_sorted (auth : TzAuthority) (clock : Z) options (slots : list Slot) :
  StronglySorted startsInOrder slots ->
  StronglySorted startsInOrder (map (annotated auth clock options) slots).
Proof.
  induction 1 as [|x l Hsorted IH Hall]; simpl; constructor; [exact IH|].
  apply Forall_forall. intros y Hy.
  apply list_elem_of_In, in_map_iff in Hy as (s & <- & Hs).
  rewrite Forall_forall in Hall. apply (Hall s). now apply list_elem_of_In.
Qed.

(** X15: on an input that is in ascending order of start,
    [getFilteredSlots] returns the slots that survive the filters in the
    order of the input, cut at the limit: cutting before sorting is then
    the same as cutting after it. *)
Theorem limit_on_sorted_input (auth : TzAuthority) (clock : Z) (slots : list Slot)
    (options : SlotFiltering.SlotFilterOptions) :
  Sorted startsInOrder slots ->
  let result := SlotFiltering.getFilteredSlots auth clock slots options in
  result = SlotFiltering.limitStage options (survivors auth clock slots options)
  /\ result = SlotFiltering.limitStage options
                (SlotFiltering.sortByStart (survivors auth clock slots options)).
Proof.
  intros Hsorted result. subst result. rewrite getFilteredSlots_stages.
  assert (Hstrong : StronglySorted startsInOrder
                      (map (annotated auth clock options) slots)).
  { apply annotated_sorted.
    apply (@Sorted_StronglySorted _ _ startsInOrder_trans). exact Hsorted. }
  assert (Halive : Sorted startsInOrder (survivors auth clock slots options)).
  { apply StronglySorted_Sorted.
    eapply StronglySorted_sublist_of; [|exact Hstrong].
    unfold survivors. rewrite annotated_step.
    etrans; [apply availableOnlyStage_sublist|].
    etrans; [apply timeRangeStage_sublist|].
    apply dateRangeStage_sublist. }
  assert (Hcut : Sorted startsInOrder
                   (SlotFiltering.limitStage options
                      (survivors auth clock slots options))).
  { apply StronglySorted_Sorted.
    eapply StronglySorted_sublist_of; [apply beforeSort_sublist|exact Hstrong]. }
  rewrite (sortByStart_sorted_same _ Hcut), (sortByStart_sorted_same _ Halive).
  split; reflexivity.
Qed.

Lemma limit_on_sorted_input_witness :
  SlotFiltering.getFilteredSlots utcAuthority 0 [slotAtTen; slotAtTenFortyFive]
    firstAvailableOptions
  = SlotFiltering.limitStage firstAvailableOptions
      (SlotFiltering.sortByStart
         (survivors utcAuthority 0 [slotAtTen; slotAtTenFortyFive]
            firstAvailableOptions)).
Proof.
  apply (limit_on_sorted_input utcAuthority 0 [slotAtTen; slotAtTenFortyFive]
           firstAvailableOptions).
  repeat constructor.
Defined.

(** ** Statistics of the filter pipeline *)




(** ** The store *)

(** X17: after [setItem] has stored a document under a key, [getItem] of
    that key returns the document, and [getItem] of any other key returns
    what it returned before. *)
Theorem setItem_then_getItem (store store' : Storage.AsyncStorage) (key : string)
    (value : Storage.Json) :
  Storage.setItem store key value = Returns store' ->
  Storage.readFault store = None ->
  Storage.getItem store' key = Returns value
  /\ (forall other, other <> key ->
        Storage.getItem store' other = Storage.getItem store other).
Proof.
  unfold Storage.setItem, Storage.AsyncStorage_setItem.
  destruct (Storage.writeFault store) as [e|]; simpl; [discriminate|].
  intros [= <-] Hread.
  unfold Storage.getItem, Storage.AsyncStorage_getItem. simpl. rewrite Hread. simpl.
  split.
  - rewrite lookup_insert_eq. reflexivity.
  - intros other Hother. rewrite lookup_insert_ne by congruence. reflexivity.
Qed.

Lemma setItem_then_getItem_witness :
  exists store',
    Storage.setItem emptyStore "k" (Storage.JNumber 7) = Returns store'
    /\ Storage.getItem store' "k" = Returns (Storage.JNumber 7).
Proof.
  eexists. split; [reflexivity|].
  apply (setItem_then_getItem emptyStore _ "k" (Storage.JNumber 7)); reflexivity.
Defined.

Lemma removeItem_returns (store : Storage.AsyncStorage) (key : string) :
  Storage.writeFault store = None ->
  Storage.removeItem store key
  = Returns {| Storage.cells := delete key (Storage.cells store);
               Storage.readFault := Storage.readFault store;
               Storage.writeFault := Storage.writeFault store |}.
Proof.
  intros Hwrite. unfold Storage.removeItem, Storage.AsyncStorage_removeItem.
  rewrite Hwrite. reflexivity.
Qed.

(** X18: when the store accepts writes, [clearAllSlots] removes the stored
    configuration and the stored slots and touches no other key, so that
    afterwards [loadSlotConfig] returns null and [loadGeneratedSlots] the
    empty list.  When writes fail it throws an [Error] whose message names
    both layers of the failure. *)
Theorem clearAllSlots_removes_both (dateParse : string -> option Z)
    (store : Storage.AsyncStorage) :
  (Storage.writeFault store = None ->
   exists store',
     Storage.clearAllSlots store = Returns store'
     /\ Storage.cells store' !! Storage.SLOT_CONFIG = None
     /\ Storage.cells store' !! Storage.GENERATED_SLOTS = None
     /\ (forall key, key <> Storage.SLOT_CONFIG -> key <> Storage.GENERATED_SLOTS ->
           Storage.cells store' !! key = Storage.cells store !! key)
     /\ (Storage.readFault store = None ->
         Storage.loadSlotConfig store' = Returns Storage.JNull
         /\ Storage.loadGeneratedSlots dateParse store' = Returns []))
  /\ (forall e, Storage.writeFault store = Some e ->
        Storage.clearAllSlots store
        = Throws (Error ("Failed to clear slots: "
                         +:+ ("Failed to remove data: " +:+ messageOrUnknown e)))).
Proof.
  split.
  - intros Hwrite. unfold Storage.clearAllSlots.
    rewrite (removeItem_returns store _ Hwrite). simpl.
    rewrite removeItem_returns by exact Hwrite. simpl.
    eexists. split; [reflexivity|]. simpl.
    split; [apply lookup_delete_eq|].
    split; [rewrite lookup_delete_ne by discriminate; apply lookup_delete_eq|].
    split.
    + intros key Hc Hg. rewrite !lookup_delete_ne by congruence. reflexivity.
    + intros Hread.
      unfold Storage.loadSlotConfig, Storage.loadGeneratedSlots, Storage.getItem,
        Storage.AsyncStorage_getItem. simpl. rewrite Hread. simpl.
      rewrite lookup_delete_eq.
      rewrite lookup_delete_ne by discriminate. rewrite lookup_delete_eq.
      split; reflexivity.
  - intros e Hwrite. unfold Storage.clearAllSlots, Storage.removeItem,
      Storage.AsyncStorage_removeItem.
    rewrite Hwrite. reflexivity.
Qed.

Lemma clearAllSlots_removes_both_witness :
  (exists store',
     Storage.clearAllSlots mixedStore = Returns store'
     /\ Storage.loadGeneratedSlots decimalParse store' = Returns [])
  /\ Storage.clearAllSlots
       {| Storage.cells := ∅; Storage.readFault := None;
          Storage.writeFault := Some (Error "Disk is full") |}
     = Throws (Error "Failed to clear slots: Failed to remove data: Disk is full").
Proof.
  split.
  - destruct (proj1 (clearAllSlots_removes_both decimalParse mixedStore) eq_refl)
      as (store' & Hrun & _ & _ & _ & Hload).
    exists store'. split; [exact Hrun|]. apply Hload. reflexivity.
  - apply (proj2 (clearAllSlots_removes_both decimalParse _) (Error "Disk is full")).
    reflexivity.
Defined.

Lemma lookup_foldr_delete (m : gmap string Storage.Blob) (keys : list string)
    (key : string) :
  foldr delete m keys !! key = if bool_decide (key ∈ keys) then None else m !! key.
Proof.
  induction keys as [|k keys IH]; simpl; [reflexivity|].
  destruct (decide (k = key)) as [->|Hne].
  - rewrite lookup_delete_eq, bool_decide_eq_true_2 by left. reflexivity.
  - rewrite lookup_delete_ne by exact Hne. rewrite IH.
    destruct (bool_decide (key ∈ keys)) eqn:Hin.
    + apply bool_decide_eq_true in Hin.
      rewrite bool_decide_eq_true_2 by (right; exact Hin). reflexivity.
    + apply bool_decide_eq_false in Hin.
      rewrite bool_decide_eq_false_2; [reflexivity|].
      intros Hin'. apply elem_of_cons in Hin' as [->|?]; congruence.
Qed.

Lemma appKeysOf_elem (m : gmap string Storage.Blob) (key : string) :
  key ∈ Storage.appKeysOf ((map_to_list m).*1)
  <-> is_Some (m !! key) /\ String.prefix Storage.APP_PREFIX key = true.
Proof.
  unfold Storage.appKeysOf. rewrite list_elem_of_In, filter_In, <- list_elem_of_In.
  apply and_iff_compat_r. rewrite list_elem_of_fmap. split.
  - intros ([k v] & -> & Hin). apply elem_of_map_to_list in Hin. eexists. exact Hin.
  - intros [v Hv]. exists (key, v). split; [reflexivity|].
    now apply elem_of_map_to_list.
Qed.

(** X19: when the list of keys can be read and writes are accepted,
    [clear] removes every key that begins with the prefix of the application
    and leaves every other key as it was.  When no key of the store has the
    prefix it writes nothing and succeeds, also on a store whose writes
    fail. *)
Theorem clear_removes_only_app_keys (store : Storage.AsyncStorage) :
  Storage.readFault store = None ->
  (Storage.writeFault store = None ->
   exists store',
     Storage.clear store = Returns store'
     /\ forall key,
          Storage.cells store' !! key
          = if String.prefix Storage.APP_PREFIX key then None
            else Storage.cells store !! key)
  /\ ((forall key, is_Some (Storage.cells store !! key) ->
         String.prefix Storage.APP_PREFIX key = false) ->
      Storage.clear store = Returns store).
Proof.
  intros Hread. unfold Storage.clear, Storage.AsyncStorage_getAllKeys,
    Storage.AsyncStorage_multiRemove.
  rewrite Hread. simpl.
  set (appKeys := Storage.appKeysOf ((map_to_list (Storage.cells store)).*1)).
  split.
  - intros Hwrite. rewrite Hwrite.
    destruct (0 <? length appKeys)%nat eqn:Hsome; simpl.
    + eexists. split; [reflexivity|]. intros key. simpl.
      rewrite lookup_foldr_delete.
      destruct (bool_decide (key ∈ appKeys)) eqn:Hin.
      * apply bool_decide_eq_true, appKeysOf_elem in Hin as [_ ->]. reflexivity.
      * apply bool_decide_eq_false in Hin.
        destruct (String.prefix Storage.APP_PREFIX key) eqn:Hprefix; [|reflexivity].
        destruct (Storage.cells store !! key) eqn:Hcell; [|reflexivity].
        exfalso. apply Hin, appKeysOf_elem. split; [eexists; exact Hcell|exact Hprefix].
    + exists store. split; [reflexivity|]. intros key.
      destruct (String.prefix Storage.APP_PREFIX key) eqn:Hprefix; [|reflexivity].
      destruct (Storage.cells store !! key) eqn:Hcell; [|reflexivity].
      exfalso. apply Nat.ltb_ge in Hsome.
      assert (Hin : key ∈ appKeys)
        by (apply appKeysOf_elem; split; [eexists; exact Hcell|exact Hprefix]).
      destruct appKeys; [inversion Hin|simpl in Hsome; lia].
  - intros Hforeign.
    destruct appKeys as [|k rest] eqn:Hkeys; [reflexivity|].
    exfalso.
    assert (Hin : k ∈ Storage.appKeysOf ((map_to_list (Storage.cells store)).*1))
      by (fold appKeys; rewrite Hkeys; left).
    apply appKeysOf_elem in Hin as [Hsome Hprefix].
    rewrite (Hforeign k Hsome) in Hprefix. discriminate.
Qed.

Lemma clear_removes_only_app_keys_witness :
  (exists store',
     Storage.clear
       {| Storage.cells := <["other_app:token" := Storage.JsonText (Storage.JNumber 1)]>
                             (Storage.cells mixedStore);
          Storage.readFault := None; Storage.writeFault := None |} = Returns store'
     /\ Storage.cells store' !! Storage.GENERATED_SLOTS = None
     /\ Storage.cells store' !! "other_app:token"
        = Some (Storage.JsonText (Storage.JNumber 1)))
  /\ Storage.clear
       {| Storage.cells := {[ "other_app:token" := Storage.JsonText (Storage.JNumber 1) ]};
          Storage.readFault := None;
          Storage.writeFault := Some (Error "Disk is full") |}
     = Returns
       {| Storage.cells := {[ "other_app:token" := Storage.JsonText (Storage.JNumber 1) ]};
          Storage.readFault := None;
          Storage.writeFault := Some (Error "Disk is full") |}.
Proof.
  split.
  - destruct (proj1 (clear_removes_only_app_keys
                       {| Storage.cells :=
                            <["other_app:token" := Storage.JsonText (Storage.JNumber 1)]>
                              (Storage.cells mixedStore);
                          Storage.readFault := None; Storage.writeFault := None |}
                       eq_refl) eq_refl) as (store' & Hrun & Hcells).
    exists store'. split; [exact Hrun|].
    split; rewrite Hcells; reflexivity.
  - apply (proj2 (clear_removes_only_app_keys
                    {| Storage.cells :=
                         {[ "other_app:token" := Storage.JsonText (Storage.JNumber 1) ]};
                       Storage.readFault := None;
                       Storage.writeFault := Some (Error "Disk is full") |} eq_refl)).
    intros key [v Hv]. simpl in Hv.
    apply lookup_singleton_Some in Hv as [<- _]. reflexivity.
Defined.

Lemma saveSlotConfig_validated (auth : TzAuthority) (config : SlotConfig)
    (store : Storage.AsyncStorage) :
  SlotGenerator.validateSlotConfig auth config = Returns tt ->
  Storage.writeFault store = None ->
  Storage.saveSlotConfig config store
  = Returns {| Storage.cells := <[Storage.SLOT_CONFIG
                                  := Storage.JsonText (Storage.configToJson config)]>
                                  (Storage.cells store);
               Storage.readFault := Storage.readFault store;
               Storage.writeFault := Storage.writeFault store |}.
Proof.
  intros Hvalid Hwrite. apply validateSlotConfig_returns in Hvalid.
  destruct Hvalid as (Hsd & Hed & _ & _ & Hz & Hsdr & Hedr & Hstr & Hetr & Hs & Hb
                      & Hu & _).
  unfold Storage.saveSlotConfig.
  rewrite Hsd, Hed, Hz, Hsdr, Hedr, Hstr, Hetr. simpl.
  replace (slotDuration config <=? 0) with false by (symmetry; apply Z.leb_gt; lia).
  replace (breakDuration config <? 0) with false by (symmetry; apply Z.ltb_ge; lia).
  replace (bufferDuration config <? 0) with false by (symmetry; apply Z.ltb_ge; lia).
  simpl. unfold Storage.setItem, Storage.AsyncStorage_setItem. rewrite Hwrite.
  reflexivity.
Qed.

Lemma loadSlotConfig_stored (config : SlotConfig) (store : Storage.AsyncStorage) :
  truthy (startDate config) = true -> truthy (endDate config) = true ->
  truthy (timeZone config) = true ->
  Storage.readFault store = None ->
  Storage.cells store !! Storage.SLOT_CONFIG
  = Some (Storage.JsonText (Storage.configToJson config)) ->
  Storage.loadSlotConfig store = Returns (Storage.configToJson config).
Proof.
  intros Hsd Hed Hz Hread Hcell.
  unfold Storage.loadSlotConfig, Storage.getItem, Storage.AsyncStorage_getItem.
  rewrite Hread. simpl. rewrite Hcell. simpl.
  unfold Storage.fieldTruthy. simpl. rewrite Hsd, Hed, Hz. reflexivity.
Qed.

(** X20: a configuration that passes [validateSlotConfig] passes the checks
    of [saveSlotConfig]; once saved in a store that accepts the write and
    the read, [loadSlotConfig] returns it with all its fields, and the
    stored slots are left as they were. *)
Theorem validated_config_saves_and_loads (auth : TzAuthority) (config : SlotConfig)
    (store : Storage.AsyncStorage) :
  SlotGenerator.validateSlotConfig auth config = Returns tt ->
  Storage.writeFault store = None -> Storage.readFault store = None ->
  exists store',
    Storage.saveSlotConfig config store = Returns store'
    /\ Storage.loadSlotConfig store' = Returns (Storage.configToJson config)
    /\ Storage.cells store' !! Storage.GENERATED_SLOTS
       = Storage.cells store !! Storage.GENERATED_SLOTS.
Proof.
  intros Hvalid Hwrite Hread.
  rewrite (saveSlotConfig_validated auth config store Hvalid Hwrite).
  apply validateSlotConfig_returns in Hvalid.
  destruct Hvalid as (Hsd & Hed & _ & _ & Hz & _).
  eexists. split; [reflexivity|]. split.
  - apply loadSlotConfig_stored; try assumption. simpl. apply lookup_insert_eq.
  - simpl. apply lookup_insert_ne. discriminate.
Qed.

Lemma validated_config_saves_and_loads_witness :
  exists store',
    Storage.saveSlotConfig sampleConfig emptyStore = Returns store'
    /\ Storage.loadSlotConfig store' = Returns (Storage.configToJson sampleConfig)
    /\ Storage.cells store' !! Storage.GENERATED_SLOTS
       = Storage.cells emptyStore !! Storage.GENERATED_SLOTS.
Proof.
  apply (validated_config_saves_and_loads utcAuthority sampleConfig emptyStore).
  - vm_compute. reflexivity.
  - reflexivity.
  - reflexivity.
Defined.

Lemma checkSlots_inv (slots : list Slot) :
  Storage.checkSlots slots = Returns tt ->
  Forall (fun s => truthy (id s) = true) slots.
Proof.
  induction slots as [|s slots IH]; simpl; intros Hrun; [constructor|].
  destruct (truthy (id s)) eqn:Hid; simpl in Hrun; [|discriminate].
  constructor; [exact Hid|now apply IH].
Qed.

Lemma checkSlots_throws (slots : list Slot) :
  Exists (fun s => truthy (id s) = false) slots ->
  Storage.checkSlots slots
  = Throws (Error "Invalid slot object: missing required fields").
Proof.
  induction 1 as [s slots Hbad|s slots _ IH]; simpl.
  - rewrite Hbad. reflexivity.
  - destruct (truthy (id s)); simpl; [exact IH|reflexivity].
Qed.

Lemma checkSlots_outcome (slots : list Slot) :
  Storage.checkSlots slots = Returns tt
  \/ Storage.checkSlots slots
     = Throws (Error "Invalid slot object: missing required fields").
Proof.
  induction slots as [|s slots IH]; simpl; [left; reflexivity|].
  destruct (truthy (id s)); simpl; [exact IH|right; reflexivity].
Qed.

Lemma serializeSlots_inv (toISOString : Z -> string) (slots : list Slot)
    (docs : list Storage.Json) :
  SlotGenerator.mapOutcome (Storage.serializeSlot toISOString) slots = Returns docs ->
  Forall (fun s => is_Some (slotStart s) /\ is_Some (slotEnd s)) slots.
Proof.
  revert docs. induction slots as [|s slots IH]; simpl; intros docs Hrun;
    [constructor|].
  unfold Storage.serializeSlot at 1 in Hrun. unfold Storage.isoOf in Hrun.
  destruct (slotStart s) as [a|] eqn:Ha; simpl in Hrun; [|discriminate].
  destruct (slotEnd s) as [b|] eqn:Hb; simpl in Hrun; [|discriminate].
  destruct (SlotGenerator.mapOutcome (Storage.serializeSlot toISOString) slots)
    as [rest| |] eqn:Hrest; simpl in Hrun; try discriminate.
  constructor; [split; eexists; eassumption|]. now apply (IH rest).
Qed.

Lemma saveGeneratedSlots_valid (toISOString : Z -> string) (slots : list Slot)
    (store : Storage.AsyncStorage) :
  Storage.writeFault store = None ->
  Forall (fun s => truthy (id s) = true
                   /\ is_Some (slotStart s) /\ is_Some (slotEnd s)) slots ->
  Storage.saveGeneratedSlots toISOString slots store
  = Returns {| Storage.cells :=
                 <[Storage.GENERATED_SLOTS
                   := Storage.JsonText
                        (Storage.JArray (map (Storage.storedRecord toISOString) slots))]>
                   (Storage.cells store);
               Storage.readFault := Storage.readFault store;
               Storage.writeFault := Storage.writeFault store |}.
Proof.
  intros Hwrite Hslots. unfold Storage.saveGeneratedSlots.
  rewrite checkSlots_returns
    by (eapply Forall_impl; [exact Hslots|]; intros s (? & _); assumption).
  simpl.
  rewrite (mapOutcome_returns_Forall _ (Storage.storedRecord toISOString))
    by (eapply Forall_impl; [exact Hslots|];
        intros s (_ & ? & ?); now apply serializeSlot_valid).
  simpl. unfold Storage.setItem, Storage.AsyncStorage_setItem. rewrite Hwrite.
  reflexivity.
Qed.

Lemma saveGeneratedSlots_accepts_helper (toISOString : Z -> string) (slots : list Slot)
    (store : Storage.AsyncStorage) :
  ((exists store', Storage.saveGeneratedSlots toISOString slots store = Returns store')
   <-> Forall (fun s => truthy (id s) = true
                        /\ is_Some (slotStart s) /\ is_Some (slotEnd s)) slots
       /\ Storage.writeFault store = None)
  /\ (Exists (fun s => truthy (id s) = false) slots ->
      Storage.saveGeneratedSlots toISOString slots store
      = Throws (Error "Invalid slot object: missing required fields"))
  /\ Storage.saveGeneratedSlots toISOString slots store <> Diverges.
Proof.
  split; [split|split].
  - intros [store' Hrun]. unfold Storage.saveGeneratedSlots in Hrun.
    destruct (Storage.checkSlots slots) as [[]| |] eqn:Hcheck; simpl in Hrun;
      try discriminate.
    destruct (SlotGenerator.mapOutcome (Storage.serializeSlot toISOString) slots)
      as [docs| |] eqn:Hdocs; simpl in Hrun; try discriminate.
    apply checkSlots_inv in Hcheck. apply serializeSlots_inv in Hdocs.
    split.
    + apply Forall_forall. intros s Hs.
      rewrite Forall_forall in Hcheck, Hdocs.
      destruct (Hdocs s Hs). auto.
    + unfold Storage.setItem, Storage.AsyncStorage_setItem in Hrun.
      destruct (Storage.writeFault store); [discriminate|reflexivity].
  - intros [Hslots Hwrite]. eexists.
    apply (saveGeneratedSlots_valid toISOString slots store Hwrite Hslots).
  - intros Hbad. unfold Storage.saveGeneratedSlots.
    rewrite (checkSlots_throws slots Hbad). reflexivity.
  - unfold Storage.saveGeneratedSlots.
    destruct (checkSlots_outcome slots) as [-> | ->]; simpl; [|discriminate].
    pose proof (mapOutcome_terminates (Storage.serializeSlot toISOString) slots)
      as Hterm.
    destruct (SlotGenerator.mapOutcome (Storage.serializeSlot toISOString) slots)
      as [docs| |] eqn:Hdocs; simpl; try discriminate.
    + unfold Storage.setItem, Storage.AsyncStorage_setItem.
      destruct (Storage.writeFault store); discriminate.
    + exfalso. apply Hterm; [|reflexivity].
      intros s. unfold Storage.serializeSlot, Storage.isoOf.
      destruct (slotStart s), (slotEnd s); discriminate.
Qed.

(** X21: [saveGeneratedSlots] stores a collection exactly when every slot
    has a non-empty id and two valid dates and the store accepts the write;
    otherwise it throws, and a slot with an empty id is reported before any
    invalid date or failure of the store. *)
Theorem saveGeneratedSlots_accepts (toISOString : Z -> string) (slots : list Slot)
    (store : Storage.AsyncStorage) :
  ((exists store', Storage.saveGeneratedSlots toISOString slots store = Returns store')
   <-> Forall (fun s => truthy (id s) = true
                        /\ is_Some (slotStart s) /\ is_Some (slotEnd s)) slots
       /\ Storage.writeFault store = None)
  /\ (Exists (fun s => truthy (id s) = false) slots ->
      Storage.saveGeneratedSlots toISOString slots store
      = Throws (Error "Invalid slot object: missing required fields"))
  /\ Storage.saveGeneratedSlots toISOString slots store <> Diverges.
Proof. exact (saveGeneratedSlots_accepts_helper toISOString slots store). Qed.

Lemma saveGeneratedSlots_accepts_witness :
  (exists store',
     Storage.saveGeneratedSlots decimalText [slotAtTen; slotAtTenFortyFive] emptyStore
     = Returns store')
  /\ Storage.saveGeneratedSlots decimalText [slotAtTen; slotWithoutId] emptyStore
     = Throws (Error "Invalid slot object: missing required fields").
Proof.
  split.
  - apply (proj1 (saveGeneratedSlots_accepts decimalText
                    [slotAtTen; slotAtTenFortyFive] emptyStore)).
    split; [|reflexivity].
    repeat constructor; eexists; reflexivity.
  - apply (proj1 (proj2 (saveGeneratedSlots_accepts decimalText
                           [slotAtTen; slotWithoutId] emptyStore))).
    right. left. reflexivity.
Defined.




(** ** The submit handler of the form *)

Lemma truthy_slotId (n : Z) : truthy (SlotGenerator.slotId n) = true.
Proof. reflexivity. Qed.

Lemma generateSlots_storable (auth : TzAuthority) (config : SlotConfig)
    (slots : list Slot) :
  SlotGenerator.generateSlots auth config = Returns slots ->
  Forall (fun s => truthy (id s) = true
                   /\ is_Some (slotStart s) /\ is_Some (slotEnd s)) slots.
Proof.
  intros Hrun. apply Forall_lookup. intros i x Hx.
  destruct (generateSlots_ids auth config slots i x Hrun Hx) as (Hid & Hs & He & _).
  rewrite Hid. split; [apply truthy_slotId|]. split; assumption.
Qed.

(** X23: when [generateSlots] returns a list that is not empty and the store
    accepts writes and reads, [handleGenerateSlots] reports success with the
    number of slots, and afterwards [loadGeneratedSlots] returns the
    generated slots and [loadSlotConfig] the submitted configuration. *)
Theorem handler_stores_what_it_generates (auth : TzAuthority)
    (toISOString : Z -> string) (dateParse : string -> option Z)
    (config : SlotConfig) (store : Storage.AsyncStorage) (slots : list Slot) :
  (forall t, dateParse (toISOString t) = Some t) ->
  SlotGenerator.generateSlots auth config = Returns slots ->
  slots <> [] ->
  Storage.writeFault store = None -> Storage.readFault store = None ->
  exists store',
    GenerationForm.handleGenerateSlots auth toISOString config store
    = Returns (store', GenerationForm.GenerationSucceeded (length slots))
    /\ Storage.loadGeneratedSlots dateParse store' = Returns (map Storage.ofSlot slots)
    /\ Storage.loadSlotConfig store' = Returns (Storage.configToJson config).
Proof.
  intros Hlaw Hgen Hne Hwrite Hread.
  destruct (proj1 (proj2 (generateSlots_outcome auth config)) slots Hgen)
    as [Hvalid _].
  pose proof (generateSlots_storable auth config slots Hgen) as Hslots.
  unfold GenerationForm.handleGenerateSlots, GenerationForm.saveConfiguration.
  rewrite (saveSlotConfig_validated auth config store Hvalid Hwrite).
  rewrite Hgen. simpl.
  replace (length slots =? 0)%nat with false
    by (symmetry; apply Nat.eqb_neq; destruct slots; [congruence|discriminate]).
  simpl.
  set (store1 := {| Storage.cells := _; Storage.readFault := _;
                    Storage.writeFault := _ |}).
  destruct (save_then_load toISOString dateParse Hlaw store1 slots Hwrite Hread Hslots)
    as (store2 & Hsave & Hload).
  rewrite Hsave. simpl. exists store2. split; [reflexivity|]. split; [exact Hload|].
  rewrite (saveGeneratedSlots_valid toISOString slots store1 Hwrite Hslots) in Hsave.
  injection Hsave as <-.
  apply validateSlotConfig_returns in Hvalid.
  destruct Hvalid as (Hsd & Hed & _ & _ & Hz & _).
  apply loadSlotConfig_stored; try assumption.
  simpl. rewrite lookup_insert_ne by discriminate. apply lookup_insert_eq.
Qed.

Lemma handler_stores_what_it_generates_witness :
  exists slots store',
    GenerationForm.handleGenerateSlots utcAuthority decimalText sampleConfig emptyStore
    = Returns (store', GenerationForm.GenerationSucceeded (length slots))
    /\ Storage.loadGeneratedSlots decimalParse store' = Returns (map Storage.ofSlot slots)
    /\ Storage.loadSlotConfig store' = Returns (Storage.configToJson sampleConfig).
Proof.
  destruct (SlotGenerator.generateSlots utcAuthority sampleConfig)
    as [slots| |] eqn:Hrun; try (vm_compute in Hrun; discriminate).
  exists slots.
  apply (handler_stores_what_it_generates utcAuthority decimalText decimalParse
           sampleConfig emptyStore slots decimal_round_trip Hrun).
  - vm_compute in Hrun. injection Hrun as <-. discriminate.
  - reflexivity.
  - reflexivity.
Defined.

(** X24: [handleGenerateSlots] never raises: whenever [generateSlots] ends,
    with a list or with an error, the handler ends with a report.  For a
    configuration that validation rejects, the report is a failure whose
    message is that of [generateSlots], and the stored slots are left as they
    were. *)
Theorem handler_reports_failures (auth : TzAuthority) (toISOString : Z -> string)
    (config : SlotConfig) (store : Storage.AsyncStorage) :
  (forall e,
     GenerationForm.handleGenerateSlots auth toISOString config store <> Throws e)
  /\ (SlotGenerator.generateSlots auth config <> Diverges ->
      exists store' report,
        GenerationForm.handleGenerateSlots auth toISOString config store
        = Returns (store', report))
  /\ (forall e,
        SlotGenerator.validateSlotConfig auth config = Throws e ->
        exists store',
          GenerationForm.handleGenerateSlots auth toISOString config store
          = Returns (store',
                     GenerationForm.GenerationFailed
                       ("Slot generation failed: " +:+ messageOrUnknown e))
          /\ Storage.cells store' !! Storage.GENERATED_SLOTS
             = Storage.cells store !! Storage.GENERATED_SLOTS).
Proof.
  split; [|split].
  - intros e. unfold GenerationForm.handleGenerateSlots.
    destruct (SlotGenerator.generateSlots auth config) as [slots|e0|]; simpl;
      try discriminate.
    destruct (length slots =? 0)%nat; simpl; [discriminate|].
    destruct (Storage.saveGeneratedSlots toISOString slots
                (GenerationForm.saveConfiguration config store)); simpl; discriminate.
  - intros Hterm. unfold GenerationForm.handleGenerateSlots.
    destruct (SlotGenerator.generateSlots auth config) as [slots|e|]; simpl;
      [|eexists _, _; reflexivity|congruence].
    destruct (length slots =? 0)%nat; simpl; [eexists _, _; reflexivity|].
    pose proof (proj2 (proj2 (saveGeneratedSlots_accepts_helper toISOString slots
                                (GenerationForm.saveConfiguration config store))))
      as Hsave.
    destruct (Storage.saveGeneratedSlots toISOString slots
                (GenerationForm.saveConfiguration config store)) as [store2|e|];
      simpl; [eexists _, _; reflexivity..|congruence].
  - intros e Hthrow.
    unfold GenerationForm.handleGenerateSlots.
    rewrite (proj1 (generateSlots_outcome auth config) e Hthrow). simpl.
    eexists. split; [reflexivity|].
    unfold GenerationForm.saveConfiguration, Storage.saveSlotConfig.
    repeat match goal with
           | |- context [throwIf ?c ?m] => destruct c; simpl; [reflexivity|]
           end.
    unfold Storage.setItem, Storage.AsyncStorage_setItem.
    destruct (Storage.writeFault store); simpl; [reflexivity|].
    apply lookup_insert_ne. discriminate.
Qed.

Lemma handler_reports_failures_witness :
  (exists store' report,
     GenerationForm.handleGenerateSlots utcAuthority decimalText sampleConfig emptyStore
     = Returns (store', report))
  /\ (exists store',
        GenerationForm.handleGenerateSlots utcAuthority decimalText
          {| startDate := "2025-11-03"; endDate := "2025-11-03";
             startTime := "18:00"; endTime := "10:00"; timeZone := "UTC";
             slotDuration := 30; breakDuration := 15; bufferDuration := 45 |}
          emptyStore
        = Returns (store',
                   GenerationForm.GenerationFailed
                     "Slot generation failed: End time must be after start time")
        /\ Storage.cells store' !! Storage.GENERATED_SLOTS
           = Storage.cells emptyStore !! Storage.GENERATED_SLOTS).
Proof.
  split.
  - apply (proj1 (proj2 (handler_reports_failures utcAuthority decimalText sampleConfig
                           emptyStore))).
    vm_compute. discriminate.
  - apply (proj2 (proj2 (handler_reports_failures utcAuthority decimalText _ emptyStore))
             (Error "End time must be after start time")).
    vm_compute. reflexivity.
Defined.

(** ** The form's validators *)

Lemma foldl_insert_lookup_None (errors : list Validation.ValidationError) (f : string) :
  forall acc : gmap string string,
    foldl (fun m err => <[Validation.field err := Validation.message err]> m) acc errors
      !! f = None
    <-> acc !! f = None
        /\ List.filter (fun err => String.eqb (Validation.field err) f) errors = [].
Proof.
  induction errors as [|err errors IH]; intros acc; simpl.
  - tauto.
  - rewrite IH. destruct (String.eqb_spec (Validation.field err) f) as [Heq|Hne].
    + rewrite Heq, lookup_insert_eq. split; [intros [? _]|intros [_ ?]]; discriminate.
    + rewrite lookup_insert_ne by exact Hne. tauto.
Qed.

Lemma foldl_insert_lookup_last (errors : list Validation.ValidationError) (f : string) :
  forall acc : gmap string string,
    foldl (fun m err => <[Validation.field err := Validation.message err]> m) acc errors
      !! f
    = match last (Validation.message <$>
                    List.filter (fun err => String.eqb (Validation.field err) f) errors)
      with
      | Some msg => Some msg
      | None => acc !! f
      end.
Proof.
  induction errors as [|err errors IH]; intros acc; [reflexivity|].
  cbn [foldl]. rewrite IH. cbn [List.filter].
  destruct (String.eqb_spec (Validation.field err) f) as [Heq|Hne].
  - rewrite fmap_cons, last_cons.
    destruct (last _); [reflexivity|].
    now rewrite Heq, lookup_insert_eq.
  - destruct (last _); [reflexivity|].
    now rewrite lookup_insert_ne.
Qed.

(** X25: [validateField] and [getFormErrors] agree on which fields are
    valid: [validateField] reports the field valid exactly when
    [getFormErrors], on the values with the field replaced, has no entry for
    that field. *)
Theorem validateField_agrees_with_form_errors (auth : TzAuthority)
    (update : Validation.FieldUpdate) (allValues : SlotConfig) :
  fst (Validation.validateField auth update allValues) = true
  <-> Validation.getFormErrors auth (Validation.withField update allValues)
        !! Validation.fieldName update = None.
Proof.
  unfold Validation.validateField, Validation.getFormErrors.
  rewrite foldl_insert_lookup_None.
  destruct (List.filter _ _) as [|err rest]; simpl.
  - split; [intros _; split; [apply lookup_empty|reflexivity]|reflexivity].
  - split; [discriminate|intros [_ ?]; discriminate].
Qed.

Lemma filter_test (f : string) (passes : bool) (path msg : string) :
  List.filter (fun err => String.eqb (Validation.field err) f)
    (Validation.test passes path msg)
  = if String.eqb path f then Validation.test passes path msg else [].
Proof.
  destruct passes; simpl; destruct (String.eqb path f); reflexivity.
Qed.

(** X26: the two validators do not always give the same message.  For a
    start date left empty [validateField] stops at the first test of the
    field and reports that the date is required, while [getFormErrors] keeps
    the message of the last failed test of the field. *)
Theorem empty_start_date_messages (auth : TzAuthority) (allValues : SlotConfig) :
  startDate allValues = "" ->
  Validation.validateField auth (Validation.SetStartDate "") allValues
  = (false, Some "Start date is required")
  /\ Validation.getFormErrors auth allValues !! "startDate"
     = Some "Start date cannot be in the past".
Proof.
  intros Hempty. split; [reflexivity|].
  unfold Validation.getFormErrors. rewrite foldl_insert_lookup_last.
  unfold Validation.slotConfigValidationSchema. rewrite Hempty.
  cbv zeta. rewrite !List.filter_app, !filter_test.
  reflexivity.
Qed.

Lemma empty_start_date_messages_witness :
  Validation.validateField utcAuthority (Validation.SetStartDate "")
    (Validation.withField (Validation.SetStartDate "") sampleConfig)
  = (false, Some "Start date is required")
  /\ Validation.getFormErrors utcAuthority
       (Validation.withField (Validation.SetStartDate "") sampleConfig) !! "startDate"
     = Some "Start date cannot be in the past".
Proof.
  apply (empty_start_date_messages utcAuthority
           (Validation.withField (Validation.SetStartDate "") sampleConfig)).
  reflexivity.
Defined.

(** ** The availability mark of the slots screen *)




(** ** The slots of one day *)

Lemma slotsForDate_unfold (auth : TzAuthority) (clock : Z) (slots : list Slot)
    (date zone : string) (buffer : Z) (currentTime : option Z) :
  SlotFiltering.getSlotsForDate auth clock slots date (Some zone) (Some buffer)
    (Some currentTime)
  = SlotFiltering.sortByStart
      (let marked :=
         map (fun s => withAvailability (pipelineFlag auth currentTime zone buffer s) s)
           slots in
       if truthy date
       then SlotFiltering.filterSlotsByDateRange auth marked date date zone
       else marked).
Proof.
  unfold SlotFiltering.getSlotsForDate.
  rewrite getFilteredSlots_stages. unfold survivors. rewrite annotated_step.
  unfold SlotFiltering.limitStage, SlotFiltering.availableOnlyStage,
    SlotFiltering.timeRangeStage, SlotFiltering.dateRangeStage,
    SlotFiltering.bothGiven, SlotFiltering.wrapperOptions, annotated.
  simpl. destruct (truthy date); reflexivity.
Qed.

(** X28: [getSlotsForDate] returns, with the flag of the pipeline, exactly
    the slots of the input whose start lies within the day of the date as the
    zone has it, first and last instant included.  A date that is the empty
    text switches the filter off: every slot of the input is returned.  When
    the zone cannot be applied and the date is not empty it returns no
    slot. *)
Theorem slots_for_date (auth : TzAuthority) (clock : Z) (slots : list Slot)
    (date zone : string) (buffer : Z) (currentTime : option Z) :
  let result := SlotFiltering.getSlotsForDate auth clock slots date (Some zone)
                  (Some buffer) (Some currentTime) in
  let mark := fun s => withAvailability (pipelineFlag auth currentTime zone buffer s) s in
  (tzFault auth zone = None -> truthy date = true ->
   forall r,
     r ∈ result
     <-> exists s day t,
           s ∈ slots /\ r = mark s
           /\ SlotFiltering.dayOfText auth date = Some day
           /\ slotStart s = Some t
           /\ startOfDay auth zone day <= t <= endOfDay auth zone day)
  /\ (truthy date = false -> Permutation result (map mark slots))
  /\ (forall e, tzFault auth zone = Some e -> truthy date = true -> result = []).
Proof.
  intros result mark. subst result. rewrite slotsForDate_unfold. cbv zeta.
  fold mark. split; [|split].
  - intros Hok Hdate r. rewrite Hdate.
    rewrite (sortByStart_Permutation _).
    rewrite (dateRange_closed_form auth _ date date zone Hok).
    rewrite list_elem_of_In, filter_In, in_map_iff. split.
    + intros [(s & <- & Hin) Hkeep]. apply andb_true_iff in Hkeep as [Hlo Hhi].
      simpl in Hlo, Hhi.
      destruct (slotStart s) as [t|] eqn:Hstart,
               (SlotFiltering.dayOfText auth date) as [day|];
        simpl in Hlo, Hhi; try discriminate.
      exists s, day, t. apply Z.leb_le in Hlo, Hhi.
      rewrite list_elem_of_In. repeat split; auto.
    + intros (s & day & t & Hin & -> & Hday & Hstart & Hrange). split.
      * exists s. split; [reflexivity|]. now apply list_elem_of_In.
      * simpl. rewrite Hday, Hstart. simpl.
        apply andb_true_iff. split; apply Z.leb_le; lia.
  - intros ->. apply sortByStart_Permutation.
  - intros e Hfault ->.
    now rewrite (dateRange_fault auth _ date date zone e Hfault).
Qed.

Lemma slots_for_date_witness :
  (forall r,
     r ∈ SlotFiltering.getSlotsForDate utcAuthority 0 [slotAtTen; slotAtTenFortyFive]
           "2025-11-03" (Some "UTC") (Some 45) (Some (Some nineFifty))
     <-> exists s day t,
           s ∈ [slotAtTen; slotAtTenFortyFive]
           /\ r = withAvailability
                    (pipelineFlag utcAuthority (Some nineFifty) "UTC" 45 s) s
           /\ SlotFiltering.dayOfText utcAuthority "2025-11-03" = Some day
           /\ slotStart s = Some t
           /\ startOfDay utcAuthority "UTC" day <= t <= endOfDay utcAuthority "UTC" day)
  /\ Permutation
       (SlotFiltering.getSlotsForDate utcAuthority 0 [slotAtTen; slotAtTenFortyFive]
          "" (Some "UTC") (Some 45) (Some (Some nineFifty)))
       (map (fun s => withAvailability
                        (pipelineFlag utcAuthority (Some nineFifty) "UTC" 45 s) s)
          [slotAtTen; slotAtTenFortyFive])
  /\ SlotFiltering.getSlotsForDate faultyAuthority 0 [slotAtTen; slotAtTenFortyFive]
       "2025-11-03" (Some "Broken/Zone") (Some 45) (Some (Some nineFifty)) = [].
Proof.
  split; [|split].
  - apply (proj1 (slots_for_date utcAuthority 0 [slotAtTen; slotAtTenFortyFive]
                    "2025-11-03" "UTC" 45 (Some nineFifty))); reflexivity.
  - apply (proj1 (proj2 (slots_for_date utcAuthority 0 [slotAtTen; slotAtTenFortyFive]
                           "" "UTC" 45 (Some nineFifty)))); reflexivity.
  - apply (proj2 (proj2 (slots_for_date faultyAuthority 0
                           [slotAtTen; slotAtTenFortyFive]
                           "2025-11-03" "Broken/Zone" 45 (Some nineFifty)))
             (Error "Time zone lookup failed")); reflexivity.
Defined.
